(** * kuma-mieru: preload-data extraction and page configuration

    A shallow embedding of [config/api.ts] and [services/config.server.ts].
    JavaScript strings are sequences of UTF-16 code units; exceptions are
    explicit results; the object store that [getConfigForPage] copies from
    is an explicit heap. *)

From Stdlib Require Import ZArith NArith Lia Bool.
From Stdlib Require Import Ascii String DecimalString.
From stdpp Require Import gmap list strings.

Local Open Scope N_scope.

(** ** JavaScript strings *)

Module JS.

(** A string is the list of its UTF-16 code units. *)
Abbreviation jstring := (list N).

Fixpoint js (s : string) : jstring :=
  match s with
  | EmptyString => []
  | String c r => N_of_ascii c :: js r
  end.

(** [q "it's"] is [js] with every apostrophe turned into a double quote,
    so that payload text can be written inside a Rocq string literal. *)
Definition q (s : string) : jstring :=
  map (fun c => if N.eqb c 39 then 34 else c) (js s).

(** ECMAScript LineTerminator: LF, CR, LS, PS. *)
Definition isLineTerminator (c : N) : bool :=
  N.eqb c 10 || N.eqb c 13 || N.eqb c 8232 || N.eqb c 8233.

(** ECMAScript WhiteSpace and LineTerminator: the class [\s] of regular
    expressions and the characters removed by [String.prototype.trim]. *)
Definition isSpace (c : N) : bool :=
  N.eqb c 9 || N.eqb c 10 || N.eqb c 11 || N.eqb c 12 || N.eqb c 13
  || N.eqb c 32 || N.eqb c 160 || N.eqb c 5760
  || (N.leb 8192 c && N.leb c 8202)
  || N.eqb c 8232 || N.eqb c 8233 || N.eqb c 8239 || N.eqb c 8287
  || N.eqb c 12288 || N.eqb c 65279.

(** [!s || s.trim() === ''] *)
Definition blank (s : jstring) : bool := forallb isSpace s.

Fixpoint eqb (a b : jstring) : bool :=
  match a, b with
  | [], [] => true
  | x :: a', y :: b' => N.eqb x y && eqb a' b'
  | _, _ => false
  end.

(** [s.startsWith(p)], returning what follows the prefix. *)
Fixpoint stripPrefix (p s : jstring) : option jstring :=
  match p, s with
  | [], _ => Some s
  | x :: p', y :: s' => if N.eqb x y then stripPrefix p' s' else None
  | _ :: _, [] => None
  end.

(** [s.includes(p)] *)
Fixpoint includes (p s : jstring) : bool :=
  match stripPrefix p s with
  | Some _ => true
  | None => match s with [] => false | _ :: s' => includes p s' end
  end.

(** [s.slice(0, n)] *)
Definition slice0 (n : nat) (s : jstring) : jstring := take n s.

(** Number-to-string conversion of an integral number. *)
Definition ofZ (z : Z) : jstring :=
  js (NilZero.string_of_int (Z.to_int z)).

(** Thrown values: instances of the error classes the code tests for with
    [instanceof], each with its message, or a value that is no [Error]. *)
Inductive ErrorClass := ConfigError | ApiDataError | SyntaxError | TypeError | PlainError.

Inductive Thrown :=
| Err (c : ErrorClass) (message : jstring)
| NonError.

Inductive Result (A : Type) :=
| Returns (a : A)
| Throws (e : Thrown).
Arguments Returns {A} a.
Arguments Throws {A} e.

Definition bind {A B} (r : Result A) (k : A -> Result B) : Result B :=
  match r with
  | Returns a => k a
  | Throws e => Throws e
  end.

(** [try { body } catch (error) { handler(error) }] *)
Definition tryCatch {A} (body : Result A) (handler : Thrown -> Result A) : Result A :=
  match body with
  | Returns a => Returns a
  | Throws e => handler e
  end.

Definition instanceOf (c : ErrorClass) (e : Thrown) : bool :=
  match e, c with
  | Err ConfigError _, ConfigError => true
  | Err ApiDataError _, ApiDataError => true
  | Err SyntaxError _, SyntaxError => true
  | Err TypeError _, TypeError => true
  | _, _ => false
  end.

(** [error instanceof Error ? error.message : dflt] *)
Definition messageOr (dflt : jstring) (e : Thrown) : jstring :=
  match e with
  | Err _ m => m
  | NonError => dflt
  end.

End JS.

Import JS.
Arguments js : simpl never.
Arguments q : simpl never.
Arguments ofZ : simpl never.

#[global] Instance result_ret : MRet Result := @Returns.
#[global] Instance result_bind : MBind Result := fun A B k r => bind r k.

(** ** config/api.ts *)

Module Api.

Record SiteMeta := { title : jstring; description : jstring; icon : jstring }.

Record PageConfig := {
  page_id : jstring;
  page_name : option jstring;
  page_siteMeta : SiteMeta
}.

(** [env.config]: the generated configuration, already validated against
    its schema when the process starts. *)
Record GeneratedConfig := {
  env_baseUrl : jstring;
  env_defaultPageId : jstring;
  env_pages : list PageConfig;
  env_isPlaceholder : bool;
  env_isEditThisPage : bool;
  env_isShowStarButton : bool
}.

Record Config := {
  baseUrl : jstring;
  defaultPageId : jstring;
  pages : list PageConfig;
  currentPageId : jstring;
  htmlEndpoint : jstring;
  apiEndpoint : jstring;
  siteMeta : SiteMeta;
  isPlaceholder : bool;
  isEditThisPage : bool;
  isShowStarButton : bool
}.

(** [pages.find((page) => page.id === pageId)] *)
Definition findPage (pageId : jstring) (ps : list PageConfig) : option PageConfig :=
  find (fun p => eqb (page_id p) pageId) ps.

Definition getConfig (env : GeneratedConfig) : Result Config :=
  let baseUrl := env_baseUrl env in
  let defaultPageId := env_defaultPageId env in
  let pages := env_pages env in
  match baseUrl, defaultPageId, pages with
  | [], _, _ | _, [], _ | _, _, [] =>
      Throws (Err PlainError (js "Missing required configuration variables"))
  | _, _, page0 :: _ =>
      let defaultPage := default page0 (findPage defaultPageId pages) in
      Returns {|
        baseUrl := baseUrl;
        defaultPageId := defaultPageId;
        pages := pages;
        currentPageId := defaultPageId;
        htmlEndpoint := baseUrl ++ js "/status/" ++ defaultPageId;
        apiEndpoint := baseUrl ++ js "/api/status-page/heartbeat/" ++ defaultPageId;
        siteMeta := page_siteMeta defaultPage;
        isPlaceholder := false;
        isEditThisPage := env_isEditThisPage env || false;
        isShowStarButton := env_isShowStarButton env || true
      |}
  end.

(** Assignments to single properties of a [Config] object. *)
Definition set_currentPageId (v : jstring) (c : Config) : Config :=
  {| baseUrl := baseUrl c; defaultPageId := defaultPageId c; pages := pages c;
     currentPageId := v; htmlEndpoint := htmlEndpoint c;
     apiEndpoint := apiEndpoint c; siteMeta := siteMeta c;
     isPlaceholder := isPlaceholder c; isEditThisPage := isEditThisPage c;
     isShowStarButton := isShowStarButton c |}.

Definition set_htmlEndpoint (v : jstring) (c : Config) : Config :=
  {| baseUrl := baseUrl c; defaultPageId := defaultPageId c; pages := pages c;
     currentPageId := currentPageId c; htmlEndpoint := v;
     apiEndpoint := apiEndpoint c; siteMeta := siteMeta c;
     isPlaceholder := isPlaceholder c; isEditThisPage := isEditThisPage c;
     isShowStarButton := isShowStarButton c |}.

Definition set_apiEndpoint (v : jstring) (c : Config) : Config :=
  {| baseUrl := baseUrl c; defaultPageId := defaultPageId c; pages := pages c;
     currentPageId := currentPageId c; htmlEndpoint := htmlEndpoint c;
     apiEndpoint := v; siteMeta := siteMeta c;
     isPlaceholder := isPlaceholder c; isEditThisPage := isEditThisPage c;
     isShowStarButton := isShowStarButton c |}.

Definition set_siteMeta (v : SiteMeta) (c : Config) : Config :=
  {| baseUrl := baseUrl c; defaultPageId := defaultPageId c; pages := pages c;
     currentPageId := currentPageId c; htmlEndpoint := htmlEndpoint c;
     apiEndpoint := apiEndpoint c; siteMeta := v;
     isPlaceholder := isPlaceholder c; isEditThisPage := isEditThisPage c;
     isShowStarButton := isShowStarButton c |}.

(** The object store: [Config] objects by reference.  The module-level
    constant [apiConfig] is a reference into it. *)
Abbreviation loc := nat.
Abbreviation heap := (gmap loc Config).

(** A computation on the store; [None] is a dangling reference. *)
Definition St (A : Type) : Type := heap -> option (A * heap).

#[global] Instance St_ret : MRet St := fun A a h => Some (a, h).
#[global] Instance St_bind : MBind St := fun A B k m h =>
  match m h with
  | Some (a, h') => k a h'
  | None => None
  end.

(** [{ ...o }]: a new object with the own properties of [o]. *)
Definition spread (o : loc) : St loc := fun h =>
  match h !! o with
  | Some c => let l := fresh (dom h) in Some (l, <[l := c]> h)
  | None => None
  end.

(** [o.f] *)
Definition get {A} (o : loc) (f : Config -> A) : St A := fun h =>
  match h !! o with
  | Some c => Some (f c, h)
  | None => None
  end.

(** [o.f = v] *)
Definition assign (o : loc) (upd : Config -> Config) : St unit := fun h =>
  match h !! o with
  | Some c => Some (tt, <[o := upd c]> h)
  | None => None
  end.

Definition getConfigForPage (apiConfig : loc) (pageId : jstring) : St loc :=
  config ← spread apiConfig;
  ps ← get config pages;
  match findPage pageId ps with
  | Some page =>
      assign config (set_currentPageId pageId);;
      b ← get config baseUrl;
      assign config (set_htmlEndpoint (b ++ js "/status/" ++ pageId));;
      b ← get config baseUrl;
      assign config (set_apiEndpoint (b ++ js "/api/status-page/heartbeat/" ++ pageId));;
      assign config (set_siteMeta (page_siteMeta page));;
      mret config
  | None => mret config
  end.

(** What a call does to the store: one new object, which is the copy of
    [apiConfig] with the four assignments applied when the page exists. *)
Definition resultFor (pageId : jstring) (c : Config) : Config :=
  match findPage pageId (pages c) with
  | Some page =>
      set_siteMeta (page_siteMeta page)
        (set_apiEndpoint (baseUrl c ++ js "/api/status-page/heartbeat/" ++ pageId)
           (set_htmlEndpoint (baseUrl c ++ js "/status/" ++ pageId)
              (set_currentPageId pageId c)))
  | None => c
  end.

(** The store right after [config/api.ts] has been loaded: [apiConfig]
    lives at location [0]. *)
Definition apiConfig : loc := 0%nat.
Definition loaded (env : GeneratedConfig) : Result heap :=
  c ← getConfig env; mret ({[ apiConfig := c ]} : heap).

(** The object a call [getConfigForPage(pageId)] returns in a process
    that has just loaded the module. *)
Definition configForPage (env : GeneratedConfig) (pageId : jstring)
  : option Config :=
  match loaded env with
  | Returns h =>
      match getConfigForPage apiConfig pageId h with
      | Some (l, h') => h' !! l
      | None => None
      end
  | Throws _ => None
  end.

End Api.

(** ** The regular expression of the legacy locator *)

Module Regex.

(** The fragment of ECMAScript regular expressions that
    [/window\.preloadData\s*=\s*({.*});/] is written in: literal text, a
    greedy star over a character class, one capture group, sequence. *)
Inductive re :=
| Lit (l : jstring)
| Star (cls : N -> bool)
| Group (r : re)
| Seq (r1 r2 : re).

(** The class [.]: every code unit but the line terminators. *)
Definition dot (c : N) : bool := negb (isLineTerminator c).

(** Greedy star: take as many characters of the class as possible and
    give them back one at a time until the continuation succeeds. *)
Fixpoint star {X} (cls : N -> bool) (s : jstring) (k : jstring -> option X) : option X :=
  match s with
  | c :: s' =>
      if cls c then
        match star cls s' k with
        | Some x => Some x
        | None => k s
        end
      else k s
  | [] => k []
  end.

(** Backtracking matcher in continuation-passing style.  [cap] is the text
    of the capture group so far; the continuation receives the rest of the
    input and the capture. *)
Fixpoint matchRe {X} (r : re) (s : jstring) (cap : option jstring)
    (k : jstring -> option jstring -> option X) : option X :=
  match r with
  | Lit l =>
      match stripPrefix l s with
      | Some rest => k rest cap
      | None => None
      end
  | Star cls => star cls s (fun rest => k rest cap)
  | Group r1 =>
      matchRe r1 s cap
        (fun rest _ => k rest (Some (take (length s - length rest) s)))
  | Seq r1 r2 =>
      matchRe r1 s cap (fun rest cap' => matchRe r2 rest cap' k)
  end.

(** A match anchored at the start of [s]: the capture of the group. *)
Definition matchHere (r : re) (s : jstring) : option (option jstring) :=
  matchRe r s None (fun _ cap => Some cap).

(** [s.match(r)] for a regular expression without the [g] flag: the
    leftmost start position at which the expression matches. *)
Fixpoint exec (r : re) (s : jstring) : option (option jstring) :=
  match matchHere r s with
  | Some cap => Some cap
  | None =>
      match s with
      | [] => None
      | _ :: s' => exec r s'
      end
  end.

Definition marker : jstring := js "window.preloadData".

(** [/window\.preloadData\s*=\s*({.*});/] *)
Definition preloadDataRe : re :=
  Seq (Lit marker)
  (Seq (Star isSpace)
  (Seq (Lit (js "="))
  (Seq (Star isSpace)
  (Seq (Group (Seq (Lit (js "{")) (Seq (Star dot) (Lit (js "}")))))
       (Lit (js ";")))))).

End Regex.

(** ** The locator rule as the specification words it *)

Module LocatorSpec.

(** The specification asks for a brace-balance scan: from the first [{]
    after the assignment to the [}] that closes it, which must be followed
    by [;].  [balanced depth s] splits [s] after the brace that closes
    [depth] open braces. *)
Fixpoint balanced (depth : nat) (s : jstring) : option (jstring * jstring) :=
  match s with
  | [] => None
  | c :: s' =>
      if N.eqb c 123 then
        '(lit, rest) ← balanced (S depth) s'; Some (c :: lit, rest)
      else if N.eqb c 125 then
        match depth with
        | 0%nat => None
        | 1%nat => Some ([c], s')
        | S d => '(lit, rest) ← balanced d s'; Some (c :: lit, rest)
        end
      else '(lit, rest) ← balanced depth s'; Some (c :: lit, rest)
  end.

Fixpoint skipSpace (s : jstring) : jstring :=
  match s with
  | c :: s' => if isSpace c then skipSpace s' else s
  | [] => []
  end.

(** The object literal assigned at the start of [s], if [s] starts with
    the assignment. *)
Definition assignedLiteral (s : jstring) : option jstring :=
  afterName ← stripPrefix Regex.marker s;
  afterEq ← stripPrefix (js "=") (skipSpace afterName);
  '(lit, rest) ← balanced 0 (skipSpace afterEq);
  match lit, rest with
  | 123 :: _, 59 :: _ => Some lit
  | _, _ => None
  end.

(** The literal of the leftmost assignment in the script text. *)
Fixpoint balancedCapture (s : jstring) : option jstring :=
  match assignedLiteral s with
  | Some lit => Some lit
  | None =>
      match s with
      | [] => None
      | _ :: s' => balancedCapture s'
      end
  end.

End LocatorSpec.

(** ** services/config.server.ts *)

(** Logging ([console.log], [console.error], [logApiError]) has no bearing
    on what the functions return or throw and is left out; so is the
    memoization by React's [cache], which only saves repeated calls. *)

Module Server.

(** *** Upstream data *)

#[warnings="-register-all"]
Inductive JSON :=
| JNull
| JBool (b : bool)
| JNum (n : Z)
| JStr (s : jstring)
| JArr (l : list JSON)
| JObj (m : gmap jstring JSON).

(** [!v] is [negb (truthy v)]. *)
Definition truthy (v : JSON) : bool :=
  match v with
  | JNull => false
  | JBool b => b
  | JNum n => negb (Z.eqb n 0)
  | JStr s => negb (eqb s [])
  | JArr _ | JObj _ => true
  end.

(** [typeof v === 'string']; [None] is [undefined]. *)
Definition isString (v : option JSON) : bool :=
  match v with
  | Some (JStr _) => true
  | _ => false
  end.

(** [field in v]: a [TypeError] on a primitive. *)
Definition hasProperty (field : jstring) (v : JSON) : Result bool :=
  match v with
  | JObj m => Returns (bool_decide (is_Some (m !! field)))
  | JArr l =>
      Returns (eqb field (js "length")
               || existsb (fun i => eqb field (ofZ (Z.of_nat i))) (seq 0 (length l)))
  | _ => Throws (Err TypeError (js "Cannot use 'in' operator"))
  end.

(** [v.field] on a value that is not [null]. *)
Definition getProperty (field : jstring) (v : JSON) : option JSON :=
  match v with
  | JObj m => m !! field
  | _ => None
  end.

(** The own enumerable properties copied by [{ ...v }]. *)
Definition ownProperties (v : JSON) : gmap jstring JSON :=
  match v with
  | JObj m => m
  | JArr l => list_to_map (imap (fun i x => (ofZ (Z.of_nat i), x)) l)
  | _ => ∅
  end.

Record TimeSlot := { startDate : jstring; endDate : jstring }.

(** A maintenance item.  [rest] stands for every property other than
    [timeslotList] and [status] (id, title, description, ...). *)
Record Maintenance (Rest : Type) := {
  rest : Rest;
  timeslotList : option (list TimeSlot);
  status : option jstring
}.
Arguments rest {Rest} _.
Arguments timeslotList {Rest} _.
Arguments status {Rest} _.

(** An incident; [incidentRest] stands for the properties other than the
    two dates. *)
Record Incident (IRest : Type) := {
  incidentRest : IRest;
  createdDate : jstring;
  lastUpdatedDate : jstring
}.
Arguments incidentRest {IRest} _.
Arguments createdDate {IRest} _.
Arguments lastUpdatedDate {IRest} _.

(** The value of [preloadData.maintenanceList]: an array of maintenance
    items, or any value for which [Array.isArray] is false (the code never
    looks inside such a value). *)
Inductive MaintenanceValue (Rest : Type) :=
| NotArray
| IsArray (l : list (Maintenance Rest)).
Arguments NotArray {Rest}.
Arguments IsArray {Rest} l.

Record PreloadData (Rest IRest : Type) := {
  config : option JSON;
  incident : option (Incident IRest);
  maintenanceList : MaintenanceValue Rest
}.
Arguments config {Rest IRest} _.
Arguments incident {Rest IRest} _.
Arguments maintenanceList {Rest IRest} _.

(** *** The fetched page *)

(** The document as cheerio exposes it to the two selectors used here:
    its elements in document order, with tag name, [id] attribute and
    text content. *)
Record Element := {
  tagName : jstring;
  idAttr : option jstring;
  textContent : jstring
}.
Abbreviation Document := (list Element).

(** [$(selector).text()]: the text of all selected elements, joined. *)
Definition text (selection : list Element) : jstring :=
  concat (map textContent selection).

(** [$('#preload-data')] *)
Definition selectPreloadData (doc : Document) : list Element :=
  filter (fun e => idAttr e = Some (js "preload-data")) doc.

(** [$('script:contains("window.preloadData")')] *)
Definition selectScriptWithPreloadData (doc : Document) : list Element :=
  filter (fun e => eqb (tagName e) (js "script") = true
                   ∧ includes Regex.marker (textContent e) = true) doc.

Record Response := {
  httpStatus : Z;
  statusText : jstring;
  body : Document
}.

(** [response.ok]: the status is in the range 200-299. *)
Definition ok (r : Response) : bool :=
  (200 <=? httpStatus r)%Z && (httpStatus r <=? 299)%Z.

(** *** Numbers that may be NaN *)

(** [new Date(s).getTime()] is a number of milliseconds or NaN ([None]);
    every comparison with NaN is false. *)
Definition geTime (now : Z) (t : option Z) : bool :=
  match t with
  | Some x => (x <=? now)%Z
  | None => false
  end.

Definition ltTime (now : Z) (t : option Z) : bool :=
  match t with
  | Some x => (now <? x)%Z
  | None => false
  end.

Record MaintenanceData (Rest : Type) := {
  success : bool;
  data_maintenanceList : list (Maintenance Rest);
  error : option jstring
}.
Arguments success {Rest} _.
Arguments data_maintenanceList {Rest} _.
Arguments error {Rest} _.

Record GlobalConfig (Rest IRest : Type) := {
  global_config : gmap jstring JSON;
  global_incident : option (Incident IRest);
  global_maintenanceList : list (Maintenance Rest)
}.
Arguments global_config {Rest IRest} _.
Arguments global_incident {Rest IRest} _.
Arguments global_maintenanceList {Rest IRest} _.

(** The object returned by the [catch] branch of [getGlobalConfig]. *)
Definition placeholderConfig : gmap jstring JSON :=
  <[js "slug" := JStr []]>
  (<[js "title" := JStr []]>
  (<[js "description" := JStr []]>
  (<[js "icon" := JStr (js "/icon.svg")]>
  (<[js "theme" := JStr (js "system")]>
  (<[js "published" := JBool true]>
  (<[js "showTags" := JBool true]>
  (<[js "customCSS" := JStr []]>
  (<[js "footerText" := JStr []]>
  (<[js "showPoweredBy" := JBool false]>
  (<[js "googleAnalyticsId" := JNull]>
  (<[js "showCertificateExpiry" := JBool false]> ∅))))))))))).

Definition requiredFields : list jstring :=
  [js "slug"; js "title"; js "description"; js "icon"; js "theme"].

Section Server.

(** Properties of maintenance items and incidents that this file only
    copies. *)
Context {Rest IRest : Type}.

(** [ensureUTCTimezone] of [services/utils/common]. *)
Variable ensureUTCTimezone : jstring -> jstring.

(** [(s) => new Date(s).getTime()] *)
Variable dateGetTime : jstring -> option Z.

(** [sanitizeJsonString] of [utils/json-sanitizer] and
    [extractPreloadData] of [utils/json-processor]; either may throw. *)
Variable sanitizeJsonString : jstring -> Result jstring.
Variable extractPreloadData : jstring -> Result (PreloadData Rest IRest).

(** The callback of [maintenanceList.map] in [processMaintenanceData];
    [now] is the value [Date.now()] returns in this call. *)
Definition processMaintenance (now : Z) (maintenance : Maintenance Rest)
  : Maintenance Rest :=
  let processed := maintenance in
  let processed :=
    match timeslotList maintenance with
    | Some ((_ :: _) as slots) =>
        {| rest := rest processed;
           timeslotList :=
             Some (map (fun slot =>
                          {| startDate := ensureUTCTimezone (startDate slot);
                             endDate := ensureUTCTimezone (endDate slot) |})
                       slots);
           status := status processed |}
    | _ => processed
    end in
  match timeslotList processed with
  | Some (slot0 :: _) =>
      let startTime := dateGetTime (startDate slot0) in
      let endTime := dateGetTime (endDate slot0) in
      let setStatus s :=
        {| rest := rest processed;
           timeslotList := timeslotList processed;
           status := Some s |} in
      if geTime now startTime && ltTime now endTime then
        setStatus (js "under-maintenance")
      else if ltTime now startTime then
        setStatus (js "scheduled")
      else if geTime now endTime then
        setStatus (js "ended")
      else processed
  | _ => processed
  end.

(** [clock i] is what the [i]-th call of [Date.now()] returns: one call
    for each item, in order. *)
Definition processMaintenanceData (clock : nat -> Z)
    (maintenanceList : list (Maintenance Rest)) : list (Maintenance Rest) :=
  imap (fun i maintenance => processMaintenance (clock i) maintenance)
       maintenanceList.

(** The text that [getPreloadData] hands to the sanitizer: the value of
    [preloadScript] after both locator strategies have run. *)
Definition locatePreloadScript (doc : Document) : jstring :=
  let preloadScript := text (selectPreloadData doc) in
  if blank preloadScript then
    let scriptWithPreloadData := text (selectScriptWithPreloadData doc) in
    match scriptWithPreloadData with
    | [] => preloadScript
    | _ :: _ =>
        match Regex.exec Regex.preloadDataRe scriptWithPreloadData with
        | Some (Some (c :: m1)) => c :: m1
        | _ => preloadScript
        end
    end
  else preloadScript.

(** The inner [try]/[catch] of [getPreloadData]: sanitize, parse, and
    turn whatever is thrown into a [ConfigError]. *)
Definition parsePreloadScript (preloadScript : jstring)
  : Result (PreloadData Rest IRest) :=
  tryCatch
    (jsonStr ← sanitizeJsonString preloadScript;
     extractPreloadData jsonStr)
    (fun error =>
       match error with
       | Err SyntaxError message =>
           Throws (Err ConfigError
                     (js "JSON parsing failed: " ++ message ++ [10]
                      ++ js "Processed data: "
                      ++ slice0 100 preloadScript ++ js "..."))
       | Err ConfigError _ => Throws error
       | _ =>
           Throws (Err ConfigError
                     (js "Failed to parse preload data: "
                      ++ messageOr (js "Unknown error") error))
       end).

(** [fetched] is the outcome of [customFetch(htmlEndpoint, ...)]: a
    response, or the exception of a failed request. *)
Definition getPreloadData (fetched : Result Response)
  : Result (PreloadData Rest IRest) :=
  tryCatch
    (htmlResponse ← fetched;
     if negb (ok htmlResponse) then
       Throws (Err ConfigError
                 (js "Failed to get HTML: " ++ ofZ (httpStatus htmlResponse)
                  ++ js " " ++ statusText htmlResponse))
     else
       let preloadScript := locatePreloadScript (body htmlResponse) in
       if blank preloadScript then
         Throws (Err ConfigError (js "Preload script tag not found or empty"))
       else parsePreloadScript preloadScript)
    (fun error =>
       if instanceOf ConfigError error then Throws error
       else
         Throws (Err ConfigError
                   (js "Failed to get preload data, please check network connection and server status"))).

Definition getMaintenanceData (fetched : Result Response) (clock : nat -> Z)
  : Result (MaintenanceData Rest) :=
  tryCatch
    (preloadData ← getPreloadData fetched;
     match maintenanceList preloadData with
     | NotArray =>
         Throws (Err ApiDataError (js "Maintenance list data must be an array"))
     | IsArray maintenanceList =>
         let processedList := processMaintenanceData clock maintenanceList in
         Returns {| success := true;
                    data_maintenanceList := processedList;
                    error := None |}
     end)
    (fun error =>
       Returns {| success := false;
                  data_maintenanceList := [];
                  error := Some (messageOr (js "Unknown error occurred") error) |}).

(** The loop over [requiredFields]. *)
Fixpoint checkRequired (fields : list jstring) (config : JSON) : Result unit :=
  match fields with
  | [] => Returns tt
  | field :: fields' =>
      present ← hasProperty field config;
      if negb present then
        Throws (Err ConfigError
                  (js "Configuration is missing required field: " ++ field))
      else checkRequired fields' config
  end.

(** [fetched1] answers the request of [getGlobalConfig] itself, [fetched2]
    the one issued by its call of [getMaintenanceData]. *)
Definition getGlobalConfig (fetched1 fetched2 : Result Response)
    (clock : nat -> Z) : Result (GlobalConfig Rest IRest) :=
  tryCatch
    (preloadData ← getPreloadData fetched1;
     match config preloadData with
     | None => Throws (Err ConfigError (js "Configuration data is missing"))
     | Some cfg =>
         if negb (truthy cfg) then
           Throws (Err ConfigError (js "Configuration data is missing"))
         else
           checkRequired requiredFields cfg;;
           if negb (isString (getProperty (js "theme") cfg)) then
             Throws (Err ConfigError (js "Theme must be a string"))
           else
             let theme :=
               match getProperty (js "theme") cfg with
               | Some (JStr t) =>
                   if eqb t (js "dark") then js "dark"
                   else if eqb t (js "light") then js "light"
                   else js "system"
               | _ => js "system"
               end in
             maintenanceData ← getMaintenanceData fetched2 clock;
             let maintenanceList := data_maintenanceList maintenanceData in
             Returns {|
               global_config := <[js "theme" := JStr theme]> (ownProperties cfg);
               global_incident :=
                 match incident preloadData with
                 | Some i =>
                     Some {| incidentRest := incidentRest i;
                             createdDate := ensureUTCTimezone (createdDate i);
                             lastUpdatedDate := ensureUTCTimezone (lastUpdatedDate i) |}
                 | None => None
                 end;
               global_maintenanceList := maintenanceList
             |}
     end)
    (fun error =>
       Returns {| global_config := placeholderConfig;
                  global_incident := None;
                  global_maintenanceList := [] |}).

(** *** Notions used to state properties *)

(** A slot after [ensureUTCTimezone] has been applied to both dates. *)
Definition normalizeSlot (slot : TimeSlot) : TimeSlot :=
  {| startDate := ensureUTCTimezone (startDate slot);
     endDate := ensureUTCTimezone (endDate slot) |}.

(** Start and end of a slot as the calculator compares them with [now]. *)
Definition startTime (slot : TimeSlot) : option Z :=
  dateGetTime (ensureUTCTimezone (startDate slot)).
Definition endTime (slot : TimeSlot) : option Z :=
  dateGetTime (ensureUTCTimezone (endDate slot)).

(** [{ ...m, timeslotList: slots }] *)
Definition withSlots (m : Maintenance Rest) (slots : option (list TimeSlot))
  : Maintenance Rest :=
  {| rest := rest m; timeslotList := slots; status := status m |}.

(** The theme of the returned configuration for a raw theme string. *)
Definition normalizeTheme (raw : jstring) : jstring :=
  if eqb raw (js "dark") then js "dark"
  else if eqb raw (js "light") then js "light"
  else js "system".

(** The value returned by the [catch] branch of [getGlobalConfig]. *)
Definition placeholder : GlobalConfig Rest IRest :=
  {| global_config := placeholderConfig;
     global_incident := None;
     global_maintenanceList := [] |}.

End Server.

End Server.

(** ** The sanitizer *)

Module Sanitizer.

(** [utils/json-sanitizer] is not part of the sources at hand; this module
    models it from the specification (see [sanitizeJsonString] below): a
    scanner that tells string literals, comments and structural text
    apart, followed by repairs on the structural tokens. *)

Inductive token :=
| TStr (content : jstring)  (* a string literal, written between double quotes *)
| TWord (w : jstring)       (* a maximal run of word characters *)
| TSpace (c : N)            (* one whitespace character *)
| TPunct (c : N)            (* one character of any other kind *)
| TOpen (raw : jstring).    (* a string literal that is never closed *)

Definition dquote : N := 34.
Definition squote : N := 39.
Definition backslash : N := 92.
Definition slash : N := 47.
Definition asterisk : N := 42.

Definition isQuote (c : N) : bool := N.eqb c dquote || N.eqb c squote.

(** Letters, digits, [_] and [$]. *)
Definition isWord (c : N) : bool :=
  (N.leb 48 c && N.leb c 57) || (N.leb 65 c && N.leb c 90)
  || (N.leb 97 c && N.leb c 122) || N.eqb c 95 || N.eqb c 36.

Definition startsWord (s : jstring) : bool :=
  match s with
  | c :: _ => isWord c
  | [] => false
  end.

(** The content of a single-quoted literal as the content of a
    double-quoted one: [\'] loses its backslash, a bare double quote gains
    one, every other escape sequence stays. *)
Fixpoint requote (raw : jstring) : jstring :=
  match raw with
  | [] => []
  | c :: raw' =>
      if N.eqb c backslash then
        match raw' with
        | c2 :: raw'' =>
            if N.eqb c2 squote then c2 :: requote raw''
            else c :: c2 :: requote raw''
        | [] => [c]
        end
      else if N.eqb c dquote then backslash :: c :: requote raw'
      else c :: requote raw'
  end.

Definition content (quote : N) (raw : jstring) : jstring :=
  if N.eqb quote squote then requote raw else raw.

(** The states of the scanner.  Accumulators hold the characters read so
    far, last one first. *)
Inductive state :=
| Structural
| InWord (acc : jstring)               (* the next character is a word character *)
| InString (quote : N) (acc : jstring)
| LineComment
| BlockComment.

Fixpoint scan (st : state) (s : jstring) : list token :=
  match st, s with
  | Structural, [] => []
  | Structural, c :: r =>
      if isWord c then
        if startsWord r then scan (InWord [c]) r
        else TWord [c] :: scan Structural r
      else if isQuote c then scan (InString c []) r
      else if N.eqb c slash then
        match r with
        | c2 :: r2 =>
            if N.eqb c2 slash then scan LineComment r2
            else if N.eqb c2 asterisk then scan BlockComment r2
            else TPunct c :: scan Structural r
        | [] => [TPunct c]
        end
      else if isSpace c then TSpace c :: scan Structural r
      else TPunct c :: scan Structural r
  | InWord acc, [] => [TWord (rev acc)]
  | InWord acc, c :: r =>
      if startsWord r then scan (InWord (c :: acc)) r
      else TWord (rev (c :: acc)) :: scan Structural r
  | InString quote acc, [] => [TOpen (quote :: rev acc)]
  | InString quote acc, c :: r =>
      if N.eqb c quote then TStr (content quote (rev acc)) :: scan Structural r
      else if N.eqb c backslash then
        match r with
        | c2 :: r2 => scan (InString quote (c2 :: c :: acc)) r2
        | [] => [TOpen (quote :: rev (c :: acc))]
        end
      else scan (InString quote (c :: acc)) r
  | LineComment, [] => []
  | LineComment, c :: r =>
      if isLineTerminator c then TSpace c :: scan Structural r
      else scan LineComment r
  | BlockComment, [] => []
  | BlockComment, c :: r =>
      if N.eqb c asterisk then
        match r with
        | c2 :: r2 =>
            if N.eqb c2 slash then TSpace 32 :: scan Structural r2
            else scan BlockComment r
        | [] => []
        end
      else scan BlockComment r
  end.

Fixpoint skipSpaces (ts : list token) : list token :=
  match ts with
  | TSpace _ :: ts' => skipSpaces ts'
  | _ => ts
  end.

(** Is the next token that is not whitespace the character [c]? *)
Definition nextIs (c : N) (ts : list token) : bool :=
  match skipSpaces ts with
  | TPunct d :: _ => N.eqb d c
  | _ => false
  end.

(** [Date("...")] after the word [new]: the argument and what follows the
    call. *)
Definition dateCall (ts : list token) : option (jstring * list token) :=
  match skipSpaces ts with
  | TWord w :: ts1 =>
      match skipSpaces ts1 with
      | TPunct c1 :: ts2 =>
          match skipSpaces ts2 with
          | TStr iso :: ts3 =>
              match skipSpaces ts3 with
              | TPunct c2 :: ts4 =>
                  if eqb w (js "Date") && N.eqb c1 40 && N.eqb c2 41
                  then Some (iso, ts4)
                  else None
              | _ => None
              end
          | _ => None
          end
      | _ => None
      end
  | _ => None
  end.

(** One token put in front of text that is already repaired. *)
Definition repair (t : token) (ts : list token) : list token :=
  match t with
  | TPunct c =>
      if N.eqb c 44 && (nextIs 125 ts || nextIs 93 ts) then ts
      else t :: ts
  | TWord w =>
      if nextIs 58 ts then TStr w :: ts
      else if eqb w (js "undefined") || eqb w (js "NaN") then
        TWord (js "null") :: ts
      else if eqb w (js "new") then
        match dateCall ts with
        | Some (iso, ts') => TStr iso :: ts'
        | None => t :: ts
        end
      else t :: ts
  | _ => t :: ts
  end.

Definition normalize (ts : list token) : list token :=
  fold_right repair [] ts.

Definition printToken (t : token) : jstring :=
  match t with
  | TStr s => dquote :: s ++ [dquote]
  | TWord w => w
  | TSpace c => [c]
  | TPunct c => [c]
  | TOpen raw => raw
  end.

Definition print (ts : list token) : jstring :=
  concat (map printToken ts).

(** Modelled from the spec: [sanitizeJsonString] of [utils/json-sanitizer]
    is missing from the sources.  The specification describes it as a
    single pass over the text that is aware of string-literal boundaries
    and that
    - quotes unquoted object keys and turns single-quoted keys and values
      into double-quoted ones, escaping embedded double quotes and keeping
      embedded single quotes;
    - removes a comma that is followed by a closing brace or bracket;
    - replaces [undefined] and [NaN] by [null], and a date constructor
      call by its ISO-8601 string;
    - strips comments, leaving string contents alone;
    and asks that running it twice gives the same text as running it once.
    The choices the specification leaves to the implementer are made as
    follows: a string literal that is never closed is left as it is up to
    the end of the text; a block comment is replaced by one space, a line
    comment by nothing; a word followed by a colon is a key; the date
    constructor call that is rewritten is [new Date("...")], which becomes
    its string argument. *)
Definition sanitizeJsonString (s : jstring) : jstring :=
  print (normalize (scan Structural s)).

(** *** Notions used to state properties *)

(** Token lists on which no repair applies, at any position. *)
Inductive normal : list token -> Prop :=
| normal_nil : normal []
| normal_cons t ts : normal ts -> repair t ts = t :: ts -> normal (t :: ts).

(** Contents of a literal delimited by [quote]: no bare [quote], and every
    backslash is followed by a character. *)
Inductive escaped (quote : N) : jstring -> Prop :=
| escaped_nil : escaped quote []
| escaped_plain c s :
    c <> quote -> c <> backslash -> escaped quote s -> escaped quote (c :: s)
| escaped_pair c s :
    escaped quote s -> escaped quote (backslash :: c :: s).

Definition headIsWord (ts : list token) : bool :=
  match ts with
  | TWord _ :: _ => true
  | _ => false
  end.

Definition headIsSlashOrStar (ts : list token) : bool :=
  match ts with
  | TPunct c :: _ => N.eqb c slash || N.eqb c asterisk
  | _ => false
  end.

(** Token lists that the scanner reads back from their printed form. *)
Inductive lexed : list token -> Prop :=
| lexed_nil : lexed []
| lexed_str b ts :
    escaped dquote b -> lexed ts -> lexed (TStr b :: ts)
| lexed_word w ts :
    w <> [] -> Forall (fun c => isWord c = true) w ->
    headIsWord ts = false -> lexed ts -> lexed (TWord w :: ts)
| lexed_space c ts :
    isSpace c = true -> lexed ts -> lexed (TSpace c :: ts)
| lexed_punct c ts :
    isWord c = false -> isQuote c = false -> isSpace c = false ->
    (c = slash -> headIsSlashOrStar ts = false) ->
    lexed ts -> lexed (TPunct c :: ts)
| lexed_open quote raw :
    isQuote quote = true ->
    scan (InString quote []) raw = [TOpen (quote :: raw)] ->
    lexed [TOpen (quote :: raw)].

(** The first token is a string literal or whitespace, or there is none. *)
Definition quiet (ts : list token) : bool :=
  match ts with
  | [] | TStr _ :: _ | TSpace _ :: _ | TOpen _ :: _ => true
  | _ => false
  end.

End Sanitizer.

(** ** Concrete collaborators for worked examples *)

Module Fixture.

Import Server.

Local Open Scope Z_scope.

Definition digit (c : N) : option Z :=
  if (N.leb 48 c && N.leb c 57)%bool then Some (Z.of_N c - 48) else None.

Definition number2 (a b : N) : option Z :=
  x ← digit a; y ← digit b; Some (10 * x + y).

Definition isLeap (y : Z) : bool :=
  ((y mod 4 =? 0) && negb (y mod 100 =? 0) || (y mod 400 =? 0))%bool.

Definition daysInMonth (y m : Z) : Z :=
  if m =? 2 then (if isLeap y then 29 else 28)
  else if (m =? 4) || (m =? 6) || (m =? 9) || (m =? 11) then 30
  else 31.

(** Days between 1970-01-01 and the given day of the proleptic Gregorian
    calendar. *)
Definition daysFromCivil (y m d : Z) : Z :=
  let y' := if m <=? 2 then y - 1 else y in
  let era := y' / 400 in
  let yoe := y' - era * 400 in
  let mp := if m <=? 2 then m + 9 else m - 3 in
  let doy := (153 * mp + 2) / 5 + d - 1 in
  let doe := yoe * 365 + yoe / 4 - yoe / 100 + doy in
  era * 146097 + doe - 719468.

(** [new Date(s).getTime()] on text of the ECMAScript date-time format
    [YYYY-MM-DDTHH:mm:ssZ]; any other text is NaN here. *)
Definition isoGetTime (s : jstring) : option Z :=
  match s with
  | [y1; y2; y3; y4; 45%N; m1; m2; 45%N; d1; d2; 84%N;
     h1; h2; 58%N; i1; i2; 58%N; s1; s2; 90%N] =>
      yh ← number2 y1 y2; yl ← number2 y3 y4;
      mo ← number2 m1 m2; d ← number2 d1 d2;
      h ← number2 h1 h2; mi ← number2 i1 i2; se ← number2 s1 s2;
      let y := 100 * yh + yl in
      if ((1 <=? mo) && (mo <=? 12) && (1 <=? d) && (d <=? daysInMonth y mo)
          && (h <=? 23) && (mi <=? 59) && (se <=? 59))%bool
      then Some ((((daysFromCivil y mo d * 24 + h) * 60 + mi) * 60 + se) * 1000)
      else None
  | _ => None
  end.

(** Modelled from the spec: [ensureUTCTimezone] of [services/utils/common]
    is not part of the sources at hand; the spec says timestamps are
    "normalized to UTC".  Here text that already ends with the UTC
    designator [Z] is returned as it is, and the designator is appended to
    any other text. *)
Definition ensureUTCTimezone (s : jstring) : jstring :=
  match last s with
  | Some 90%N => s
  | _ => s ++ [90%N]
  end.

(** A parser stand-in that accepts the single payload text [accepted] and
    answers it with [payload]; any other text is a syntax error. *)
Definition parseOnly {Rest IRest} (accepted : jstring)
    (payload : PreloadData Rest IRest) (s : jstring)
  : Result (PreloadData Rest IRest) :=
  if eqb s accepted then Returns payload
  else Throws (Err SyntaxError (js "Unexpected token")).

Definition script (content : jstring) : Element :=
  {| tagName := js "script"; idAttr := None; textContent := content |}.

(** The example of the specification: no [#preload-data] element, one
    legacy script. *)
Definition legacyPage : Document :=
  [ {| tagName := js "title"; idAttr := None; textContent := js "Status" |};
    script (q "window.preloadData = {'config':{'theme':'dark'}};") ].

(** A legacy script with a second statement on the same line. *)
Definition twoStatements : Document :=
  [ script (q "window.preloadData = {'a':{'b':1}}; window.other = {'c':2};") ].

(** A page without any script, and two responses. *)
Definition barePage : Document :=
  [ {| tagName := js "title"; idAttr := None; textContent := js "Status" |} ].
Definition serverError : Response :=
  {| httpStatus := 500; statusText := js "Internal Server Error"; body := [] |}.
Definition okResponse (doc : Document) : Response :=
  {| httpStatus := 200; statusText := js "OK"; body := doc |}.

(** The current convention: the payload is the text of [#preload-data]. *)
Definition preloadPage (payload : jstring) : Document :=
  [ {| tagName := js "script"; idAttr := Some (js "preload-data");
       textContent := payload |} ].

(** The payload [{}]: no [config], no [maintenanceList]. *)
Definition emptyPayload : PreloadData unit unit :=
  {| config := None; incident := None; maintenanceList := NotArray |}.

(** A payload with a complete [config] whose theme is [auto], and a
    [maintenanceList] that is not an array. *)
Definition autoThemeConfig : gmap jstring JSON :=
  <[js "slug" := JStr (js "demo")]>
  (<[js "title" := JStr (js "Demo")]>
  (<[js "description" := JNull]>
  (<[js "icon" := JStr (js "/icon.svg")]>
  (<[js "theme" := JStr (js "auto")]> ∅)))).
Definition autoThemePayload : PreloadData unit unit :=
  {| config := Some (JObj autoThemeConfig); incident := None;
     maintenanceList := NotArray |}.

(** A sanitizer stand-in that returns its input. *)
Definition keep (s : jstring) : Result jstring := Returns s.

(** A maintenance window of the year 2025, one whose end precedes its
    start, and two instants. *)
Definition window2025 : TimeSlot :=
  {| startDate := js "2025-01-01T00:00:00Z"; endDate := js "2025-12-31T00:00:00Z" |}.
Definition invertedSlot : TimeSlot :=
  {| startDate := js "2030-01-01T00:00:00Z"; endDate := js "2020-01-01T00:00:00Z" |}.
Definition item (slots : list TimeSlot) : Maintenance unit :=
  {| rest := tt; timeslotList := Some slots; status := None |}.
(** 2025-06-01T00:00:00Z *)
Definition june2025 : Z := 1748736000000.

(** Two pages, the second one being the default page. *)
Definition metaA : Api.SiteMeta :=
  {| Api.title := js "Alpha"; Api.description := js "first page";
     Api.icon := js "/a.svg" |}.
Definition metaB : Api.SiteMeta :=
  {| Api.title := js "Beta"; Api.description := js "second page";
     Api.icon := js "/b.svg" |}.
Definition pageA : Api.PageConfig :=
  {| Api.page_id := js "a"; Api.page_name := None; Api.page_siteMeta := metaA |}.
Definition pageB : Api.PageConfig :=
  {| Api.page_id := js "b"; Api.page_name := None; Api.page_siteMeta := metaB |}.
Definition twoPages : Api.GeneratedConfig :=
  {| Api.env_baseUrl := js "https://kuma.example";
     Api.env_defaultPageId := js "b";
     Api.env_pages := [pageA; pageB];
     Api.env_isPlaceholder := false;
     Api.env_isEditThisPage := false;
     Api.env_isShowStarButton := true |}.

(** What [getConfig] builds from [twoPages], and the store holding it. *)
Definition twoPagesConfig : Api.Config :=
  {| Api.baseUrl := js "https://kuma.example";
     Api.defaultPageId := js "b";
     Api.pages := [pageA; pageB];
     Api.currentPageId := js "b";
     Api.htmlEndpoint := js "https://kuma.example/status/b";
     Api.apiEndpoint := js "https://kuma.example/api/status-page/heartbeat/b";
     Api.siteMeta := metaB;
     Api.isPlaceholder := false;
     Api.isEditThisPage := false;
     Api.isShowStarButton := true |}.
Definition twoPagesHeap : gmap nat Api.Config :=
  {[ Api.apiConfig := twoPagesConfig ]}.

End Fixture.

(** ** utils/url.ts *)

Module Url.

(** [s.startsWith(p)] *)
Definition startsWith (p s : jstring) : bool :=
  match stripPrefix p s with
  | Some _ => true
  | None => false
  end.

(** [s.replace(/^\//, '')] *)
Definition dropLeadingSlash (s : jstring) : jstring :=
  match stripPrefix (js "/") s with
  | Some r => r
  | None => s
  end.

(** Both arguments are optional; [None] is [undefined]. *)
Definition resolveIconUrl (iconPath baseUrl : option jstring) : jstring :=
  let defaultIcon := js "/icon.svg" in
  match iconPath with
  | None | Some [] => defaultIcon
  | Some iconPath =>
      if startsWith (js "http") iconPath then iconPath
      else
        match baseUrl with
        | None | Some [] =>
            if startsWith (js "/") iconPath then iconPath
            else js "/" ++ iconPath
        | Some baseUrl => baseUrl ++ js "/" ++ dropLeadingSlash iconPath
        end
  end.

End Url.

(** ** config/site.ts *)

Module Site.

Import Api.

Record NavItem := { label : jstring; href : jstring; external : bool }.

Record SiteConfig := {
  name : jstring;
  siteDescription : jstring;
  siteIcon : jstring;
  navItems : list NavItem;
  navMenuItems : list NavItem
}.

(** [a || b] on strings: [b] when [a] is empty. *)
Definition orElse (a b : jstring) : jstring :=
  match a with
  | [] => b
  | _ :: _ => a
  end.

Definition baseName : jstring := js "Kuma Mieru".
Definition baseDescription : jstring :=
  js "A beautiful and modern uptime monitoring dashboard".
Definition baseIcon : jstring := js "/icon.svg".

(** The module-level constant [navItems]. *)
Definition allNavItems (env : GeneratedConfig) : list NavItem :=
  [ {| label := js "page.edit";
       href := env_baseUrl env ++ js "/manage-status-page";
       external := true |} ].

Definition getVisibleNavItems (env : GeneratedConfig) (items : list NavItem)
  : list NavItem :=
  List.filter
    (fun item =>
       if negb (eqb (label item) (js "page.edit")) then true
       else env_isEditThisPage env)
    items.

(** [pages.find(...) || pages[0]]; [None] is [undefined]. *)
Definition defaultPage (env : GeneratedConfig) : option PageConfig :=
  match findPage (env_defaultPageId env) (env_pages env) with
  | Some page => Some page
  | None => head (env_pages env)
  end.

(** [defaultPage?.siteMeta || { ... }] *)
Definition defaultSiteMeta (env : GeneratedConfig) : SiteMeta :=
  match defaultPage env with
  | Some page => page_siteMeta page
  | None =>
      {| title := baseName; description := baseDescription; icon := baseIcon |}
  end.

(** The exported [siteConfig], without its constant [links]. *)
Definition siteConfig (env : GeneratedConfig) : SiteConfig :=
  let siteMeta := defaultSiteMeta env in
  {| name := orElse (title siteMeta) baseName;
     siteDescription := orElse (description siteMeta) baseDescription;
     siteIcon :=
       Url.resolveIconUrl (Some (icon siteMeta)) (Some (env_baseUrl env));
     navItems := getVisibleNavItems env (allNavItems env);
     navMenuItems := getVisibleNavItems env (allNavItems env) |}.

End Site.

(** ** The data-fetching hooks *)

Module Hooks.

Import Server.

Definition MONITOR : jstring := js "/api/monitor".
Definition CONFIG : jstring := js "/api/config".

(** [pageId] is optional; [None] is [undefined]. *)
Definition getPageUrl (baseUrl : jstring) (pageId : option jstring) : jstring :=
  match pageId with
  | None | Some [] => baseUrl
  | Some pageId => baseUrl ++ js "?pageId=" ++ pageId
  end.

(** [data.success]: a [TypeError] on [null]. *)
Definition successOf (data : JSON) : Result (option JSON) :=
  match data with
  | JNull => Throws (Err TypeError (js "Cannot read properties of null"))
  | _ => Returns (getProperty (js "success") data)
  end.

(** [!v] for a value that may be [undefined]. *)
Definition falsy (v : option JSON) : bool :=
  match v with
  | Some x => negb (truthy x)
  | None => true
  end.

(** [received] is the outcome of [fetch(url)] followed by
    [response.json()]. *)
Definition fetcher (url : jstring) (received : Result JSON) : Result JSON :=
  data ← received;
  success ← successOf data;
  if falsy success && includes (js "/api/monitor") url then
    Throws (Err PlainError (js "Failed to fetch monitor data"))
  else Returns data.

End Hooks.

(** ** The page list of the configuration generator *)

Module Generator.

(** [s.split(sep)] for a separator of one code unit. *)
Fixpoint split (sep : N) (s : jstring) : list jstring :=
  match s with
  | [] => [[]]
  | c :: s' =>
      if N.eqb c sep then [] :: split sep s'
      else match split sep s' with
           | part :: parts => (c :: part) :: parts
           | [] => [[c]]
           end
  end.

Fixpoint trimStart (s : jstring) : jstring :=
  match s with
  | [] => []
  | c :: s' => if isSpace c then trimStart s' else s
  end.

Fixpoint trimEnd (s : jstring) : jstring :=
  match s with
  | [] => []
  | c :: s' =>
      match trimEnd s' with
      | [] => if isSpace c then [] else [c]
      | t => c :: t
      end
  end.

(** [s.trim()] *)
Definition trim (s : jstring) : jstring := trimEnd (trimStart s).

Definition comma : N := 44.
Definition colon : N := 58.

(** [a || b] on environment variables; [None] is [undefined]. *)
Definition orVar (a b : option jstring) : option jstring :=
  match a with
  | Some (_ :: _) => a
  | _ => b
  end.

(** An element of [pageConfigs]: [{ id, name? }]. *)
Record PageEntry := { entry_id : jstring; entry_name : option jstring }.

(** [pageIdsStr.split(',').map((entry) => entry.trim())] *)
Definition pageIdEntries (pageIdsStr : jstring) : list jstring :=
  map trim (split comma pageIdsStr).

(** [process.env.PAGE_DEFAULT_ID || pageIdEntries[0].split(':')[0]];
    [None] is [undefined]. *)
Definition defaultPageId (PAGE_DEFAULT_ID : option jstring)
    (entries : list jstring) : Result (option jstring) :=
  match PAGE_DEFAULT_ID with
  | Some (c :: v) => Returns (Some (c :: v))
  | _ =>
      match entries with
      | [] => Throws (Err TypeError (js "Cannot read properties of undefined"))
      | entry0 :: _ => Returns (head (split colon entry0))
      end
  end.

(** The body of the loop over [pageIdEntries]. *)
Definition pageConfig (entry : jstring) : Result PageEntry :=
  if includes [colon] entry then
    match split colon entry with
    | id :: name :: _ =>
        Returns {| entry_id := trim id; entry_name := Some (trim name) |}
    | _ => Throws (Err TypeError (js "Cannot read properties of undefined"))
    end
  else Returns {| entry_id := trim entry; entry_name := None |}.

(** The part of [generateConfig] that reads [PAGE_IDS], [PAGE_ID] and
    [PAGE_DEFAULT_ID]: the values of [defaultPageId] and [pageConfigs]
    after the loop. *)
Definition generateConfig_pages (PAGE_IDS PAGE_ID PAGE_DEFAULT_ID : option jstring)
  : Result (option jstring * list PageEntry) :=
  match orVar PAGE_IDS PAGE_ID with
  | Some ((_ :: _) as pageIdsStr) =>
      let entries := pageIdEntries pageIdsStr in
      defaultPageId ← defaultPageId PAGE_DEFAULT_ID entries;
      pageConfigs ← mapM pageConfig entries;
      Returns (defaultPageId, pageConfigs)
  | _ =>
      Throws (Err PlainError
                (js "Either PAGE_IDS or PAGE_ID environment variable is required"))
  end.

(** A text free of surrounding whitespace and of both separators. *)
Definition clean (t : jstring) : Prop :=
  trim t = t /\ ~ In comma t /\ ~ In colon t.

End Generator.

(** ** The page-aware service and the config route *)

Module Paged.

Import Api Server.

Section Paged.

Context {Rest IRest : Type}.

Variable ensureUTCTimezone : jstring -> jstring.
Variable dateGetTime : jstring -> option Z.
Variable sanitizeJsonString : jstring -> Result jstring.
Variable extractPreloadData : jstring -> Result (PreloadData Rest IRest).

(** The module constant [apiConfig], as the service reads it. *)
Variable apiConfig : Config.

(** [config || apiConfig] *)
Definition currentConfigOf (config : option Config) : Config :=
  match config with
  | Some config => config
  | None => apiConfig
  end.

(** [fetched url] is the outcome of [customFetch(url, ...)]. *)
Definition getPreloadData (fetched : jstring -> Result Response)
    (config : option Config) : Result (PreloadData Rest IRest) :=
  let currentConfig := currentConfigOf config in
  tryCatch
    (htmlResponse ← fetched (htmlEndpoint currentConfig);
     if negb (ok htmlResponse) then
       Throws (Err ConfigError
                 (js "Failed to get HTML: " ++ ofZ (httpStatus htmlResponse)
                  ++ js " " ++ statusText htmlResponse))
     else
       let preloadScript := text (selectPreloadData (body htmlResponse)) in
       match preloadScript with
       | [] => Throws (Err ConfigError (js "Preload script tag not found"))
       | _ :: _ =>
           parsePreloadScript sanitizeJsonString extractPreloadData preloadScript
       end)
    (fun error =>
       if instanceOf ConfigError error then Throws error
       else
         Throws (Err ConfigError
                   (js "Failed to get preload data, please check network connection and server status"))).

Definition getMaintenanceData (fetched : jstring -> Result Response)
    (clock : nat -> Z) (config : option Config)
  : Result (MaintenanceData Rest) :=
  tryCatch
    (let currentConfig := currentConfigOf config in
     preloadData ← getPreloadData fetched (Some currentConfig);
     match maintenanceList preloadData with
     | NotArray =>
         Throws (Err ApiDataError (js "Maintenance list data must be an array"))
     | IsArray maintenanceList =>
         let processedList :=
           processMaintenanceData ensureUTCTimezone dateGetTime clock
             maintenanceList in
         Returns {| success := true;
                    data_maintenanceList := processedList;
                    error := None |}
     end)
    (fun error =>
       Returns {| success := false;
                  data_maintenanceList := [];
                  error := Some (messageOr (js "Unknown error occurred") error) |}).

(** [fetched1] answers the request of [getGlobalConfig] itself, [fetched2]
    the one issued by its call of [getMaintenanceData]. *)
Definition getGlobalConfig (fetched1 fetched2 : jstring -> Result Response)
    (clock : nat -> Z) (config : option Config)
  : Result (GlobalConfig Rest IRest) :=
  tryCatch
    (let currentConfig := currentConfigOf config in
     preloadData ← getPreloadData fetched1 (Some currentConfig);
     match Server.config preloadData with
     | None => Throws (Err ConfigError (js "Configuration data is missing"))
     | Some cfg =>
         if negb (truthy cfg) then
           Throws (Err ConfigError (js "Configuration data is missing"))
         else
           checkRequired requiredFields cfg;;
           if negb (isString (getProperty (js "theme") cfg)) then
             Throws (Err ConfigError (js "Theme must be a string"))
           else
             let theme :=
               match getProperty (js "theme") cfg with
               | Some (JStr t) =>
                   if eqb t (js "dark") then js "dark"
                   else if eqb t (js "light") then js "light"
                   else js "system"
               | _ => js "system"
               end in
             maintenanceData ← getMaintenanceData fetched2 clock (Some currentConfig);
             let maintenanceList := data_maintenanceList maintenanceData in
             Returns {|
               global_config := <[js "theme" := JStr theme]> (ownProperties cfg);
               global_incident :=
                 match incident preloadData with
                 | Some i =>
                     Some {| incidentRest := incidentRest i;
                             createdDate := ensureUTCTimezone (createdDate i);
                             lastUpdatedDate := ensureUTCTimezone (lastUpdatedDate i) |}
                 | None => None
                 end;
               global_maintenanceList := maintenanceList
             |}
     end)
    (fun error =>
       Returns {| global_config := placeholderConfig;
                  global_incident := None;
                  global_maintenanceList := [] |}).

End Paged.

End Paged.

(** ** The config route *)

Module ConfigRoute.

Import Api Server.

Section ConfigRoute.

Context {Rest IRest : Type}.

Variable ensureUTCTimezone : jstring -> jstring.
Variable dateGetTime : jstring -> option Z.
Variable sanitizeJsonString : jstring -> Result jstring.
Variable extractPreloadData : jstring -> Result (PreloadData Rest IRest).

(** The callback that [GET] hands to [createApiResponse]; [pageId] is
    [searchParams.get('pageId')], [None] for [null].  The service reads
    the objects it is given and never assigns to them. *)
Definition GET (pageId : option jstring)
    (fetched1 fetched2 : jstring -> Result Response) (clock : nat -> Z)
  : St (Result (GlobalConfig Rest IRest)) :=
  config ← match pageId with
           | Some ((_ :: _) as pageId) =>
               config ← getConfigForPage apiConfig pageId;
               mret (Some config)
           | _ => mret None
           end;
  api ← get apiConfig (fun c => c);
  config ← match config with
           | Some config => c ← get config (fun c => c); mret (Some c)
           | None => mret None
           end;
  mret (Paged.getGlobalConfig ensureUTCTimezone dateGetTime sanitizeJsonString
          extractPreloadData api fetched1 fetched2 clock config).

End ConfigRoute.

End ConfigRoute.

(** ** Further worked inputs *)

Module FixtureMore.

Import Server Fixture.

(** A generated configuration that switches the star button off and
    calls itself a placeholder. *)
Definition starOff : Api.GeneratedConfig :=
  {| Api.env_baseUrl := js "https://kuma.example";
     Api.env_defaultPageId := js "a";
     Api.env_pages := [pageA; pageB];
     Api.env_isPlaceholder := true;
     Api.env_isEditThisPage := false;
     Api.env_isShowStarButton := false |}.

(** What [getConfig] builds from [starOff]. *)
Definition starOffConfig : Api.Config :=
  {| Api.baseUrl := js "https://kuma.example";
     Api.defaultPageId := js "a";
     Api.pages := [pageA; pageB];
     Api.currentPageId := js "a";
     Api.htmlEndpoint := js "https://kuma.example/status/a";
     Api.apiEndpoint := js "https://kuma.example/api/status-page/heartbeat/a";
     Api.siteMeta := metaA;
     Api.isPlaceholder := false;
     Api.isEditThisPage := false;
     Api.isShowStarButton := true |}.

(** A page that follows both conventions at once. *)
Definition bothConventions : Document :=
  preloadPage (js "{}")
  ++ [ script (q "window.preloadData = {'config':{'theme':'dark'}};") ].

(** A payload with a complete [config], an incident and one maintenance
    item. *)
Definition fullPayload : PreloadData unit unit :=
  {| config := Some (JObj autoThemeConfig);
     incident := Some {| incidentRest := tt;
                         createdDate := js "2025-05-01T10:00:00";
                         lastUpdatedDate := js "2025-05-02T10:00:00Z" |};
     maintenanceList := IsArray [item [window2025]] |}.

(** The configuration generated from [PAGE_IDS=status : Main,b]. *)
Definition generatedPages : list Generator.PageEntry :=
  [ {| Generator.entry_id := js "status";
       Generator.entry_name := Some (js "Main") |};
    {| Generator.entry_id := js "b"; Generator.entry_name := None |} ].

Definition generated : Api.GeneratedConfig :=
  {| Api.env_baseUrl := js "https://kuma.example";
     Api.env_defaultPageId := js "status ";
     Api.env_pages :=
       [ {| Api.page_id := js "status"; Api.page_name := Some (js "Main");
            Api.page_siteMeta := metaA |};
         pageB ];
     Api.env_isPlaceholder := false;
     Api.env_isEditThisPage := false;
     Api.env_isShowStarButton := true |}.

Definition generatedConfig : Api.Config :=
  {| Api.baseUrl := js "https://kuma.example";
     Api.defaultPageId := js "status ";
     Api.pages := Api.env_pages generated;
     Api.currentPageId := js "status ";
     Api.htmlEndpoint := js "https://kuma.example/status/status ";
     Api.apiEndpoint :=
       js "https://kuma.example/api/status-page/heartbeat/status ";
     Api.siteMeta := metaA;
     Api.isPlaceholder := false;
     Api.isEditThisPage := false;
     Api.isShowStarButton := true |}.

End FixtureMore.

(** * Properties *)

(** ** Strings *)

Lemma eqb_eq (a b : jstring) : eqb a b = true <-> a = b.
Proof.
  revert b. induction a as [|x a IH]; intros [|y b]; simpl; try easy.
  rewrite andb_true_iff, N.eqb_eq, IH. split.
  - intros [-> ->]. reflexivity.
  - intros [= -> ->]. auto.
Qed.

Lemma eqb_refl (a : jstring) : eqb a a = true.
Proof. apply eqb_eq. reflexivity. Qed.

Lemma eqb_neq (a b : jstring) : eqb a b = false <-> a <> b.
Proof.
  rewrite <- eqb_eq. destruct (eqb a b); split; congruence.
Qed.

Lemma stripPrefix_Some (p s rest : jstring) :
  stripPrefix p s = Some rest <-> s = p ++ rest.
Proof.
  revert s. induction p as [|x p IH]; intros s; simpl.
  - split; congruence.
  - destruct s as [|y s]; [easy|].
    destruct (N.eqb_spec x y) as [->|Hne].
    + rewrite IH. split; congruence.
    + split; [easy|]. intros [= -> _]. congruence.
Qed.

Lemma stripPrefix_app (p rest : jstring) : stripPrefix p (p ++ rest) = Some rest.
Proof. apply stripPrefix_Some. reflexivity. Qed.

(** ** config/api.ts *)

Section ApiFacts.
Import Api.

Lemma findPage_None (pageId : jstring) (ps : list PageConfig) :
  findPage pageId ps = None <-> Forall (fun p => page_id p <> pageId) ps.
Proof.
  unfold findPage. induction ps as [|p ps IH]; simpl.
  - split; auto.
  - destruct (eqb (page_id p) pageId) eqn:E.
    + apply eqb_eq in E. split; [easy|]. intros H.
      apply Forall_cons in H as [H _]. contradiction.
    + apply eqb_neq in E. rewrite IH. split.
      * intros H. apply Forall_cons. auto.
      * intros H. apply Forall_cons in H as [_ H]. exact H.
Qed.

Lemma findPage_Some (pageId : jstring) (ps : list PageConfig) (p : PageConfig) :
  findPage pageId ps = Some p -> page_id p = pageId.
Proof.
  unfold findPage. induction ps as [|p0 ps IH]; simpl; [easy|].
  destruct (eqb (page_id p0) pageId) eqn:E; [|exact IH].
  intros [= <-]. apply eqb_eq. exact E.
Qed.

Lemma getConfigForPage_run (api : loc) (pageId : jstring) (h : gmap nat Config)
    (c : Config) :
  h !! api = Some c ->
  getConfigForPage api pageId h
  = Some (fresh (dom h), <[fresh (dom h) := resultFor pageId c]> h).
Proof.
  intros Hc. unfold getConfigForPage, resultFor, spread, get, assign.
  unfold mbind, St_bind, mret, St_ret. rewrite Hc.
  rewrite lookup_insert_eq.
  destruct (findPage pageId (pages c)) as [page|]; [|reflexivity].
  repeat (rewrite ?lookup_insert_eq, ?insert_insert_eq; simpl).
  reflexivity.
Qed.

Lemma getConfig_Returns (env : GeneratedConfig) (cfg : Config) :
  getConfig env = Returns cfg ->
  baseUrl cfg = env_baseUrl env
  /\ defaultPageId cfg = env_defaultPageId env
  /\ pages cfg = env_pages env
  /\ currentPageId cfg = env_defaultPageId env
  /\ htmlEndpoint cfg = env_baseUrl env ++ js "/status/" ++ env_defaultPageId env
  /\ apiEndpoint cfg
     = env_baseUrl env ++ js "/api/status-page/heartbeat/" ++ env_defaultPageId env
  /\ exists page0 others,
       env_pages env = page0 :: others
       /\ siteMeta cfg
          = page_siteMeta
              (default page0 (findPage (env_defaultPageId env) (env_pages env))).
Proof.
  unfold getConfig.
  destruct (env_baseUrl env) as [|b bs] eqn:Eb; [easy|].
  destruct (env_defaultPageId env) as [|d ds] eqn:Ed; [easy|].
  destruct (env_pages env) as [|page0 others] eqn:Ep; [easy|].
  intros [= <-]. simpl. repeat split; eauto.
Qed.

(** C9: for every page id, known or not, the endpoints of the returned
    configuration are the base URL followed by [/status/] (respectively
    [/api/status-page/heartbeat/]) and the [currentPageId] of that same
    object; the call adds one object to the store and changes no object
    that was there, [apiConfig] included. *)
Theorem getConfigForPage_endpoints_consistent
    (env : GeneratedConfig) (cfg : Config) (h : gmap nat Config) (api : loc)
    (pageId : jstring) :
  getConfig env = Returns cfg ->
  h !! api = Some cfg ->
  exists l h' c,
    getConfigForPage api pageId h = Some (l, h')
    /\ h' !! l = Some c
    /\ htmlEndpoint c = baseUrl c ++ js "/status/" ++ currentPageId c
    /\ apiEndpoint c
       = baseUrl c ++ js "/api/status-page/heartbeat/" ++ currentPageId c
    /\ h' !! api = Some cfg
    /\ l <> api
    /\ forall l0, l0 <> l -> h' !! l0 = h !! l0.
Proof.
  intros Hcfg Hapi.
  exists (fresh (dom h)), (<[fresh (dom h) := resultFor pageId cfg]> h),
    (resultFor pageId cfg).
  assert (Hfresh : fresh (dom h) <> api).
  { intros E. apply (is_fresh (dom h)). rewrite E.
    apply elem_of_dom. eauto. }
  split; [apply getConfigForPage_run; exact Hapi|].
  split; [apply lookup_insert_eq|].
  destruct (getConfig_Returns _ _ Hcfg) as (Hb & _ & _ & Hcur & Hh & Ha & _).
  split; [|split; [|split; [|split]]].
  - unfold resultFor.
    destruct (findPage pageId (pages cfg)); simpl; [reflexivity|].
    rewrite Hh, Hb, Hcur. reflexivity.
  - unfold resultFor.
    destruct (findPage pageId (pages cfg)); simpl; [reflexivity|].
    rewrite Ha, Hb, Hcur. reflexivity.
  - rewrite lookup_insert_ne by exact Hfresh. exact Hapi.
  - exact Hfresh.
  - intros l0 Hl0. apply lookup_insert_ne. congruence.
Qed.

Lemma getConfigForPage_endpoints_consistent_witness :
  getConfig Fixture.twoPages = Returns Fixture.twoPagesConfig
  /\ Fixture.twoPagesHeap !! apiConfig = Some Fixture.twoPagesConfig
  /\ exists l h' c,
       getConfigForPage apiConfig (js "a") Fixture.twoPagesHeap = Some (l, h')
       /\ h' !! l = Some c
       /\ htmlEndpoint c = baseUrl c ++ js "/status/" ++ currentPageId c
       /\ apiEndpoint c
          = baseUrl c ++ js "/api/status-page/heartbeat/" ++ currentPageId c
       /\ h' !! apiConfig = Some Fixture.twoPagesConfig
       /\ l <> apiConfig
       /\ forall l0, l0 <> l -> h' !! l0 = Fixture.twoPagesHeap !! l0.
Proof.
  split; [reflexivity|]. split; [reflexivity|].
  apply (getConfigForPage_endpoints_consistent Fixture.twoPages);
    reflexivity.
Defined.

(** C6 as stated fails: with the second page as default page, an unknown
    page id is answered with the data of the second page, not the first. *)
Lemma getConfigForPage_unknown_not_first_page :
  findPage (js "zzz") (env_pages Fixture.twoPages) = None
  /\ configForPage Fixture.twoPages (js "zzz") = Some Fixture.twoPagesConfig
  /\ head (env_pages Fixture.twoPages) = Some Fixture.pageA
  /\ siteMeta Fixture.twoPagesConfig <> page_siteMeta Fixture.pageA
  /\ htmlEndpoint Fixture.twoPagesConfig
     <> baseUrl Fixture.twoPagesConfig ++ js "/status/" ++ page_id Fixture.pageA
  /\ apiEndpoint Fixture.twoPagesConfig
     <> baseUrl Fixture.twoPagesConfig ++ js "/api/status-page/heartbeat/"
        ++ page_id Fixture.pageA.
Proof.
  split; [reflexivity|]. split; [vm_compute; reflexivity|].
  split; [reflexivity|]. repeat split; discriminate.
Qed.

(** C6, amended: for every page id that matches no configured page,
    [getConfigForPage] does not fail and returns a copy of the process-wide
    configuration unchanged, that is the data of the default page:
    [currentPageId] is [defaultPageId], both endpoints are derived from
    [defaultPageId], and [siteMeta] is that of the page whose id is
    [defaultPageId], or of the first page when no page has that id. *)
Theorem getConfigForPage_unknown_page
    (env : GeneratedConfig) (cfg : Config) (h : gmap nat Config) (api : loc)
    (pageId : jstring) :
  getConfig env = Returns cfg ->
  h !! api = Some cfg ->
  Forall (fun p => page_id p <> pageId) (env_pages env) ->
  exists l h',
    getConfigForPage api pageId h = Some (l, h')
    /\ h' !! l = Some cfg
    /\ currentPageId cfg = env_defaultPageId env
    /\ htmlEndpoint cfg = env_baseUrl env ++ js "/status/" ++ env_defaultPageId env
    /\ apiEndpoint cfg
       = env_baseUrl env ++ js "/api/status-page/heartbeat/"
         ++ env_defaultPageId env
    /\ exists page0 others,
         env_pages env = page0 :: others
         /\ siteMeta cfg
            = page_siteMeta
                (default page0
                   (findPage (env_defaultPageId env) (env_pages env))).
Proof.
  intros Hcfg Hapi Hunknown.
  destruct (getConfig_Returns _ _ Hcfg) as (_ & _ & Hp & Hcur & Hh & Ha & Hm).
  exists (fresh (dom h)), (<[fresh (dom h) := cfg]> h).
  split.
  - rewrite (getConfigForPage_run _ _ _ _ Hapi). unfold resultFor.
    apply findPage_None in Hunknown. rewrite Hp, Hunknown. reflexivity.
  - split; [apply lookup_insert_eq|]. auto.
Qed.

Lemma getConfigForPage_unknown_page_witness :
  getConfig Fixture.twoPages = Returns Fixture.twoPagesConfig
  /\ Fixture.twoPagesHeap !! apiConfig = Some Fixture.twoPagesConfig
  /\ Forall (fun p => page_id p <> js "zzz") (env_pages Fixture.twoPages)
  /\ exists l h',
       getConfigForPage apiConfig (js "zzz") Fixture.twoPagesHeap = Some (l, h')
       /\ h' !! l = Some Fixture.twoPagesConfig
       /\ currentPageId Fixture.twoPagesConfig = js "b"
       /\ htmlEndpoint Fixture.twoPagesConfig
          = js "https://kuma.example" ++ js "/status/" ++ js "b"
       /\ apiEndpoint Fixture.twoPagesConfig
          = js "https://kuma.example" ++ js "/api/status-page/heartbeat/"
            ++ js "b"
       /\ exists page0 others,
            [Fixture.pageA; Fixture.pageB] = page0 :: others
            /\ siteMeta Fixture.twoPagesConfig
               = page_siteMeta
                   (default page0 (findPage (js "b") [Fixture.pageA; Fixture.pageB])).
Proof.
  split; [reflexivity|]. split; [reflexivity|].
  assert (H : Forall (fun p => page_id p <> js "zzz") (env_pages Fixture.twoPages)).
  { apply findPage_None. reflexivity. }
  split; [exact H|].
  apply (getConfigForPage_unknown_page Fixture.twoPages); [reflexivity..|exact H].
Defined.

End ApiFacts.

(** ** The maintenance status calculator *)

Section MaintenanceFacts.
Import Server.

Context {Rest : Type}.
Variable ensureUTCTimezone : jstring -> jstring.
Variable dateGetTime : jstring -> option Z.

Local Abbreviation process :=
  (processMaintenance (Rest := Rest) ensureUTCTimezone dateGetTime).
Local Abbreviation normalizeSlot := (normalizeSlot ensureUTCTimezone).
Local Abbreviation startTime := (startTime ensureUTCTimezone dateGetTime).
Local Abbreviation endTime := (endTime ensureUTCTimezone dateGetTime).

Lemma processMaintenance_no_slot (now : Z) (m : Maintenance Rest) :
  timeslotList m = None \/ timeslotList m = Some [] ->
  process now m = m.
Proof.
  unfold processMaintenance.
  destruct m as [r slots st]. simpl. intros [->| ->]; reflexivity.
Qed.

Lemma processMaintenance_frame (now : Z) (m : Maintenance Rest) :
  rest (process now m) = rest m
  /\ timeslotList (process now m) = (map normalizeSlot <$> timeslotList m).
Proof.
  unfold processMaintenance.
  destruct m as [r [[|slot0 later]|] st]; simpl; auto.
  repeat match goal with |- context [if ?b then _ else _] => destruct b end;
    simpl; auto.
Qed.

Lemma processMaintenance_status (now : Z) (m : Maintenance Rest)
    (slot0 : TimeSlot) (later : list TimeSlot) :
  timeslotList m = Some (slot0 :: later) ->
  status (process now m)
  = if geTime now (startTime slot0) && ltTime now (endTime slot0)
    then Some (js "under-maintenance")
    else if ltTime now (startTime slot0) then Some (js "scheduled")
    else if geTime now (endTime slot0) then Some (js "ended")
    else status m.
Proof.
  unfold processMaintenance, Server.startTime, Server.endTime.
  destruct m as [r slots st]. simpl. intros ->. simpl.
  repeat match goal with |- context [if ?b then _ else _] => destruct b end;
    reflexivity.
Qed.

Lemma processMaintenanceData_lookup (clock : nat -> Z)
    (l : list (Maintenance Rest)) (i : nat) :
  processMaintenanceData ensureUTCTimezone dateGetTime clock l !! i
  = (process (clock i) <$> l !! i).
Proof.
  unfold processMaintenanceData.
  apply (list_lookup_imap (fun i m => process (clock i) m)).
Qed.

(** C2, amended: the status of an item is computed from its first
    timeslot and the current time alone.  With [start] and [end] the times
    of the first slot: the status is [under-maintenance] when
    [start <= now < end]; [scheduled] when [now < start]; [ended] when
    [now >= end] and not [now < start] (a slot whose end precedes its start
    is [scheduled] until its start); slots after the first never matter; an
    item without a timeslot is returned as it is, its status untouched. *)
Theorem processMaintenanceData_status (clock : nat -> Z)
    (l : list (Maintenance Rest)) (i : nat) (m : Maintenance Rest) :
  l !! i = Some m ->
  exists m',
    processMaintenanceData ensureUTCTimezone dateGetTime clock l !! i = Some m'
    /\ match timeslotList m with
       | Some (slot0 :: later) =>
           (geTime (clock i) (startTime slot0) = true ->
            ltTime (clock i) (endTime slot0) = true ->
            status m' = Some (js "under-maintenance"))
           /\ (ltTime (clock i) (startTime slot0) = true ->
               status m' = Some (js "scheduled"))
           /\ (geTime (clock i) (endTime slot0) = true ->
               ltTime (clock i) (startTime slot0) = false ->
               status m' = Some (js "ended"))
           /\ (forall later',
                 status (processMaintenance ensureUTCTimezone dateGetTime
                           (clock i) (withSlots m (Some (slot0 :: later'))))
                 = status m')
       | _ => m' = m
       end.
Proof.
  intros Hm. exists (process (clock i) m).
  split; [rewrite processMaintenanceData_lookup, Hm; reflexivity|].
  destruct (timeslotList m) as [[|slot0 later]|] eqn:E.
  - apply processMaintenance_no_slot. auto.
  - rewrite (processMaintenance_status _ _ _ _ E).
    split; [|split; [|split]].
    + intros -> ->. reflexivity.
    + intros H. rewrite H.
      destruct (geTime (clock i) (startTime slot0)) eqn:G; [|reflexivity].
      exfalso. unfold geTime, ltTime in *.
      destruct (startTime slot0); [lia|discriminate].
    + intros G Hlt. rewrite Hlt, G, andb_comm.
      destruct (ltTime (clock i) (endTime slot0)) eqn:L; [|reflexivity].
      exfalso. unfold geTime, ltTime in *.
      destruct (endTime slot0); [lia|discriminate].
    + intros later'.
      apply (processMaintenance_status (clock i)
               (withSlots m (Some (slot0 :: later'))) slot0 later').
      reflexivity.
  - apply processMaintenance_no_slot. auto.
Qed.

(** C10: the result has the length and the order of the input; each item
    keeps every property other than [status] and [timeslotList]; its
    [timeslotList] is the input's with [ensureUTCTimezone] applied to both
    dates of every slot; [status] is the input's or one of the three
    values the calculator assigns. *)
Theorem processMaintenanceData_frame (clock : nat -> Z)
    (l : list (Maintenance Rest)) :
  length (processMaintenanceData ensureUTCTimezone dateGetTime clock l)
  = length l
  /\ Forall2
       (fun m m' =>
          rest m' = rest m
          /\ timeslotList m' = (map normalizeSlot <$> timeslotList m)
          /\ (status m' = status m
              \/ status m' = Some (js "under-maintenance")
              \/ status m' = Some (js "scheduled")
              \/ status m' = Some (js "ended")))
       l (processMaintenanceData ensureUTCTimezone dateGetTime clock l).
Proof.
  split; [apply length_imap|].
  apply Forall2_same_length_lookup_2; [symmetry; apply length_imap|].
  intros i m m' Hm. rewrite processMaintenanceData_lookup, Hm.
  intros [= <-].
  destruct (processMaintenance_frame (clock i) m) as [Hr Ht].
  split; [exact Hr|]. split; [exact Ht|].
  destruct (timeslotList m) as [[|slot0 later]|] eqn:E.
  - left. rewrite processMaintenance_no_slot; auto.
  - rewrite (processMaintenance_status _ _ _ _ E).
    repeat match goal with |- context [if ?b then _ else _] => destruct b end;
      auto.
  - left. rewrite processMaintenance_no_slot; auto.
Qed.

End MaintenanceFacts.

Section MaintenanceExamples.
Import Server Fixture.

(** C2 as stated fails on a slot whose end precedes its start: in June
    2025 the end (2020) has passed, the claim says [ended], the code
    answers [scheduled]. *)
Lemma processMaintenanceData_inverted_slot :
  endTime ensureUTCTimezone isoGetTime invertedSlot = Some 1577836800000%Z
  /\ geTime june2025 (endTime ensureUTCTimezone isoGetTime invertedSlot) = true
  /\ processMaintenanceData ensureUTCTimezone isoGetTime (fun _ => june2025)
       [item [invertedSlot]]
     = [{| rest := tt; timeslotList := Some [invertedSlot];
           status := Some (js "scheduled") |}]
  /\ Some (js "scheduled") <> Some (js "ended").
Proof.
  split; [vm_compute; reflexivity|]. split; [vm_compute; reflexivity|].
  split; [vm_compute; reflexivity|]. discriminate.
Qed.

Lemma processMaintenanceData_status_witness :
  [item [window2025; invertedSlot]] !! 0%nat = Some (item [window2025; invertedSlot])
  /\ geTime june2025 (startTime ensureUTCTimezone isoGetTime window2025) = true
  /\ ltTime june2025 (endTime ensureUTCTimezone isoGetTime window2025) = true
  /\ exists m',
       processMaintenanceData ensureUTCTimezone isoGetTime (fun _ => june2025)
         [item [window2025; invertedSlot]] !! 0%nat = Some m'
       /\ status m' = Some (js "under-maintenance").
Proof.
  split; [reflexivity|].
  assert (G : geTime june2025 (startTime ensureUTCTimezone isoGetTime window2025) = true)
    by (vm_compute; reflexivity).
  assert (L : ltTime june2025 (endTime ensureUTCTimezone isoGetTime window2025) = true)
    by (vm_compute; reflexivity).
  split; [exact G|]. split; [exact L|].
  destruct (processMaintenanceData_status ensureUTCTimezone isoGetTime
              (fun _ => june2025) [item [window2025; invertedSlot]] 0%nat
              (item [window2025; invertedSlot]) eq_refl)
    as (m' & Hm' & Hunder & _).
  exists m'. split; [exact Hm'|]. exact (Hunder G L).
Defined.

End MaintenanceExamples.

(** ** The regular expression *)

Section RegexFacts.
Import Regex.

Context {X : Type}.

(** A greedy star that cannot go further than [pre] hands the rest to its
    continuation, and the first success of the continuation wins. *)
Lemma star_stop (cls : N -> bool) (pre rest : jstring)
    (k : jstring -> option X) (x : X) :
  Forall (fun c => cls c = true) pre ->
  match rest with c :: _ => cls c = false | [] => True end ->
  k rest = Some x ->
  star cls (pre ++ rest) k = Some x.
Proof.
  intros Hpre Hstop Hk. induction Hpre as [|c pre Hc _ IH]; simpl.
  - destruct rest as [|c rest]; simpl; [exact Hk|]. rewrite Hstop. exact Hk.
  - rewrite Hc, IH. reflexivity.
Qed.

(** When the continuation fails after every longer run, the star gives
    back nothing. *)
Lemma star_no_longer (cls : N -> bool) (rest : jstring)
    (k : jstring -> option X) :
  (forall r1 r2, rest = r1 ++ r2 -> r1 <> [] ->
                 Forall (fun c => cls c = true) r1 -> k r2 = None) ->
  star cls rest k = k rest.
Proof.
  induction rest as [|c rest IH]; intros H; simpl; [reflexivity|].
  destruct (cls c) eqn:Hc; [|reflexivity].
  rewrite IH.
  - rewrite (H [c] rest); [reflexivity..|discriminate|].
    constructor; [exact Hc|constructor].
  - intros r1 r2 -> Hne Hr1. apply (H (c :: r1) r2); [reflexivity|discriminate|].
    constructor; assumption.
Qed.

(** Greedy choice: among the positions where the continuation succeeds,
    the star picks the last one. *)
Lemma star_last (cls : N -> bool) (body rest : jstring)
    (k : jstring -> option X) (x : X) :
  Forall (fun c => cls c = true) body ->
  k rest = Some x ->
  (forall r1 r2, rest = r1 ++ r2 -> r1 <> [] ->
                 Forall (fun c => cls c = true) r1 -> k r2 = None) ->
  star cls (body ++ rest) k = Some x.
Proof.
  intros Hbody Hk Hlater. induction Hbody as [|c body Hc _ IH]; simpl.
  - rewrite star_no_longer; assumption.
  - rewrite Hc, IH. reflexivity.
Qed.

End RegexFacts.

Section LocatorFacts.
Import Regex Server.

Lemma matchHere_marker (s : jstring) (cap : option jstring) :
  matchHere preloadDataRe s = Some cap -> exists v, s = marker ++ v.
Proof.
  unfold matchHere, preloadDataRe. cbn [matchRe].
  destruct (stripPrefix marker s) as [rest|] eqn:E; [|easy].
  intros _. exists rest. apply stripPrefix_Some. exact E.
Qed.

(** The expression on an assignment that starts the text: the capture
    runs from the first brace to the last [};] of the line. *)
Lemma matchHere_assignment (ws1 ws2 body post : jstring) :
  Forall (fun c => isSpace c = true) ws1 ->
  Forall (fun c => isSpace c = true) ws2 ->
  Forall (fun c => dot c = true) body ->
  (forall mid tail, post = mid ++ js "};" ++ tail ->
                    ~ Forall (fun c => dot c = true) mid) ->
  matchHere preloadDataRe
    (marker ++ ws1 ++ js "=" ++ ws2 ++ js "{" ++ body ++ js "};" ++ post)
  = Some (Some (js "{" ++ body ++ js "}")).
Proof.
  intros Hws1 Hws2 Hbody Hpost.
  unfold matchHere, preloadDataRe.
  cbn [matchRe]. rewrite stripPrefix_app.
  apply star_stop; [exact Hws1|reflexivity|].
  cbn [matchRe]. rewrite stripPrefix_app.
  apply star_stop; [exact Hws2|reflexivity|].
  cbn [matchRe]. rewrite stripPrefix_app.
  apply star_last; [exact Hbody| |].
  - change (js "};" ++ post) with (js "}" ++ js ";" ++ post).
    rewrite !stripPrefix_app. do 2 f_equal.
    replace (js "{" ++ body ++ js "}" ++ js ";" ++ post)
      with ((js "{" ++ body ++ js "}") ++ js ";" ++ post)
      by (rewrite <- !app_assoc; reflexivity).
    apply take_app_length'. rewrite !length_app. lia.
  - intros r1 r2 E Hne Hr1.
    destruct (stripPrefix (js "}") r2) as [rest0|] eqn:E1; [|reflexivity].
    destruct (stripPrefix (js ";") rest0) as [t|] eqn:E2; [|reflexivity].
    exfalso. apply stripPrefix_Some in E1, E2. subst r2 rest0.
    destruct r1 as [|c1 [|c2 r1]]; [congruence| |].
    + discriminate E.
    + injection E as _ _ E.
      apply (Hpost r1 t E).
      inversion Hr1 as [|? ? _ Hr1']. inversion Hr1'. assumption.
Qed.

(** No match starts before the leftmost occurrence of the name. *)
Lemma exec_leftmost (pre rest : jstring) :
  (forall u v, pre ++ rest = u ++ marker ++ v -> (length pre <= length u)%nat) ->
  exec preloadDataRe (pre ++ rest) = exec preloadDataRe rest.
Proof.
  induction pre as [|c pre IH]; intros H; [reflexivity|].
  cbn [exec app].
  destruct (matchHere preloadDataRe (c :: pre ++ rest)) as [cap|] eqn:E.
  - apply matchHere_marker in E as [v E].
    specialize (H [] v E). simpl in H. lia.
  - apply IH. intros u v E'.
    specialize (H (c :: u) v). simpl in H. rewrite E' in H.
    specialize (H eq_refl). lia.
Qed.

Lemma exec_matchHere (s : jstring) (cap : option jstring) :
  matchHere preloadDataRe s = Some cap -> exec preloadDataRe s = Some cap.
Proof. intros H. destruct s; cbn [exec]; rewrite H; reflexivity. Qed.

Context {Rest IRest : Type}.
Variable sanitizeJsonString : jstring -> Result jstring.
Variable extractPreloadData : jstring -> Result (PreloadData Rest IRest).

Lemma parsePreloadScript_throws (s : jstring) (e : Thrown) :
  parsePreloadScript sanitizeJsonString extractPreloadData s = Throws e ->
  exists message, e = Err ConfigError message.
Proof.
  unfold parsePreloadScript, tryCatch.
  destruct (_ ≫= _) as [p|[[] message|]]; try discriminate;
    intros [= <-]; eauto.
Qed.

Lemma getPreloadData_ok (r : Response) :
  ok r = true ->
  blank (locatePreloadScript (body r)) = false ->
  getPreloadData sanitizeJsonString extractPreloadData (Returns r)
  = parsePreloadScript sanitizeJsonString extractPreloadData
      (locatePreloadScript (body r)).
Proof.
  intros Hok Hblank. unfold getPreloadData.
  change (Returns r ≫= ?k) with (k r). cbv beta. rewrite Hok, Hblank. simpl.
  destruct (parsePreloadScript _ _ _) as [p|e] eqn:E; [reflexivity|].
  apply parsePreloadScript_throws in E as [message ->]. reflexivity.
Qed.

Lemma getPreloadData_throws (fetched : Result Response) (e : Thrown) :
  getPreloadData sanitizeJsonString extractPreloadData fetched = Throws e ->
  exists message, e = Err ConfigError message.
Proof.
  unfold getPreloadData, tryCatch.
  destruct (_ ≫= _) as [p|[[] message|]]; try discriminate;
    intros [= <-]; eauto.
Qed.

(** C1 as stated fails: when another statement with a brace block follows
    on the same line, the located text runs to the last [};] of the line,
    beyond the brace that balances the first one. *)
Lemma locatePreloadScript_not_balanced :
  blank (text (selectPreloadData Fixture.twoStatements)) = true
  /\ LocatorSpec.balancedCapture
       (text (selectScriptWithPreloadData Fixture.twoStatements))
     = Some (q "{'a':{'b':1}}")
  /\ locatePreloadScript Fixture.twoStatements
     = q "{'a':{'b':1}}; window.other = {'c':2}"
  /\ locatePreloadScript Fixture.twoStatements <> q "{'a':{'b':1}}".
Proof.
  split; [reflexivity|]. split; [vm_compute; reflexivity|].
  split; [vm_compute; reflexivity|]. vm_compute. discriminate.
Qed.

(** C1, amended: when [#preload-data] yields no non-blank text and the
    joined text of the scripts that contain [window.preloadData] has its
    leftmost occurrence of that name followed by optional whitespace, [=],
    optional whitespace and [{ inner };], with no line terminator in
    [inner], then the located text is [{ inner }] provided no further [};]
    follows on that line: the capture is greedy and ends at the last [};]
    of the line, whether braces balance or not.  That text is what
    [getPreloadData] sanitizes and parses.  For the script
    [window.preloadData = {"config":{"theme":"dark"}};] the located text
    is [{"config":{"theme":"dark"}}]. *)
Theorem locatePreloadScript_legacy
    (doc : Document) (pre ws1 ws2 inner post : jstring) :
  blank (text (selectPreloadData doc)) = true ->
  text (selectScriptWithPreloadData doc)
  = pre ++ marker ++ ws1 ++ js "=" ++ ws2 ++ js "{" ++ inner ++ js "};" ++ post ->
  (forall u v, text (selectScriptWithPreloadData doc) = u ++ marker ++ v ->
               (length pre <= length u)%nat) ->
  Forall (fun c => isSpace c = true) ws1 ->
  Forall (fun c => isSpace c = true) ws2 ->
  Forall (fun c => isLineTerminator c = false) inner ->
  (forall mid tail, post = mid ++ js "};" ++ tail ->
                    exists c, c ∈ mid /\ isLineTerminator c = true) ->
  locatePreloadScript doc = js "{" ++ inner ++ js "}"
  /\ (forall r, ok r = true -> body r = doc ->
        getPreloadData sanitizeJsonString extractPreloadData (Returns r)
        = parsePreloadScript sanitizeJsonString extractPreloadData
            (js "{" ++ inner ++ js "}"))
  /\ locatePreloadScript Fixture.legacyPage = q "{'config':{'theme':'dark'}}".
Proof.
  intros Hblank Htext Hleft Hws1 Hws2 Hinner Hpost.
  assert (Hloc : locatePreloadScript doc = js "{" ++ inner ++ js "}").
  { unfold locatePreloadScript. rewrite Hblank.
    rewrite Htext in Hleft |- *.
    rewrite (exec_leftmost pre _ Hleft).
    rewrite (exec_matchHere _ (Some (js "{" ++ inner ++ js "}"))).
    - destruct pre; reflexivity.
    - apply matchHere_assignment; try assumption.
      + eapply Forall_impl; [exact Hinner|]. intros c Hc. unfold dot.
        rewrite Hc. reflexivity.
      + intros mid tail E Hmid.
        destruct (Hpost mid tail E) as (c & Hin & Hc).
        rewrite Forall_forall in Hmid. specialize (Hmid c Hin).
        unfold dot in Hmid. rewrite Hc in Hmid. discriminate. }
  split; [exact Hloc|]. split; [|vm_compute; reflexivity].
  intros r Hok <-. rewrite getPreloadData_ok, Hloc; auto.
  rewrite Hloc. reflexivity.
Qed.

(** C8: a response whose status is outside 200-299 makes
    [getPreloadData] throw a [ConfigError] whose message carries the
    status; a page on which [#preload-data] has no non-blank text and the
    legacy expression matches nothing makes it throw the [ConfigError]
    "Preload script tag not found or empty"; a failed request makes it
    throw a [ConfigError] as well.  In none of these cases does it
    return. *)
Theorem getPreloadData_propagates :
  (forall r, ~ (200 <= httpStatus r <= 299)%Z ->
     getPreloadData sanitizeJsonString extractPreloadData (Returns r)
     = Throws (Err ConfigError
                 (js "Failed to get HTML: " ++ ofZ (httpStatus r) ++ js " "
                  ++ statusText r)))
  /\ (forall r, (200 <= httpStatus r <= 299)%Z ->
        blank (text (selectPreloadData (body r))) = true ->
        exec preloadDataRe (text (selectScriptWithPreloadData (body r))) = None ->
        getPreloadData sanitizeJsonString extractPreloadData (Returns r)
        = Throws (Err ConfigError (js "Preload script tag not found or empty")))
  /\ (forall e, exists message,
        getPreloadData sanitizeJsonString extractPreloadData (Throws e)
        = Throws (Err ConfigError message)).
Proof.
  split; [|split].
  - intros r Hr. unfold getPreloadData.
    change (Returns r ≫= ?k) with (k r). cbv beta.
    replace (ok r) with false; [reflexivity|].
    symmetry. unfold ok. apply andb_false_iff. rewrite !Z.leb_gt. lia.
  - intros r Hr Hblank Hexec. unfold getPreloadData.
    change (Returns r ≫= ?k) with (k r). cbv beta.
    replace (ok r) with true
      by (symmetry; unfold ok; apply andb_true_iff; rewrite !Z.leb_le; lia).
    assert (Hloc : locatePreloadScript (body r)
                   = text (selectPreloadData (body r))).
    { unfold locatePreloadScript. rewrite Hblank, Hexec.
      destruct (text (selectScriptWithPreloadData (body r))); reflexivity. }
    cbn [negb]. cbv zeta. rewrite Hloc, Hblank. reflexivity.
  - intros [[] message|]; eexists; reflexivity.
Qed.

End LocatorFacts.

Section LocatorExamples.
Import Regex Server Fixture.

Lemma locatePreloadScript_legacy_witness :
  blank (text (selectPreloadData legacyPage)) = true
  /\ text (selectScriptWithPreloadData legacyPage)
     = [] ++ marker ++ js " " ++ js "=" ++ js " " ++ js "{"
       ++ q "'config':{'theme':'dark'}" ++ js "};" ++ []
  /\ locatePreloadScript legacyPage = js "{" ++ q "'config':{'theme':'dark'}" ++ js "}"
  /\ getPreloadData keep
       (parseOnly (q "{'config':{'theme':'dark'}}")
          {| config := None; incident := @None (Incident unit);
             maintenanceList := @NotArray unit |})
       (Returns (okResponse legacyPage))
     = Returns {| config := None; incident := None; maintenanceList := NotArray |}.
Proof.
  split; [reflexivity|]. split; [vm_compute; reflexivity|].
  destruct (locatePreloadScript_legacy keep
              (parseOnly (q "{'config':{'theme':'dark'}}")
                 {| config := None; incident := @None (Incident unit);
                    maintenanceList := @NotArray unit |})
              legacyPage [] (js " ") (js " ") (q "'config':{'theme':'dark'}") [])
    as (Hloc & Hget & _).
  - reflexivity.
  - vm_compute. reflexivity.
  - intros u v _. simpl. lia.
  - repeat constructor.
  - repeat constructor.
  - repeat constructor.
  - intros [|c mid] tail E; discriminate E.
  - split; [exact Hloc|].
    rewrite (Hget (okResponse legacyPage)); reflexivity.
Defined.

Lemma getPreloadData_propagates_witness :
  ~ (200 <= httpStatus serverError <= 299)%Z
  /\ getPreloadData (Rest := unit) (IRest := unit) keep
       (fun _ => Throws (Err SyntaxError [])) (Returns serverError)
     = Throws (Err ConfigError (js "Failed to get HTML: 500 Internal Server Error"))
  /\ (200 <= httpStatus (okResponse barePage) <= 299)%Z
  /\ blank (text (selectPreloadData barePage)) = true
  /\ exec preloadDataRe (text (selectScriptWithPreloadData barePage)) = None
  /\ getPreloadData (Rest := unit) (IRest := unit) keep
       (fun _ => Throws (Err SyntaxError [])) (Returns (okResponse barePage))
     = Throws (Err ConfigError (js "Preload script tag not found or empty")).
Proof.
  destruct (getPreloadData_propagates (Rest := unit) (IRest := unit) keep
              (fun _ => Throws (Err SyntaxError []))) as (H1 & H2 & _).
  assert (A : ~ (200 <= httpStatus serverError <= 299)%Z) by (simpl; lia).
  assert (B : (200 <= httpStatus (okResponse barePage) <= 299)%Z) by (simpl; lia).
  split; [exact A|]. split; [exact (H1 serverError A)|].
  split; [exact B|]. split; [reflexivity|]. split; [reflexivity|].
  apply (H2 (okResponse barePage) B); reflexivity.
Defined.

End LocatorExamples.

(** ** Validation and degradation *)

Section GlobalFacts.
Import Regex Server.

Context {Rest IRest : Type}.
Variable ensureUTCTimezone : jstring -> jstring.
Variable dateGetTime : jstring -> option Z.
Variable sanitizeJsonString : jstring -> Result jstring.
Variable extractPreloadData : jstring -> Result (PreloadData Rest IRest).

Local Abbreviation preload :=
  (getPreloadData sanitizeJsonString extractPreloadData).
Local Abbreviation maintenance :=
  (getMaintenanceData ensureUTCTimezone dateGetTime sanitizeJsonString
     extractPreloadData).
Local Abbreviation global :=
  (getGlobalConfig ensureUTCTimezone dateGetTime sanitizeJsonString
     extractPreloadData).
Local Abbreviation placeholder := (placeholder (Rest := Rest) (IRest := IRest)).

Lemma getMaintenanceData_returns (fetched : Result Response) (clock : nat -> Z) :
  exists d, maintenance fetched clock = Returns d.
Proof.
  unfold getMaintenanceData, tryCatch.
  destruct (_ ≫= _); eauto.
Qed.

Lemma getMaintenanceData_degraded (fetched : Result Response) (clock : nat -> Z) :
  (exists e, preload fetched = Throws e)
  \/ (exists p, preload fetched = Returns p /\ maintenanceList p = NotArray) ->
  exists message,
    maintenance fetched clock
    = Returns {| success := false; data_maintenanceList := [];
                 error := Some message |}.
Proof.
  unfold getMaintenanceData.
  intros [[e ->]|(p & -> & Hp)].
  - eexists. reflexivity.
  - change (Returns p ≫= ?k) with (k p). cbv beta. rewrite Hp.
    eexists. reflexivity.
Qed.

Lemma getGlobalConfig_returns (fetched1 fetched2 : Result Response)
    (clock : nat -> Z) :
  exists g, global fetched1 fetched2 clock = Returns g.
Proof.
  unfold getGlobalConfig, tryCatch.
  destruct (_ ≫= _); eauto.
Qed.

Lemma checkRequired_object (fields : list jstring) (m : gmap jstring JSON) :
  (Forall (fun field => is_Some (m !! field)) fields
   /\ checkRequired fields (JObj m) = Returns tt)
  \/ (exists field, field ∈ fields /\ m !! field = None
      /\ checkRequired fields (JObj m)
         = Throws (Err ConfigError
                     (js "Configuration is missing required field: " ++ field))).
Proof.
  induction fields as [|field fields IH].
  - left. split; [constructor|reflexivity].
  - cbn [checkRequired hasProperty].
    change (Returns ?b ≫= ?k) with (k b). cbv beta.
    destruct (m !! field) as [v|] eqn:E.
    + rewrite bool_decide_eq_true_2 by eauto. cbn [negb].
      destruct IH as [[Hall ->]|(f & Hin & Hf & ->)].
      * left. split; [|reflexivity]. constructor; [rewrite E; eauto|exact Hall].
      * right. exists f. split; [right; exact Hin|]. split; [exact Hf|reflexivity].
    + rewrite bool_decide_eq_false_2 by (intros [? ?]; discriminate).
      right. exists field. split; [left|]. split; [exact E|reflexivity].
Qed.

(** The body of [getGlobalConfig] on a payload with a valid core. *)
Lemma getGlobalConfig_valid (fetched1 fetched2 : Result Response)
    (clock : nat -> Z) (p : PreloadData Rest IRest)
    (m : gmap jstring JSON) (raw : jstring) :
  preload fetched1 = Returns p ->
  config p = Some (JObj m) ->
  Forall (fun field => is_Some (m !! field)) requiredFields ->
  m !! js "theme" = Some (JStr raw) ->
  exists d,
    maintenance fetched2 clock = Returns d
    /\ global fetched1 fetched2 clock
       = Returns {|
           global_config := <[js "theme" := JStr (normalizeTheme raw)]> m;
           global_incident :=
             match incident p with
             | Some i =>
                 Some {| incidentRest := incidentRest i;
                         createdDate := ensureUTCTimezone (createdDate i);
                         lastUpdatedDate := ensureUTCTimezone (lastUpdatedDate i) |}
             | None => None
             end;
           global_maintenanceList := data_maintenanceList d |}.
Proof.
  intros Hp Hcfg Hall Htheme.
  destruct (getMaintenanceData_returns fetched2 clock) as [d Hd].
  exists d. split; [exact Hd|].
  unfold getGlobalConfig.
  rewrite Hp. change (Returns p ≫= ?k) with (k p). cbv beta.
  rewrite Hcfg. cbn [truthy negb].
  destruct (checkRequired_object requiredFields m) as [[_ ->]|(f & Hin & Hf & _)].
  - change (Returns tt ≫= ?k) with (k tt). cbv beta.
    cbn [getProperty]. rewrite Htheme. cbn [isString negb].
    rewrite Hd. reflexivity.
  - rewrite Forall_forall in Hall. destruct (Hall f Hin) as [v Hv]. congruence.
Qed.

Lemma normalizeTheme_cases (raw : jstring) :
  normalizeTheme raw = js "light" \/ normalizeTheme raw = js "dark"
  \/ normalizeTheme raw = js "system".
Proof.
  unfold normalizeTheme.
  destruct (eqb raw (js "dark")); [auto|].
  destruct (eqb raw (js "light")); auto.
Qed.

(** Either the placeholder is returned, or the payload has a valid core
    and the configuration is assembled from it. *)
Lemma getGlobalConfig_cases (fetched1 fetched2 : Result Response)
    (clock : nat -> Z) :
  global fetched1 fetched2 clock = Returns placeholder
  \/ exists p m raw d,
       preload fetched1 = Returns p
       /\ config p = Some (JObj m)
       /\ Forall (fun field => is_Some (m !! field)) requiredFields
       /\ m !! js "theme" = Some (JStr raw)
       /\ maintenance fetched2 clock = Returns d
       /\ global fetched1 fetched2 clock
          = Returns {|
              global_config := <[js "theme" := JStr (normalizeTheme raw)]> m;
              global_incident :=
                match incident p with
                | Some i =>
                    Some {| incidentRest := incidentRest i;
                            createdDate := ensureUTCTimezone (createdDate i);
                            lastUpdatedDate :=
                              ensureUTCTimezone (lastUpdatedDate i) |}
                | None => None
                end;
              global_maintenanceList := data_maintenanceList d |}.
Proof.
  destruct (preload fetched1) as [p|e] eqn:Hp.
  2:{ left. unfold getGlobalConfig. rewrite Hp.
      reflexivity. }
  destruct (config p) as [cfg|] eqn:Hcfg.
  2:{ left. unfold getGlobalConfig. rewrite Hp.
      change (Returns p ≫= ?k) with (k p). cbv beta. rewrite Hcfg.
      reflexivity. }
  assert (Hother :
    (forall m, cfg <> JObj m) ->
    global fetched1 fetched2 clock = Returns placeholder).
  { intros Hno. unfold getGlobalConfig. rewrite Hp.
    change (Returns p ≫= ?k) with (k p). cbv beta. rewrite Hcfg.
    destruct (truthy cfg) eqn:Ht; [|reflexivity]. cbn [negb].
    destruct (checkRequired requiredFields cfg) as [[]|e] eqn:Hc;
      [|reflexivity].
    change (Returns tt ≫= ?k) with (k tt). cbv beta.
    destruct cfg; try reflexivity. exfalso. eapply Hno. reflexivity. }
  destruct cfg as [| | | | |m]; try (left; apply Hother; discriminate).
  clear Hother.
  destruct (checkRequired_object requiredFields m) as [[Hall Hc]|(f & Hin & Hf & Hc)].
  - destruct (m !! js "theme") as [[| | |raw| |]|] eqn:Htheme;
      try (left; unfold getGlobalConfig; rewrite Hp;
           change (Returns p ≫= ?k) with (k p); cbv beta; rewrite Hcfg;
           cbn [truthy negb]; rewrite Hc;
           change (Returns tt ≫= ?k) with (k tt); cbv beta;
           cbn [getProperty]; rewrite Htheme; reflexivity).
    right. exists p, m, raw.
    destruct (getGlobalConfig_valid fetched1 fetched2 clock p m raw
                Hp Hcfg Hall Htheme) as (d & Hd & Hg).
    exists d. repeat split; assumption.
  - left. unfold getGlobalConfig. rewrite Hp.
    change (Returns p ≫= ?k) with (k p). cbv beta. rewrite Hcfg.
    cbn [truthy negb]. rewrite Hc. reflexivity.
Qed.

Lemma lookup_theme (m : gmap jstring JSON) (v : JSON) :
  <[js "theme" := v]> m !! js "theme" = Some v.
Proof. apply lookup_insert_eq. Qed.

(** C4: the configuration that [getGlobalConfig] returns always carries a
    theme that is one of [light], [dark] and [system], the placeholder
    included; on a payload whose [config] has the required fields and a
    string theme, [dark] stays [dark], [light] stays [light] and every
    other string becomes [system]. *)
Theorem getGlobalConfig_theme (fetched1 fetched2 : Result Response)
    (clock : nat -> Z) :
  (exists g theme,
     getGlobalConfig ensureUTCTimezone dateGetTime sanitizeJsonString
       extractPreloadData fetched1 fetched2 clock = Returns g
     /\ global_config g !! js "theme" = Some (JStr theme)
     /\ (theme = js "light" \/ theme = js "dark" \/ theme = js "system"))
  /\ (forall p m raw,
        getPreloadData sanitizeJsonString extractPreloadData fetched1
        = Returns p ->
        config p = Some (JObj m) ->
        Forall (fun field => is_Some (m !! field)) requiredFields ->
        m !! js "theme" = Some (JStr raw) ->
        exists g theme,
          getGlobalConfig ensureUTCTimezone dateGetTime sanitizeJsonString
            extractPreloadData fetched1 fetched2 clock = Returns g
          /\ global_config g !! js "theme" = Some (JStr theme)
          /\ (raw = js "dark" -> theme = js "dark")
          /\ (raw = js "light" -> theme = js "light")
          /\ (raw <> js "dark" -> raw <> js "light" -> theme = js "system")).
Proof.
  split.
  - destruct (getGlobalConfig_cases fetched1 fetched2 clock)
      as [H|(p & m & raw & d & _ & _ & _ & _ & _ & H)].
    + exists placeholder, (js "system"). split; [exact H|].
      split; [reflexivity|auto].
    + eexists _, (normalizeTheme raw). split; [exact H|].
      split; [apply lookup_theme|apply normalizeTheme_cases].
  - intros p m raw Hp Hcfg Hall Htheme.
    destruct (getGlobalConfig_valid fetched1 fetched2 clock p m raw
                Hp Hcfg Hall Htheme) as (d & _ & H).
    eexists _, (normalizeTheme raw). split; [exact H|].
    split; [apply lookup_theme|]. unfold normalizeTheme.
    split; [|split].
    + intros ->. reflexivity.
    + intros ->. reflexivity.
    + intros Hd Hl. apply eqb_neq in Hd, Hl. rewrite Hd, Hl. reflexivity.
Qed.

(** C5: when the payload's [maintenanceList] is not an array,
    [getMaintenanceData] throws its [ApiDataError], catches it and returns
    [success: false] with an empty list and the message of the error;
    [getGlobalConfig], whatever its own request brought, returns a
    configuration whose [maintenanceList] is empty. *)
Theorem getMaintenanceData_not_array (fetched1 fetched2 : Result Response)
    (clock : nat -> Z) (p : PreloadData Rest IRest) :
  getPreloadData sanitizeJsonString extractPreloadData fetched2 = Returns p ->
  maintenanceList p = NotArray ->
  getMaintenanceData ensureUTCTimezone dateGetTime sanitizeJsonString
    extractPreloadData fetched2 clock
  = Returns {| success := false; data_maintenanceList := [];
               error := Some (js "Maintenance list data must be an array") |}
  /\ exists g,
       getGlobalConfig ensureUTCTimezone dateGetTime sanitizeJsonString
         extractPreloadData fetched1 fetched2 clock = Returns g
       /\ global_maintenanceList g = [].
Proof.
  intros Hp Hm.
  assert (Hd : maintenance fetched2 clock
               = Returns {| success := false; data_maintenanceList := [];
                            error := Some (js "Maintenance list data must be an array") |}).
  { unfold getMaintenanceData. rewrite Hp.
    change (Returns p ≫= ?k) with (k p). cbv beta. rewrite Hm. reflexivity. }
  split; [exact Hd|].
  destruct (getGlobalConfig_cases fetched1 fetched2 clock)
    as [H|(p1 & m & raw & d & _ & _ & _ & _ & Hd' & H)].
  - exists placeholder. split; [exact H|reflexivity].
  - eexists. split; [exact H|]. rewrite Hd in Hd'.
    injection Hd' as <-. reflexivity.
Qed.

(** C7, amended: when the core configuration does not validate ([config]
    absent or falsy, a required field missing, or a theme that is not a
    string), [getGlobalConfig] does not throw: it returns the placeholder,
    with empty [slug], [title], [description], [customCSS] and
    [footerText], icon [/icon.svg], theme [system], no analytics id,
    [showPoweredBy] and [showCertificateExpiry] off, [published] and
    [showTags] on, no incident and an empty [maintenanceList]. *)
Theorem getGlobalConfig_placeholder (fetched1 fetched2 : Result Response)
    (clock : nat -> Z) (p : PreloadData Rest IRest) :
  getPreloadData sanitizeJsonString extractPreloadData fetched1 = Returns p ->
  config p = None
  \/ (exists cfg, config p = Some cfg /\ truthy cfg = false)
  \/ (exists m field, config p = Some (JObj m)
                      /\ field ∈ requiredFields /\ m !! field = None)
  \/ (exists m, config p = Some (JObj m)
                /\ isString (m !! js "theme") = false) ->
  exists g,
    getGlobalConfig ensureUTCTimezone dateGetTime sanitizeJsonString
      extractPreloadData fetched1 fetched2 clock = Returns g
    /\ global_incident g = None
    /\ global_maintenanceList g = []
    /\ global_config g !! js "slug" = Some (JStr [])
    /\ global_config g !! js "title" = Some (JStr [])
    /\ global_config g !! js "description" = Some (JStr [])
    /\ global_config g !! js "icon" = Some (JStr (js "/icon.svg"))
    /\ global_config g !! js "theme" = Some (JStr (js "system"))
    /\ global_config g !! js "customCSS" = Some (JStr [])
    /\ global_config g !! js "footerText" = Some (JStr [])
    /\ global_config g !! js "googleAnalyticsId" = Some JNull
    /\ global_config g !! js "showPoweredBy" = Some (JBool false)
    /\ global_config g !! js "showCertificateExpiry" = Some (JBool false)
    /\ global_config g !! js "published" = Some (JBool true)
    /\ global_config g !! js "showTags" = Some (JBool true).
Proof.
  intros Hp Hbad. exists placeholder.
  split; [|repeat split].
  destruct (getGlobalConfig_cases fetched1 fetched2 clock)
    as [H|(p1 & m & raw & d & Hp1 & Hcfg & Hall & Htheme & _ & _)];
    [exact H|].
  exfalso. rewrite Hp in Hp1. injection Hp1 as <-.
  destruct Hbad as [H|[(cfg & H & Ht)|[(m' & f & H & Hin & Hf)|(m' & H & Hs)]]].
  - congruence.
  - rewrite Hcfg in H. injection H as <-. discriminate Ht.
  - rewrite Hcfg in H. injection H as <-.
    rewrite Forall_forall in Hall. destruct (Hall f Hin) as [v Hv]. congruence.
  - rewrite Hcfg in H. injection H as <-. rewrite Htheme in Hs. discriminate.
Qed.

End GlobalFacts.

Section GlobalExamples.
Import Server Fixture.

(** C7 as stated fails: on the payload [{}] the placeholder is returned,
    and two of its boolean flags, [published] and [showTags], are on. *)
Lemma getGlobalConfig_placeholder_flags_on :
  getPreloadData keep (parseOnly (js "{}") emptyPayload)
    (Returns (okResponse (preloadPage (js "{}"))))
  = Returns emptyPayload
  /\ config emptyPayload = None
  /\ getGlobalConfig ensureUTCTimezone isoGetTime keep
       (parseOnly (js "{}") emptyPayload)
       (Returns (okResponse (preloadPage (js "{}"))))
       (Returns (okResponse (preloadPage (js "{}"))))
       (fun _ => june2025)
     = Returns {| global_config := placeholderConfig;
                  global_incident := None;
                  global_maintenanceList := [] |}
  /\ placeholderConfig !! js "published" = Some (JBool true)
  /\ placeholderConfig !! js "showTags" = Some (JBool true).
Proof. repeat split. Qed.

Lemma getGlobalConfig_placeholder_witness :
  getPreloadData keep (parseOnly (js "{}") emptyPayload)
    (Returns (okResponse (preloadPage (js "{}"))))
  = Returns emptyPayload
  /\ config emptyPayload = None
  /\ exists g,
       getGlobalConfig ensureUTCTimezone isoGetTime keep
         (parseOnly (js "{}") emptyPayload)
         (Returns (okResponse (preloadPage (js "{}"))))
         (Returns (okResponse (preloadPage (js "{}"))))
         (fun _ => june2025)
       = Returns g
       /\ global_maintenanceList g = []
       /\ global_config g !! js "theme" = Some (JStr (js "system"))
       /\ global_config g !! js "published" = Some (JBool true).
Proof.
  split; [reflexivity|]. split; [reflexivity|].
  destruct (getGlobalConfig_placeholder ensureUTCTimezone isoGetTime keep
              (parseOnly (js "{}") emptyPayload)
              (Returns (okResponse (preloadPage (js "{}"))))
              (Returns (okResponse (preloadPage (js "{}"))))
              (fun _ => june2025) emptyPayload eq_refl (or_introl eq_refl))
    as (g & Hg & _ & Hm & _ & _ & _ & _ & Ht & _ & _ & _ & _ & _ & Hpub & _).
  exists g. auto.
Defined.

Lemma getGlobalConfig_theme_witness :
  getPreloadData keep (parseOnly (js "{auto}") autoThemePayload)
    (Returns (okResponse (preloadPage (js "{auto}"))))
  = Returns autoThemePayload
  /\ config autoThemePayload = Some (JObj autoThemeConfig)
  /\ Forall (fun field => is_Some (autoThemeConfig !! field)) requiredFields
  /\ autoThemeConfig !! js "theme" = Some (JStr (js "auto"))
  /\ exists g,
       getGlobalConfig ensureUTCTimezone isoGetTime keep
         (parseOnly (js "{auto}") autoThemePayload)
         (Returns (okResponse (preloadPage (js "{auto}"))))
         (Returns (okResponse (preloadPage (js "{auto}"))))
         (fun _ => june2025)
       = Returns g
       /\ global_config g !! js "theme" = Some (JStr (js "system")).
Proof.
  assert (Hall : Forall (fun field => is_Some (autoThemeConfig !! field))
                   requiredFields).
  { repeat constructor; eexists; reflexivity. }
  split; [reflexivity|]. split; [reflexivity|]. split; [exact Hall|].
  split; [reflexivity|].
  destruct (getGlobalConfig_theme ensureUTCTimezone isoGetTime keep
              (parseOnly (js "{auto}") autoThemePayload)
              (Returns (okResponse (preloadPage (js "{auto}"))))
              (Returns (okResponse (preloadPage (js "{auto}"))))
              (fun _ => june2025)) as [_ H].
  destruct (H autoThemePayload autoThemeConfig (js "auto") eq_refl eq_refl
              Hall eq_refl) as (g & theme & Hg & Ht & _ & _ & Hsys).
  exists g. split; [exact Hg|]. rewrite Ht, Hsys; [reflexivity|discriminate..].
Defined.

Lemma getMaintenanceData_not_array_witness :
  getPreloadData keep (parseOnly (js "{auto}") autoThemePayload)
    (Returns (okResponse (preloadPage (js "{auto}"))))
  = Returns autoThemePayload
  /\ maintenanceList autoThemePayload = NotArray
  /\ getMaintenanceData ensureUTCTimezone isoGetTime keep
       (parseOnly (js "{auto}") autoThemePayload)
       (Returns (okResponse (preloadPage (js "{auto}")))) (fun _ => june2025)
     = Returns {| success := false; data_maintenanceList := [];
                  error := Some (js "Maintenance list data must be an array") |}
  /\ exists g,
       getGlobalConfig ensureUTCTimezone isoGetTime keep
         (parseOnly (js "{auto}") autoThemePayload)
         (Returns (okResponse (preloadPage (js "{auto}"))))
         (Returns (okResponse (preloadPage (js "{auto}"))))
         (fun _ => june2025)
       = Returns g
       /\ global_maintenanceList g = []
       /\ global_config g !! js "slug" = Some (JStr (js "demo")).
Proof.
  split; [reflexivity|]. split; [reflexivity|].
  destruct (getMaintenanceData_not_array ensureUTCTimezone isoGetTime keep
              (parseOnly (js "{auto}") autoThemePayload)
              (Returns (okResponse (preloadPage (js "{auto}"))))
              (Returns (okResponse (preloadPage (js "{auto}"))))
              (fun _ => june2025) autoThemePayload eq_refl eq_refl)
    as (Hd & g & Hg & Hm).
  split; [exact Hd|]. exists g. split; [exact Hg|]. split; [exact Hm|].
  vm_compute in Hg. injection Hg as <-. reflexivity.
Defined.

End GlobalExamples.

(** ** The sanitizer *)

Section SanitizerFacts.
Import Sanitizer.

(** *** Character classes *)

Ltac charclass :=
  unfold isWord, isSpace, isQuote, isLineTerminator, startsWord,
    dquote, squote, backslash, slash, asterisk in *;
  repeat match goal with
  | H : _ = true |- _ =>
      progress rewrite ?orb_true_iff, ?andb_true_iff, ?N.eqb_eq, ?N.leb_le in H
  | H : _ = false |- _ =>
      progress rewrite ?orb_false_iff, ?andb_false_iff, ?N.eqb_neq, ?N.leb_gt in H
  end;
  rewrite ?orb_true_iff, ?andb_true_iff, ?orb_false_iff, ?andb_false_iff,
    ?N.eqb_eq, ?N.eqb_neq, ?N.leb_le, ?N.leb_gt;
  lia.

Lemma word_not_quote (c : N) : isWord c = true -> isQuote c = false.
Proof. intros H. charclass. Qed.

Lemma word_plain (c : N) : isWord c = true -> c <> dquote /\ c <> backslash.
Proof. intros H. charclass. Qed.

Lemma word_not_slash (c : N) :
  isWord c = true -> N.eqb c slash = false /\ N.eqb c asterisk = false.
Proof. intros H. charclass. Qed.

Lemma space_not_word (c : N) : isSpace c = true -> isWord c = false.
Proof. intros H. charclass. Qed.

Lemma space_not_quote (c : N) : isSpace c = true -> isQuote c = false.
Proof. intros H. charclass. Qed.

Lemma space_not_slash (c : N) :
  isSpace c = true -> N.eqb c slash = false /\ N.eqb c asterisk = false.
Proof. intros H. charclass. Qed.

Lemma quote_not_word (c : N) : isQuote c = true -> isWord c = false.
Proof. intros H. charclass. Qed.

Lemma quote_not_backslash (c : N) : isQuote c = true -> N.eqb backslash c = false.
Proof. intros H. charclass. Qed.

Lemma quote_not_slash (c : N) :
  isQuote c = true -> N.eqb c slash = false /\ N.eqb c asterisk = false.
Proof. intros H. charclass. Qed.

Lemma lineTerminator_space (c : N) : isLineTerminator c = true -> isSpace c = true.
Proof. intros H. charclass. Qed.

(** *** Repairing twice *)

Lemma normal_tail (t : token) (ts : list token) : normal (t :: ts) -> normal ts.
Proof. inversion 1. assumption. Qed.

Lemma normal_skipSpaces (ts : list token) : normal ts -> normal (skipSpaces ts).
Proof.
  induction 1 as [|t ts Hts IH Ht]; [constructor|].
  destruct t; simpl; try (constructor; assumption). exact IH.
Qed.

Lemma dateCall_normal (ts ts' : list token) (iso : jstring) :
  dateCall ts = Some (iso, ts') -> normal ts -> normal ts'.
Proof.
  unfold dateCall. intros H Hn.
  apply normal_skipSpaces in Hn.
  destruct (skipSpaces ts) as [|[|w| | |] ts1]; try discriminate.
  apply normal_tail, normal_skipSpaces in Hn.
  destruct (skipSpaces ts1) as [|[| | |c1|] ts2]; try discriminate.
  apply normal_tail, normal_skipSpaces in Hn.
  destruct (skipSpaces ts2) as [|[iso'| | | |] ts3]; try discriminate.
  apply normal_tail, normal_skipSpaces in Hn.
  destruct (skipSpaces ts3) as [|[| | |c2|] ts4]; try discriminate.
  apply normal_tail in Hn.
  destruct (_ && _); [|discriminate]. congruence.
Qed.

Lemma repair_normal (t : token) (ts : list token) :
  normal ts -> normal (repair t ts).
Proof.
  intros Hn. destruct t as [b|w|c|c|raw]; simpl;
    try (constructor; [assumption|reflexivity]).
  - destruct (nextIs 58 ts) eqn:Hkey.
    { constructor; [assumption|reflexivity]. }
    destruct (eqb w (js "undefined") || eqb w (js "NaN")) eqn:Hnull.
    { constructor; [assumption|]. simpl. rewrite Hkey. reflexivity. }
    destruct (eqb w (js "new")) eqn:Hnew.
    + destruct (dateCall ts) as [[iso ts']|] eqn:Hdate.
      * constructor; [|reflexivity]. eapply dateCall_normal; eassumption.
      * constructor; [assumption|]. simpl.
        rewrite Hkey, Hnull, Hnew, Hdate. reflexivity.
    + constructor; [assumption|]. simpl. rewrite Hkey, Hnull, Hnew. reflexivity.
  - destruct (N.eqb c 44 && (nextIs 125 ts || nextIs 93 ts)) eqn:Hdrop;
      [assumption|].
    constructor; [assumption|]. simpl. rewrite Hdrop. reflexivity.
Qed.

Lemma normalize_normal (ts : list token) : normal (normalize ts).
Proof.
  induction ts as [|t ts IH]; simpl; [constructor|].
  apply repair_normal. exact IH.
Qed.

Lemma normal_fixed (ts : list token) : normal ts -> normalize ts = ts.
Proof.
  induction 1 as [|t ts Hts IH Ht]; simpl; [reflexivity|].
  fold (normalize ts). rewrite IH. exact Ht.
Qed.

(** *** Scanning printed text *)

Lemma escaped_app (quote : N) (a b : jstring) :
  escaped quote a -> escaped quote b -> escaped quote (a ++ b).
Proof.
  induction 1; intros Hb; simpl; [assumption|..].
  - apply escaped_plain; auto.
  - apply escaped_pair; auto.
Qed.

Lemma requote_escaped (raw : jstring) :
  escaped squote raw -> escaped dquote (requote raw).
Proof.
  induction 1 as [|c s Hq Hb _ IH|c s _ IH].
  - constructor.
  - cbn [requote].
    destruct (N.eqb_spec c backslash) as [->|_]; [congruence|].
    destruct (N.eqb_spec c dquote) as [->|Hd].
    + apply escaped_pair. exact IH.
    + apply escaped_plain; assumption.
  - cbn [requote]. rewrite N.eqb_refl.
    destruct (N.eqb_spec c squote) as [->|_].
    + apply escaped_plain; [discriminate..|exact IH].
    + apply escaped_pair. exact IH.
Qed.

Lemma content_escaped (quote : N) (raw : jstring) :
  isQuote quote = true -> escaped quote raw ->
  escaped dquote (content quote raw).
Proof.
  intros Hq Hraw. unfold content.
  destruct (N.eqb_spec quote squote) as [->|Hne].
  - apply requote_escaped. exact Hraw.
  - replace dquote with quote; [exact Hraw|]. charclass.
Qed.

Lemma word_escaped (w : jstring) :
  Forall (fun c => isWord c = true) w -> escaped dquote w.
Proof.
  induction 1 as [|c w Hc _ IH]; [constructor|].
  destruct (word_plain c Hc). apply escaped_plain; assumption.
Qed.

(** Reading on inside a literal. *)
Lemma scan_string_more (quote : N) (b : jstring) :
  isQuote quote = true -> escaped quote b ->
  forall acc s,
    scan (InString quote acc) (b ++ s)
    = scan (InString quote (rev b ++ acc)) s.
Proof.
  intros Hq. induction 1 as [|c b Hc Hb _ IH|c b _ IH]; intros acc s.
  - reflexivity.
  - cbn [app scan].
    destruct (N.eqb_spec c quote); [contradiction|].
    destruct (N.eqb_spec c backslash); [contradiction|].
    rewrite IH. cbn [rev]. rewrite <- app_assoc. reflexivity.
  - cbn [app scan]. rewrite (quote_not_backslash quote Hq), N.eqb_refl.
    rewrite IH. cbn [rev]. rewrite <- !app_assoc. reflexivity.
Qed.

Lemma scan_string_close (quote : N) (b s : jstring) :
  isQuote quote = true -> escaped quote b ->
  scan (InString quote []) (b ++ quote :: s)
  = TStr (content quote b) :: scan Structural s.
Proof.
  intros Hq Hb. rewrite (scan_string_more quote b Hq Hb).
  cbn [scan]. rewrite N.eqb_refl, app_nil_r, rev_involutive. reflexivity.
Qed.

Lemma scan_word (w : jstring) :
  w <> [] -> Forall (fun c => isWord c = true) w ->
  forall acc s,
    startsWord s = false ->
    scan (InWord acc) (w ++ s) = TWord (rev acc ++ w) :: scan Structural s.
Proof.
  induction w as [|c w IH]; [congruence|]. intros _ Hw acc s Hs.
  apply Forall_cons in Hw as [Hc Hw]. cbn [app scan].
  destruct w as [|c2 w].
  - cbn [app]. rewrite Hs. reflexivity.
  - replace (startsWord ((c2 :: w) ++ s)) with true
      by (symmetry; apply (Forall_inv Hw)).
    rewrite IH by (congruence || assumption).
    cbn [rev]. rewrite <- app_assoc. reflexivity.
Qed.

Lemma scan_word_structural (w s : jstring) :
  w <> [] -> Forall (fun c => isWord c = true) w ->
  startsWord s = false ->
  scan Structural (w ++ s) = TWord w :: scan Structural s.
Proof.
  destruct w as [|c w]; [congruence|]. intros _ Hw Hs.
  apply Forall_cons in Hw as [Hc Hw]. cbn [app scan]. rewrite Hc.
  destruct w as [|c2 w].
  - cbn [app]. rewrite Hs. reflexivity.
  - replace (startsWord ((c2 :: w) ++ s)) with true
      by (symmetry; apply (Forall_inv Hw)).
    rewrite scan_word by (congruence || assumption). reflexivity.
Qed.

Lemma lexed_tail (t : token) (ts : list token) : lexed (t :: ts) -> lexed ts.
Proof. inversion 1; subst; (assumption || constructor). Qed.

Lemma lexed_startsWord (ts : list token) :
  lexed ts -> headIsWord ts = false -> startsWord (print ts) = false.
Proof.
  destruct 1 as [|b ts|w ts|c ts Hc|c ts Hc|quote raw Hq]; simpl; try easy.
  - intros _. apply space_not_word. exact Hc.
  - intros _. apply quote_not_word. exact Hq.
Qed.

Lemma lexed_first (ts : list token) :
  lexed ts -> headIsSlashOrStar ts = false ->
  match print ts with
  | c :: _ => N.eqb c slash = false /\ N.eqb c asterisk = false
  | [] => True
  end.
Proof.
  destruct 1 as [|b ts|w ts Hne Hw|c ts Hc|c ts Hc|quote raw Hq]; simpl;
    try easy.
  - intros _. destruct w as [|c w]; [congruence|]. simpl.
    apply word_not_slash. exact (Forall_inv Hw).
  - intros _. apply space_not_slash. exact Hc.
  - intros Hh. apply orb_false_iff in Hh. exact Hh.
  - intros _. apply quote_not_slash. exact Hq.
Qed.

Lemma print_cons (t : token) (ts : list token) :
  print (t :: ts) = printToken t ++ print ts.
Proof. reflexivity. Qed.

Lemma relex (ts : list token) : lexed ts -> scan Structural (print ts) = ts.
Proof.
  induction 1 as [|b ts Hb Hts IH|w ts Hne Hw Hhead Hts IH|c ts Hc Hts IH
                 |c ts Hw Hq Hs Hslash Hts IH|quote raw Hq Hraw].
  - reflexivity.
  - rewrite print_cons. cbn [printToken].
    cbn [app scan]. change (isWord dquote) with false.
    change (isQuote dquote) with true. cbv iota.
    rewrite <- app_assoc. cbn [app].
    rewrite scan_string_close by (reflexivity || assumption).
    rewrite IH. reflexivity.
  - rewrite print_cons. cbn [printToken].
    rewrite scan_word_structural; try assumption.
    + rewrite IH. reflexivity.
    + apply lexed_startsWord; assumption.
  - rewrite print_cons. cbn [printToken].
    cbn [app scan].
    rewrite (space_not_word c Hc), (space_not_quote c Hc).
    destruct (space_not_slash c Hc) as [-> _]. rewrite Hc, IH. reflexivity.
  - rewrite print_cons. cbn [printToken].
    cbn [app scan]. rewrite Hw, Hq, Hs.
    destruct (N.eqb_spec c slash) as [->|_].
    + specialize (Hslash eq_refl).
      pose proof (lexed_first ts Hts Hslash) as Hfirst.
      destruct (print ts) as [|c2 r2] eqn:E.
      * cbn [scan] in IH. rewrite <- IH. reflexivity.
      * destruct Hfirst as [-> ->]. rewrite IH. reflexivity.
    + rewrite IH. reflexivity.
  - rewrite print_cons. cbn [printToken]. change (print []) with (@nil N).
    rewrite app_nil_r. cbn [scan]. rewrite (quote_not_word quote Hq), Hq. exact Hraw.
Qed.

(** *** What the scanner produces *)

Lemma quiet_head (ts : list token) :
  quiet ts = true -> headIsWord ts = false /\ headIsSlashOrStar ts = false.
Proof. destruct ts as [|[] ts]; simpl; auto; discriminate. Qed.

Lemma scan_word_head (s acc : jstring) :
  headIsSlashOrStar (scan (InWord acc) s) = false.
Proof.
  revert acc. induction s as [|c r IH]; intros acc; cbn [scan]; [reflexivity|].
  destruct (startsWord r); [apply IH|reflexivity].
Qed.

Lemma scan_string_quiet (n : nat) :
  forall s quote acc, (length s <= n)%nat ->
    quiet (scan (InString quote acc) s) = true.
Proof.
  induction n as [|n IH]; intros s quote acc Hn.
  - destruct s; [reflexivity|simpl in Hn; lia].
  - destruct s as [|c r]; [reflexivity|]. simpl in Hn. cbn [scan].
    destruct (N.eqb c quote); [reflexivity|].
    destruct (N.eqb c backslash).
    + destruct r as [|c2 r2]; [reflexivity|]. apply IH. simpl in Hn. lia.
    + apply IH. lia.
Qed.

Lemma scan_line_quiet (s : jstring) : quiet (scan LineComment s) = true.
Proof.
  induction s as [|c r IH]; cbn [scan]; [reflexivity|].
  destruct (isLineTerminator c); [reflexivity|exact IH].
Qed.

Lemma scan_block_quiet (s : jstring) : quiet (scan BlockComment s) = true.
Proof.
  induction s as [|c r IH]; cbn [scan]; [reflexivity|].
  destruct (N.eqb c asterisk); [|exact IH].
  destruct r as [|c2 r2]; [reflexivity|].
  destruct (N.eqb c2 slash); [reflexivity|exact IH].
Qed.

Lemma scan_structural_head (s : jstring) :
  (startsWord s = false -> headIsWord (scan Structural s) = false)
  /\ (match s with
      | c :: _ => N.eqb c slash = false /\ N.eqb c asterisk = false
      | [] => True
      end -> headIsSlashOrStar (scan Structural s) = false).
Proof.
  destruct s as [|c r]; [split; reflexivity|]. cbn [scan startsWord].
  destruct (isWord c) eqn:Hw.
  { split; [discriminate|]. intros _.
    destruct (startsWord r); [apply scan_word_head|reflexivity]. }
  destruct (isQuote c) eqn:Hq.
  { pose proof (scan_string_quiet (length r) r c [] (Nat.le_refl _)) as H.
    apply quiet_head in H. destruct H. split; auto. }
  destruct (N.eqb c slash) eqn:Hs.
  { split; [|intros [? _]; discriminate]. intros _.
    destruct r as [|c2 r2]; [reflexivity|].
    destruct (N.eqb c2 slash);
      [apply quiet_head, scan_line_quiet|].
    destruct (N.eqb c2 asterisk);
      [apply quiet_head, scan_block_quiet|reflexivity]. }
  destruct (isSpace c); [split; reflexivity|].
  split; [reflexivity|]. intros [_ Ha]. simpl. rewrite Hs, Ha. reflexivity.
Qed.

Lemma scan_open (quote : N) (b : jstring) :
  isQuote quote = true -> escaped quote b ->
  scan (InString quote []) b = [TOpen (quote :: b)].
Proof.
  intros Hq Hb.
  rewrite <- (app_nil_r b) at 1. rewrite (scan_string_more quote b Hq Hb).
  cbn [scan]. rewrite app_nil_r, rev_involutive. reflexivity.
Qed.

Lemma scan_lexed_bounded (n : nat) :
  forall s, (length s <= n)%nat ->
    lexed (scan Structural s)
    /\ (forall acc, startsWord s = true ->
                    Forall (fun c => isWord c = true) acc ->
                    lexed (scan (InWord acc) s))
    /\ (forall quote acc, isQuote quote = true -> escaped quote (rev acc) ->
                          lexed (scan (InString quote acc) s))
    /\ lexed (scan LineComment s)
    /\ lexed (scan BlockComment s).
Proof.
  induction n as [|n IH]; intros s Hn.
  { destruct s; [|simpl in Hn; lia].
    split; [constructor|]. split; [discriminate|].
    split; [|split; constructor].
    intros quote acc Hq Hacc. cbn [scan].
    apply lexed_open; [exact Hq|]. apply scan_open; assumption. }
  destruct s as [|c r].
  { split; [constructor|]. split; [discriminate|].
    split; [|split; constructor].
    intros quote acc Hq Hacc. cbn [scan].
    apply lexed_open; [exact Hq|]. apply scan_open; assumption. }
  simpl in Hn.
  destruct (IH r ltac:(lia)) as (IHs & IHw & IHq & IHl & IHb).
  assert (Hword : forall acc, isWord c = true ->
            Forall (fun c => isWord c = true) acc ->
            lexed (if startsWord r then scan (InWord (c :: acc)) r
                   else TWord (rev (c :: acc)) :: scan Structural r)).
  { intros acc Hc Hacc. destruct (startsWord r) eqn:Hr.
    - apply IHw; [reflexivity|]. constructor; assumption.
    - apply lexed_word.
      + cbn [rev]. intros E. apply app_eq_nil in E as [_ E]. discriminate.
      + apply Forall_rev. constructor; assumption.
      + apply scan_structural_head. exact Hr.
      + exact IHs. }
  split; [|split; [|split; [|split]]].
  - cbn [scan]. destruct (isWord c) eqn:Hw.
    { apply (Hword [] eq_refl). constructor. }
    destruct (isQuote c) eqn:Hq.
    { apply IHq; [exact Hq|constructor]. }
    destruct (N.eqb_spec c slash) as [->|Hs].
    + destruct r as [|c2 r2].
      * apply lexed_punct; try reflexivity; constructor.
      * simpl in Hn.
        destruct (IH r2 ltac:(lia)) as (_ & _ & _ & IHl2 & IHb2).
        destruct (N.eqb c2 slash) eqn:E1; [exact IHl2|].
        destruct (N.eqb c2 asterisk) eqn:E2; [exact IHb2|].
        apply lexed_punct; try reflexivity; [|exact IHs].
        intros _. apply scan_structural_head. split; assumption.
    + destruct (isSpace c) eqn:Hsp.
      * apply lexed_space; assumption.
      * apply lexed_punct; try assumption. contradiction.
  - intros acc Hc Hacc. cbn [scan]. apply Hword; [exact Hc|exact Hacc].
  - intros quote acc Hq Hacc. cbn [scan].
    destruct (N.eqb_spec c quote) as [->|Hcq].
    { apply lexed_str; [|exact IHs]. apply content_escaped; assumption. }
    destruct (N.eqb_spec c backslash) as [->|Hcb].
    + destruct r as [|c2 r2].
      * apply lexed_open; [exact Hq|]. cbn [rev].
        rewrite (scan_string_more quote (rev acc) Hq Hacc).
        cbn [scan]. rewrite (quote_not_backslash quote Hq), N.eqb_refl.
        rewrite app_nil_r, rev_involutive. reflexivity.
      * simpl in Hn. destruct (IH r2 ltac:(lia)) as (_ & _ & IHq2 & _ & _).
        apply IHq2; [exact Hq|]. cbn [rev]. rewrite <- app_assoc.
        apply escaped_app; [exact Hacc|]. apply escaped_pair. constructor.
    + apply IHq; [exact Hq|]. cbn [rev].
      apply escaped_app; [exact Hacc|]. apply escaped_plain; auto. constructor.
  - cbn [scan]. destruct (isLineTerminator c) eqn:Hlt; [|exact IHl].
    apply lexed_space; [|exact IHs]. apply lineTerminator_space. exact Hlt.
  - cbn [scan]. destruct (N.eqb c asterisk); [|exact IHb].
    destruct r as [|c2 r2]; [constructor|].
    destruct (N.eqb c2 slash); [|exact IHb].
    simpl in Hn. destruct (IH r2 ltac:(lia)) as (IHs2 & _).
    apply lexed_space; [reflexivity|exact IHs2].
Qed.

Lemma scan_lexed (s : jstring) : lexed (scan Structural s).
Proof. apply (scan_lexed_bounded (length s) s). lia. Qed.

(** *** Repairs keep the text readable *)

Lemma lexed_skipSpaces (ts : list token) : lexed ts -> lexed (skipSpaces ts).
Proof.
  induction 1; simpl; try assumption; try (constructor; assumption).
Qed.

Lemma dateCall_lexed (ts ts' : list token) (iso : jstring) :
  lexed ts -> dateCall ts = Some (iso, ts') ->
  escaped dquote iso /\ lexed ts'.
Proof.
  unfold dateCall. intros Hl H.
  apply lexed_skipSpaces in Hl.
  destruct (skipSpaces ts) as [|[|w| | |] ts1]; try discriminate.
  apply lexed_tail, lexed_skipSpaces in Hl.
  destruct (skipSpaces ts1) as [|[| | |c1|] ts2]; try discriminate.
  apply lexed_tail, lexed_skipSpaces in Hl.
  destruct (skipSpaces ts2) as [|[iso'| | | |] ts3]; try discriminate.
  assert (Hiso : escaped dquote iso') by (inversion Hl; assumption).
  apply lexed_tail, lexed_skipSpaces in Hl.
  destruct (skipSpaces ts3) as [|[| | |c2|] ts4]; try discriminate.
  apply lexed_tail in Hl.
  destruct (_ && _); [|discriminate]. injection H as <- <-. auto.
Qed.

Lemma nextIs_head (d : N) (ts : list token) :
  nextIs d ts = true ->
  N.eqb d slash = false -> N.eqb d asterisk = false ->
  headIsWord ts = false /\ headIsSlashOrStar ts = false.
Proof.
  unfold nextIs. destruct ts as [|[b|w|c|c|raw] ts]; simpl; try discriminate.
  - auto.
  - intros E Hs Ha. apply N.eqb_eq in E. subst c. rewrite Hs, Ha. auto.
Qed.

Lemma repair_head (t : token) (ts : list token) :
  (headIsWord [t] = false -> headIsWord (repair t ts) = false)
  /\ (headIsSlashOrStar [t] = false -> headIsSlashOrStar (repair t ts) = false).
Proof.
  destruct t as [b|w|c|c|raw]; simpl; auto.
  - split; [discriminate|]. intros _.
    destruct (nextIs 58 ts); [reflexivity|].
    destruct (_ || _); [reflexivity|].
    destruct (eqb w (js "new")); [|reflexivity].
    destruct (dateCall ts) as [[iso ts']|]; reflexivity.
  - destruct (N.eqb c 44 && (nextIs 125 ts || nextIs 93 ts)) eqn:E; [|auto].
    apply andb_true_iff in E as [_ E]. apply orb_true_iff in E.
    destruct E as [E|E]; apply nextIs_head in E; try reflexivity;
      destruct E; auto.
Qed.

Lemma normalize_head (ts : list token) :
  (headIsWord ts = false -> headIsWord (normalize ts) = false)
  /\ (headIsSlashOrStar ts = false -> headIsSlashOrStar (normalize ts) = false).
Proof.
  destruct ts as [|t ts]; [auto|].
  destruct (repair_head t (normalize ts)) as [Hw Hs].
  split; intros H; [apply Hw|apply Hs]; destruct t; exact H.
Qed.

Lemma normalize_cons (t : token) (ts : list token) :
  normalize (t :: ts) = repair t (normalize ts).
Proof. reflexivity. Qed.

Lemma normalize_lexed (ts : list token) : lexed ts -> lexed (normalize ts).
Proof.
  induction 1 as [|b ts Hb Hts IH|w ts Hne Hw Hhead Hts IH|c ts Hc Hts IH
                 |c ts Hcw Hcq Hcs Hslash Hts IH|quote raw Hq Hraw];
    rewrite ?normalize_cons.
  - constructor.
  - apply lexed_str; assumption.
  - assert (Hhead' : headIsWord (normalize ts) = false)
      by (apply normalize_head; exact Hhead).
    cbn [repair]. destruct (nextIs 58 (normalize ts)).
    { apply lexed_str; [apply word_escaped|]; assumption. }
    destruct (_ || _).
    { apply lexed_word; auto; try discriminate. repeat constructor. }
    destruct (eqb w (js "new")).
    + destruct (dateCall (normalize ts)) as [[iso ts'']|] eqn:Hdate.
      * destruct (dateCall_lexed _ _ _ IH Hdate).
        apply lexed_str; assumption.
      * apply lexed_word; auto.
    + apply lexed_word; auto.
  - apply lexed_space; assumption.
  - cbn [repair]. destruct (N.eqb c 44 && _); [assumption|].
    apply lexed_punct; auto.
    intros E. apply normalize_head. auto.
  - apply lexed_open; assumption.
Qed.

(** The spec's own example: an unquoted key, an embedded double quote, a
    trailing comma. *)
Example sanitizeJsonString_example :
  sanitizeJsonString
    (js "{title: 'A " ++ [dquote] ++ js "quoted" ++ [dquote]
     ++ js " value', count: 1,}")
  = q "{'title': 'A \'quoted\' value', 'count': 1}".
Proof. vm_compute. reflexivity. Qed.

(** Comments go, text inside string literals stays; [undefined], [NaN]
    and a date constructor call get their JSON stand-ins. *)
Example sanitizeJsonString_tokens :
  sanitizeJsonString
    (js "{a: undefined, b: NaN, /* note */ url: 'http://x/*y*/', "
     ++ js "at: new Date(" ++ [dquote] ++ js "2024-01-01T00:00:00Z" ++ [dquote]
     ++ js "), } // end")
  = q "{'a': null, 'b': null,   'url': 'http://x/*y*/', 'at': '2024-01-01T00:00:00Z' } ".
Proof. vm_compute. reflexivity. Qed.

(** A literal that is never closed is left alone. *)
Example sanitizeJsonString_open_literal :
  sanitizeJsonString (js "{a: 'no end, }") = q "{'a': " ++ js "'no end, }".
Proof. vm_compute. reflexivity. Qed.

(** C3: sanitizing sanitized text changes nothing. *)
Theorem sanitizeJsonString_idempotent (x : jstring) :
  sanitizeJsonString (sanitizeJsonString x) = sanitizeJsonString x.
Proof.
  unfold sanitizeJsonString.
  rewrite relex by apply normalize_lexed, scan_lexed.
  rewrite normal_fixed by apply normalize_normal.
  reflexivity.
Qed.

End SanitizerFacts.

(** * Further properties *)

(** ** config/api.ts *)

Section ApiMore.
Import Api.


Lemma findPage_split (pageId : jstring) (ps : list PageConfig) (page : PageConfig) :
  findPage pageId ps = Some page ->
  exists before after,
    ps = before ++ page :: after
    /\ Forall (fun p => page_id p <> pageId) before
    /\ page_id page = pageId.
Proof.
  unfold findPage. induction ps as [|p ps IH]; simpl; [discriminate|].
  destruct (eqb (page_id p) pageId) eqn:E.
  - intros [= <-]. exists [], ps. apply eqb_eq in E. auto.
  - intros H. destruct (IH H) as (before & after & -> & Hb & Hp).
    exists (p :: before), after. apply eqb_neq in E. auto.
Qed.

(** X1: [getConfig] throws "Missing required configuration variables"
    exactly when the base URL or the default page id is empty or there is
    no page; in every other case it returns a configuration. *)
Theorem getConfig_missing_variables (env : GeneratedConfig) :
  ((env_baseUrl env = [] \/ env_defaultPageId env = [] \/ env_pages env = [])
   /\ getConfig env
      = Throws (Err PlainError (js "Missing required configuration variables")))
  \/ (env_baseUrl env <> [] /\ env_defaultPageId env <> [] /\ env_pages env <> []
      /\ exists cfg, getConfig env = Returns cfg).
Proof.
  unfold getConfig.
  destruct (env_baseUrl env) as [|b bs]; [left; auto|].
  destruct (env_defaultPageId env) as [|d ds]; [left; auto|].
  destruct (env_pages env) as [|page0 others]; [left; auto|].
  right. repeat split; try discriminate. eauto.
Qed.

(** X2: whatever the generated configuration says, the configuration
    built by [getConfig] has the star button on and is no placeholder;
    only [isEditThisPage] is taken over. *)
Theorem getConfig_flags (env : GeneratedConfig) (cfg : Config) :
  getConfig env = Returns cfg ->
  isShowStarButton cfg = true
  /\ isPlaceholder cfg = false
  /\ isEditThisPage cfg = env_isEditThisPage env.
Proof.
  unfold getConfig.
  destruct (env_baseUrl env) as [|b bs]; [discriminate|].
  destruct (env_defaultPageId env) as [|d ds]; [discriminate|].
  destruct (env_pages env) as [|page0 others]; [discriminate|].
  intros [= <-]. simpl. rewrite orb_true_r, orb_false_r. auto.
Qed.

Lemma getConfig_flags_witness :
  getConfig FixtureMore.starOff = Returns FixtureMore.starOffConfig
  /\ env_isShowStarButton FixtureMore.starOff = false
  /\ env_isPlaceholder FixtureMore.starOff = true
  /\ isShowStarButton FixtureMore.starOffConfig = true
  /\ isPlaceholder FixtureMore.starOffConfig = false
  /\ isEditThisPage FixtureMore.starOffConfig
     = env_isEditThisPage FixtureMore.starOff.
Proof.
  split; [reflexivity|]. split; [reflexivity|]. split; [reflexivity|].
  apply (getConfig_flags FixtureMore.starOff). reflexivity.
Defined.

(** X3: the site metadata of the configuration built by [getConfig] is
    that of the first page whose id is the default page id; when no page
    has that id, it is that of the first page. *)
Theorem getConfig_siteMeta (env : GeneratedConfig) (cfg : Config) :
  getConfig env = Returns cfg ->
  (exists before page after,
     env_pages env = before ++ page :: after
     /\ Forall (fun p => page_id p <> env_defaultPageId env) before
     /\ page_id page = env_defaultPageId env
     /\ siteMeta cfg = page_siteMeta page)
  \/ (exists page0 others,
        env_pages env = page0 :: others
        /\ Forall (fun p => page_id p <> env_defaultPageId env) (env_pages env)
        /\ siteMeta cfg = page_siteMeta page0).
Proof.
  intros Hcfg.
  destruct (getConfig_Returns _ _ Hcfg)
    as (_ & _ & _ & _ & _ & _ & page0 & others & Hp & Hm).
  destruct (findPage (env_defaultPageId env) (env_pages env)) as [page|] eqn:E.
  - left. destruct (findPage_split _ _ _ E) as (before & after & Hs & Hb & Hid).
    exists before, page, after. auto.
  - right. exists page0, others. apply findPage_None in E. auto.
Qed.

Lemma getConfig_siteMeta_witness :
  getConfig Fixture.twoPages = Returns Fixture.twoPagesConfig
  /\ ((exists before page after,
         env_pages Fixture.twoPages = before ++ page :: after
         /\ Forall (fun p => page_id p <> env_defaultPageId Fixture.twoPages) before
         /\ page_id page = env_defaultPageId Fixture.twoPages
         /\ siteMeta Fixture.twoPagesConfig = page_siteMeta page)
      \/ (exists page0 others,
            env_pages Fixture.twoPages = page0 :: others
            /\ Forall (fun p => page_id p <> env_defaultPageId Fixture.twoPages)
                 (env_pages Fixture.twoPages)
            /\ siteMeta Fixture.twoPagesConfig = page_siteMeta page0)).
Proof.
  split; [reflexivity|].
  apply (getConfig_siteMeta Fixture.twoPages). reflexivity.
Defined.



(** X5: every call gives an object of its own: two calls in a row return
    two different objects, and the second call leaves the object returned
    by the first, and [apiConfig], as they were. *)
Theorem getConfigForPage_independent_copies (cfg : Config)
    (h : gmap nat Config) (api : loc) (pageId1 pageId2 : jstring) :
  h !! api = Some cfg ->
  exists l1 h1 l2 h2,
    getConfigForPage api pageId1 h = Some (l1, h1)
    /\ getConfigForPage api pageId2 h1 = Some (l2, h2)
    /\ l1 <> l2
    /\ h2 !! l1 = h1 !! l1
    /\ h2 !! l1 = Some (resultFor pageId1 cfg)
    /\ h2 !! l2 = Some (resultFor pageId2 cfg)
    /\ h2 !! api = Some cfg.
Proof.
  intros Hapi.
  set (l1 := fresh (dom h)).
  set (h1 := <[l1 := resultFor pageId1 cfg]> h).
  assert (Hl1 : l1 <> api).
  { intros E. apply (is_fresh (dom h)). fold l1. rewrite E.
    apply elem_of_dom. eauto. }
  assert (Hapi1 : h1 !! api = Some cfg).
  { unfold h1. rewrite lookup_insert_ne by exact Hl1. exact Hapi. }
  set (l2 := fresh (dom h1)).
  assert (Hl2 : l2 <> l1).
  { intros E. apply (is_fresh (dom h1)). fold l2. rewrite E.
    apply elem_of_dom. unfold h1. rewrite lookup_insert_eq. eauto. }
  assert (Hl2' : l2 <> api).
  { intros E. apply (is_fresh (dom h1)). fold l2. rewrite E.
    apply elem_of_dom. eauto. }
  exists l1, h1, l2, (<[l2 := resultFor pageId2 cfg]> h1).
  split; [apply getConfigForPage_run; exact Hapi|].
  split; [apply getConfigForPage_run; exact Hapi1|].
  split; [congruence|].
  rewrite !lookup_insert_eq, !(lookup_insert_ne _ l2) by assumption.
  unfold h1. rewrite lookup_insert_eq. repeat split.
  rewrite lookup_insert_ne by exact Hl1. exact Hapi.
Qed.

Lemma getConfigForPage_independent_copies_witness :
  Fixture.twoPagesHeap !! apiConfig = Some Fixture.twoPagesConfig
  /\ exists l1 h1 l2 h2,
       getConfigForPage apiConfig (js "a") Fixture.twoPagesHeap = Some (l1, h1)
       /\ getConfigForPage apiConfig (js "b") h1 = Some (l2, h2)
       /\ l1 <> l2
       /\ h2 !! l1 = h1 !! l1
       /\ h2 !! l1 = Some (resultFor (js "a") Fixture.twoPagesConfig)
       /\ h2 !! l2 = Some (resultFor (js "b") Fixture.twoPagesConfig)
       /\ h2 !! apiConfig = Some Fixture.twoPagesConfig.
Proof.
  split; [reflexivity|].
  apply (getConfigForPage_independent_copies Fixture.twoPagesConfig).
  reflexivity.
Defined.

(** X6: asking for the default page id, when a page has that id, returns
    a copy that equals [apiConfig] field by field. *)
Theorem getConfigForPage_default_page (env : GeneratedConfig) (cfg : Config)
    (h : gmap nat Config) (api : loc) (page : PageConfig) :
  getConfig env = Returns cfg ->
  h !! api = Some cfg ->
  findPage (env_defaultPageId env) (env_pages env) = Some page ->
  exists l h',
    getConfigForPage api (env_defaultPageId env) h = Some (l, h')
    /\ l <> api
    /\ h' !! l = Some cfg.
Proof.
  intros Hcfg Hapi Hpage.
  destruct (getConfig_Returns _ _ Hcfg)
    as (Hb & Hd & Hp & Hcur & Hh & Ha & page0 & others & Hps & Hm).
  exists (fresh (dom h)),
    (<[fresh (dom h) := resultFor (env_defaultPageId env) cfg]> h).
  split; [apply getConfigForPage_run; exact Hapi|].
  split.
  { intros E. apply (is_fresh (dom h)). rewrite E. apply elem_of_dom. eauto. }
  rewrite lookup_insert_eq. f_equal.
  unfold resultFor. rewrite Hp, Hpage. rewrite Hpage in Hm.
  destruct cfg. simpl in *. subst. reflexivity.
Qed.

Lemma getConfigForPage_default_page_witness :
  getConfig Fixture.twoPages = Returns Fixture.twoPagesConfig
  /\ Fixture.twoPagesHeap !! apiConfig = Some Fixture.twoPagesConfig
  /\ findPage (js "b") (env_pages Fixture.twoPages) = Some Fixture.pageB
  /\ exists l h',
       getConfigForPage apiConfig (js "b") Fixture.twoPagesHeap = Some (l, h')
       /\ l <> apiConfig
       /\ h' !! l = Some Fixture.twoPagesConfig.
Proof.
  split; [reflexivity|]. split; [reflexivity|]. split; [reflexivity|].
  apply (getConfigForPage_default_page Fixture.twoPages _ _ _ Fixture.pageB);
    reflexivity.
Defined.

End ApiMore.

(** ** services/config.server.ts *)

Section RegexMore.
Import Regex.

(** A successful star split its input into a run of the class and a rest
    on which the continuation succeeded. *)
Lemma star_Some {X : Type} (cls : N -> bool) (s : jstring)
    (k : jstring -> option X) (x : X) :
  star cls s k = Some x ->
  exists r1 r2, s = r1 ++ r2 /\ Forall (fun c => cls c = true) r1 /\ k r2 = Some x.
Proof.
  induction s as [|c s IH]; cbn [star].
  - intros H. exists [], []. auto.
  - destruct (cls c) eqn:Hc.
    + destruct (star cls s k) as [y|] eqn:E.
      * intros [= <-]. destruct (IH eq_refl) as (r1 & r2 & -> & Hr1 & Hk).
        exists (c :: r1), r2. auto.
      * intros H. exists [], (c :: s). auto.
    + intros H. exists [], (c :: s). auto.
Qed.

Lemma exec_Some (r : re) (s : jstring) (cap : option jstring) :
  exec r s = Some cap ->
  exists pre s', s = pre ++ s' /\ matchHere r s' = Some cap.
Proof.
  induction s as [|c s IH]; cbn [exec].
  - destruct (matchHere r []) eqn:E; [|discriminate].
    intros [= <-]. exists [], []. auto.
  - destruct (matchHere r (c :: s)) eqn:E.
    + intros [= <-]. exists [], (c :: s). auto.
    + intros H. destruct (IH H) as (pre & s' & -> & Hm).
      exists (c :: pre), s'. auto.
Qed.

(** X15: whatever [/window\.preloadData\s*=\s*({.*});/] captures in a
    text starts with [{], ends with [}], holds no line terminator, and
    stands in the text after [window.preloadData], optional whitespace,
    [=] and optional whitespace, followed by [;]; so an object literal
    that spans several lines is never captured whole. *)
Theorem preloadDataRe_capture (s : jstring) (cap : option jstring) :
  exec preloadDataRe s = Some cap ->
  exists pre ws1 ws2 inner post,
    cap = Some (js "{" ++ inner ++ js "}")
    /\ s = pre ++ marker ++ ws1 ++ js "=" ++ ws2 ++ js "{" ++ inner
           ++ js "};" ++ post
    /\ Forall (fun c => isSpace c = true) ws1
    /\ Forall (fun c => isSpace c = true) ws2
    /\ Forall (fun c => isLineTerminator c = false) inner.
Proof.
  intros H. apply exec_Some in H as (pre & s' & -> & H).
  unfold matchHere, preloadDataRe in H. cbn [matchRe] in H.
  destruct (stripPrefix marker s') as [r1|] eqn:E1; [|discriminate].
  apply stripPrefix_Some in E1 as ->.
  apply star_Some in H as (ws1 & r2 & -> & Hws1 & H).
  destruct (stripPrefix (js "=") r2) as [r3|] eqn:E2; [|discriminate].
  apply stripPrefix_Some in E2 as ->.
  apply star_Some in H as (ws2 & r4 & -> & Hws2 & H).
  destruct (stripPrefix (js "{") r4) as [r5|] eqn:E3; [|discriminate].
  apply stripPrefix_Some in E3 as ->.
  apply star_Some in H as (inner & r6 & -> & Hinner & H).
  destruct (stripPrefix (js "}") r6) as [r7|] eqn:E4; [|discriminate].
  apply stripPrefix_Some in E4 as ->.
  destruct (stripPrefix (js ";") r7) as [post|] eqn:E5; [|discriminate].
  apply stripPrefix_Some in E5 as ->.
  assert (Hcap : Some cap = Some (Some (js "{" ++ inner ++ js "}"))).
  { rewrite <- H. do 2 f_equal.
    replace (js "{" ++ inner ++ js "}" ++ js ";" ++ post)
      with ((js "{" ++ inner ++ js "}") ++ js ";" ++ post)
      by (rewrite <- !app_assoc; reflexivity).
    apply take_app_length'. rewrite !length_app. lia. }
  exists pre, ws1, ws2, inner, post.
  split; [congruence|split; [reflexivity|split; [exact Hws1|split; [exact Hws2|]]]].
  eapply Forall_impl; [exact Hinner|]. intros c Hc. unfold dot in Hc.
  destruct (isLineTerminator c); [discriminate|reflexivity].
Qed.

Lemma preloadDataRe_capture_witness :
  exec preloadDataRe
    (Server.text (Server.selectScriptWithPreloadData Fixture.twoStatements))
  = Some (Some (q "{'a':{'b':1}}; window.other = {'c':2}"))
  /\ exists pre ws1 ws2 inner post,
       Some (q "{'a':{'b':1}}; window.other = {'c':2}")
       = Some (js "{" ++ inner ++ js "}")
       /\ Server.text (Server.selectScriptWithPreloadData Fixture.twoStatements)
          = pre ++ marker ++ ws1 ++ js "=" ++ ws2 ++ js "{" ++ inner
            ++ js "};" ++ post
       /\ Forall (fun c => isSpace c = true) ws1
       /\ Forall (fun c => isSpace c = true) ws2
       /\ Forall (fun c => isLineTerminator c = false) inner.
Proof.
  assert (H : exec preloadDataRe
                (Server.text (Server.selectScriptWithPreloadData Fixture.twoStatements))
              = Some (Some (q "{'a':{'b':1}}; window.other = {'c':2}")))
    by (vm_compute; reflexivity).
  split; [exact H|]. exact (preloadDataRe_capture _ _ H).
Defined.

End RegexMore.

Section ServerMore.
Import Regex Server.

Context {Rest IRest : Type}.
Variable ensureUTCTimezone : jstring -> jstring.
Variable dateGetTime : jstring -> option Z.
Variable sanitizeJsonString : jstring -> Result jstring.
Variable extractPreloadData : jstring -> Result (PreloadData Rest IRest).

Lemma ok_status (r : Response) :
  ok r = true <-> (200 <= httpStatus r <= 299)%Z.
Proof. unfold ok. rewrite andb_true_iff, !Z.leb_le. tauto. Qed.

(** X7: the current convention wins.  When [#preload-data] has text that
    is not blank, that text is what is sanitized and parsed, whether or
    not the page also carries a legacy script. *)
Theorem getPreloadData_current_convention (r : Response) :
  (200 <= httpStatus r <= 299)%Z ->
  blank (text (selectPreloadData (body r))) = false ->
  locatePreloadScript (body r) = text (selectPreloadData (body r))
  /\ getPreloadData sanitizeJsonString extractPreloadData (Returns r)
     = parsePreloadScript sanitizeJsonString extractPreloadData
         (text (selectPreloadData (body r))).
Proof.
  intros Hr Hblank.
  assert (Hloc : locatePreloadScript (body r) = text (selectPreloadData (body r))).
  { unfold locatePreloadScript. rewrite Hblank. reflexivity. }
  split; [exact Hloc|].
  rewrite getPreloadData_ok; rewrite ?Hloc; auto. apply ok_status. exact Hr.
Qed.

(** X8: [getPreloadData] returns a payload or throws a [ConfigError];
    nothing else ever leaves it, whatever the request, the sanitizer or
    the parser throw. *)
Theorem getPreloadData_only_ConfigError (fetched : Result Response) :
  (exists p,
     getPreloadData sanitizeJsonString extractPreloadData fetched = Returns p)
  \/ (exists message,
        getPreloadData sanitizeJsonString extractPreloadData fetched
        = Throws (Err ConfigError message)).
Proof.
  destruct (getPreloadData sanitizeJsonString extractPreloadData fetched)
    as [p|e] eqn:E; [left; eauto|right].
  apply getPreloadData_throws in E as [message ->]. eauto.
Qed.

(** X9: a [SyntaxError] of the sanitizer or of the parser comes out as the
    [ConfigError] "JSON parsing failed: ..." that quotes the first 100
    code units of the located text and no more, so the message is at most
    141 code units longer than the parser's own. *)
Theorem getPreloadData_syntax_error (r : Response) (message : jstring) :
  (200 <= httpStatus r <= 299)%Z ->
  blank (locatePreloadScript (body r)) = false ->
  (jsonStr ← sanitizeJsonString (locatePreloadScript (body r));
   extractPreloadData jsonStr)
  = Throws (Err SyntaxError message) ->
  exists text,
    getPreloadData sanitizeJsonString extractPreloadData (Returns r)
    = Throws (Err ConfigError text)
    /\ text = js "JSON parsing failed: " ++ message ++ [10]
              ++ js "Processed data: "
              ++ take 100 (locatePreloadScript (body r)) ++ js "..."
    /\ (length text <= length message + 141)%nat.
Proof.
  intros Hr Hblank Hthrow. eexists. split; [|split; [reflexivity|]].
  - rewrite getPreloadData_ok by (apply ok_status; exact Hr) || assumption.
    unfold parsePreloadScript. rewrite Hthrow. reflexivity.
  - rewrite !length_app, length_take.
    change (length (js "JSON parsing failed: ")) with 21%nat.
    change (length (js "Processed data: ")) with 16%nat.
    change (length (js "...")) with 3%nat.
    change (length [10]) with 1%nat. lia.
Qed.


(** X11: on a payload with a valid core, [getGlobalConfig] passes every
    property of [config] other than [theme] through as it is, adds none,
    keeps an absent incident absent, gives a present incident its two
    dates through [ensureUTCTimezone] and its other properties unchanged,
    and carries the list that [getMaintenanceData] returned for the
    second request. *)
Theorem getGlobalConfig_frame (fetched1 fetched2 : Result Response)
    (clock : nat -> Z) (p : PreloadData Rest IRest)
    (m : gmap jstring JSON) (raw : jstring) :
  getPreloadData sanitizeJsonString extractPreloadData fetched1 = Returns p ->
  config p = Some (JObj m) ->
  Forall (fun field => is_Some (m !! field)) requiredFields ->
  m !! js "theme" = Some (JStr raw) ->
  exists g d,
    getGlobalConfig ensureUTCTimezone dateGetTime sanitizeJsonString
      extractPreloadData fetched1 fetched2 clock = Returns g
    /\ (forall key, key <> js "theme" -> global_config g !! key = m !! key)
    /\ dom (global_config g) = dom m
    /\ match incident p, global_incident g with
       | None, None => True
       | Some i, Some i' =>
           incidentRest i' = incidentRest i
           /\ createdDate i' = ensureUTCTimezone (createdDate i)
           /\ lastUpdatedDate i' = ensureUTCTimezone (lastUpdatedDate i)
       | _, _ => False
       end
    /\ getMaintenanceData ensureUTCTimezone dateGetTime sanitizeJsonString
         extractPreloadData fetched2 clock = Returns d
    /\ global_maintenanceList g = data_maintenanceList d.
Proof.
  intros Hp Hcfg Hall Htheme.
  destruct (getGlobalConfig_valid ensureUTCTimezone dateGetTime
              sanitizeJsonString extractPreloadData fetched1 fetched2 clock
              p m raw Hp Hcfg Hall Htheme) as (d & Hd & Hg).
  eexists _, d. split; [exact Hg|]. cbn [global_config global_incident
                                          global_maintenanceList].
  split; [|split; [|split; [|split]]].
  - intros key Hkey. apply lookup_insert_ne. congruence.
  - apply dom_insert_lookup_L. eauto.
  - destruct (incident p); auto.
  - exact Hd.
  - reflexivity.
Qed.

(** X12: when the page cannot be fetched or holds no payload,
    [getGlobalConfig] swallows the [ConfigError] and returns the
    placeholder, whatever the second request would have brought. *)
Theorem getGlobalConfig_fetch_failure (fetched1 fetched2 : Result Response)
    (clock : nat -> Z) (e : Thrown) :
  getPreloadData sanitizeJsonString extractPreloadData fetched1 = Throws e ->
  getGlobalConfig ensureUTCTimezone dateGetTime sanitizeJsonString
    extractPreloadData fetched1 fetched2 clock
  = Returns {| global_config := placeholderConfig;
               global_incident := None;
               global_maintenanceList := [] |}.
Proof.
  intros H. unfold getGlobalConfig. rewrite H. reflexivity.
Qed.

(** X13: processing a processed list again, at the same clock readings,
    changes nothing, provided [ensureUTCTimezone] leaves its own results
    alone. *)
Theorem processMaintenanceData_idempotent (clock : nat -> Z)
    (l : list (Maintenance Rest)) :
  (forall s, ensureUTCTimezone (ensureUTCTimezone s) = ensureUTCTimezone s) ->
  processMaintenanceData ensureUTCTimezone dateGetTime clock
    (processMaintenanceData ensureUTCTimezone dateGetTime clock l)
  = processMaintenanceData ensureUTCTimezone dateGetTime clock l.
Proof.
  intros Hidem. apply list_eq. intros i.
  rewrite !processMaintenanceData_lookup.
  destruct (l !! i) as [m|]; [|reflexivity]. cbn [fmap option_fmap option_map].
  f_equal.
  set (m' := processMaintenance ensureUTCTimezone dateGetTime (clock i) m).
  destruct (processMaintenance_frame ensureUTCTimezone dateGetTime (clock i) m)
    as [Hrest Hslots]. fold m' in Hrest, Hslots.
  destruct (processMaintenance_frame ensureUTCTimezone dateGetTime (clock i) m')
    as [Hrest' Hslots'].
  assert (Hnorm : forall slot,
            normalizeSlot ensureUTCTimezone (normalizeSlot ensureUTCTimezone slot)
            = normalizeSlot ensureUTCTimezone slot).
  { intros slot. unfold normalizeSlot. cbn. rewrite !Hidem. reflexivity. }
  assert (Hslots2 : timeslotList
                      (processMaintenance ensureUTCTimezone dateGetTime (clock i) m')
                    = timeslotList m').
  { rewrite Hslots', Hslots. destruct (timeslotList m) as [slots|]; cbn;
      [|reflexivity].
    f_equal. rewrite map_map. apply map_ext. exact Hnorm. }
  assert (Hstatus : status
                      (processMaintenance ensureUTCTimezone dateGetTime (clock i) m')
                    = status m').
  { destruct (timeslotList m) as [[|slot0 later]|] eqn:E.
    - rewrite processMaintenance_no_slot; [reflexivity|].
      rewrite Hslots. cbn. auto.
    - rewrite (processMaintenance_status ensureUTCTimezone dateGetTime
                 (clock i) m' (normalizeSlot ensureUTCTimezone slot0)
                 (map (normalizeSlot ensureUTCTimezone) later))
        by (rewrite Hslots; reflexivity).
      subst m'.
      rewrite !(processMaintenance_status _ _ _ m _ _ E).
      unfold startTime, endTime, normalizeSlot. cbn. rewrite !Hidem.
      repeat match goal with
             | |- context [if ?b then _ else _] => destruct b
             end; reflexivity.
    - rewrite processMaintenance_no_slot; [reflexivity|].
      rewrite Hslots. cbn. auto. }
  destruct (processMaintenance ensureUTCTimezone dateGetTime (clock i) m').
  destruct m'. cbn in *. congruence.
Qed.

(** X14: for a first slot whose two dates parse, the status is always
    assigned, and it never goes back as time passes: once [ended] it stays
    [ended], and where it is [scheduled] it was [scheduled] at every
    earlier instant. *)
Theorem processMaintenance_status_progress (now1 now2 : Z)
    (m : Maintenance Rest) (slot0 : TimeSlot) (later : list TimeSlot)
    (start finish : Z) :
  timeslotList m = Some (slot0 :: later) ->
  dateGetTime (ensureUTCTimezone (startDate slot0)) = Some start ->
  dateGetTime (ensureUTCTimezone (endDate slot0)) = Some finish ->
  (now1 <= now2)%Z ->
  let status1 :=
    status (processMaintenance ensureUTCTimezone dateGetTime now1 m) in
  let status2 :=
    status (processMaintenance ensureUTCTimezone dateGetTime now2 m) in
  (status1 = Some (js "scheduled") \/ status1 = Some (js "under-maintenance")
   \/ status1 = Some (js "ended"))
  /\ (status1 = Some (js "ended") -> status2 = Some (js "ended"))
  /\ (status2 = Some (js "scheduled") -> status1 = Some (js "scheduled")).
Proof.
  intros Hm Hs He Hle status1 status2. subst status1 status2.
  rewrite !(processMaintenance_status _ _ _ _ _ _ Hm).
  unfold startTime, endTime. rewrite Hs, He. unfold geTime, ltTime.
  repeat match goal with
         | |- context [(?a <=? ?b)%Z] => destruct (Z.leb_spec a b)
         | |- context [(?a <? ?b)%Z] => destruct (Z.ltb_spec a b)
         end; cbn; try lia;
    repeat split; auto; try discriminate; intros; try discriminate.
Qed.

End ServerMore.

Section ServerMoreExamples.
Import Regex Server.

Lemma getPreloadData_syntax_error_witness :
  (200 <= httpStatus (Fixture.okResponse (Fixture.preloadPage (js "{oops")))
   <= 299)%Z
  /\ blank (locatePreloadScript
              (body (Fixture.okResponse (Fixture.preloadPage (js "{oops")))))
     = false
  /\ getPreloadData (Rest := unit) (IRest := unit) Fixture.keep
       (fun _ => Throws (Err SyntaxError (js "Unexpected token o")))
       (Returns (Fixture.okResponse (Fixture.preloadPage (js "{oops"))))
     = Throws (Err ConfigError
                 (js "JSON parsing failed: Unexpected token o" ++ [10]
                  ++ js "Processed data: {oops...")).
Proof.
  assert (A : (200 <= httpStatus
                 (Fixture.okResponse (Fixture.preloadPage (js "{oops")))
               <= 299)%Z) by (simpl; lia).
  split; [exact A|]. split; [reflexivity|].
  destruct (getPreloadData_syntax_error (Rest := unit) (IRest := unit)
              Fixture.keep
              (fun _ => Throws (Err SyntaxError (js "Unexpected token o")))
              (Fixture.okResponse (Fixture.preloadPage (js "{oops")))
              (js "Unexpected token o") A eq_refl eq_refl)
    as (text & Hget & -> & _).
  exact Hget.
Defined.

Lemma getPreloadData_current_convention_witness :
  (200 <= httpStatus (Fixture.okResponse FixtureMore.bothConventions) <= 299)%Z
  /\ blank (text (selectPreloadData
                    (body (Fixture.okResponse FixtureMore.bothConventions))))
     = false
  /\ locatePreloadScript FixtureMore.bothConventions = js "{}"
  /\ getPreloadData Fixture.keep (Fixture.parseOnly (js "{}") Fixture.emptyPayload)
       (Returns (Fixture.okResponse FixtureMore.bothConventions))
     = Returns Fixture.emptyPayload.
Proof.
  assert (A : (200 <= httpStatus (Fixture.okResponse FixtureMore.bothConventions)
               <= 299)%Z) by (simpl; lia).
  split; [exact A|]. split; [reflexivity|].
  destruct (getPreloadData_current_convention Fixture.keep
              (Fixture.parseOnly (js "{}") Fixture.emptyPayload)
              (Fixture.okResponse FixtureMore.bothConventions) A eq_refl)
    as [Hloc Hget].
  split; [exact Hloc|]. rewrite Hget. reflexivity.
Defined.

Lemma getGlobalConfig_frame_witness :
  getPreloadData Fixture.keep
    (Fixture.parseOnly (js "{full}") FixtureMore.fullPayload)
    (Returns (Fixture.okResponse (Fixture.preloadPage (js "{full}"))))
  = Returns FixtureMore.fullPayload
  /\ config FixtureMore.fullPayload = Some (JObj Fixture.autoThemeConfig)
  /\ Forall (fun field => is_Some (Fixture.autoThemeConfig !! field))
       requiredFields
  /\ Fixture.autoThemeConfig !! js "theme" = Some (JStr (js "auto"))
  /\ exists g,
       getGlobalConfig Fixture.ensureUTCTimezone Fixture.isoGetTime Fixture.keep
         (Fixture.parseOnly (js "{full}") FixtureMore.fullPayload)
         (Returns (Fixture.okResponse (Fixture.preloadPage (js "{full}"))))
         (Returns (Fixture.okResponse (Fixture.preloadPage (js "{full}"))))
         (fun _ => Fixture.june2025)
       = Returns g
       /\ global_config g !! js "slug" = Some (JStr (js "demo"))
       /\ global_config g !! js "published" = None
       /\ match global_incident g with
          | Some i => createdDate i = js "2025-05-01T10:00:00Z"
          | None => False
          end
       /\ status <$> global_maintenanceList g
          = [Some (js "under-maintenance")].
Proof.
  assert (Hall : Forall (fun field => is_Some (Fixture.autoThemeConfig !! field))
                   requiredFields).
  { repeat constructor; eexists; reflexivity. }
  split; [reflexivity|]. split; [reflexivity|]. split; [exact Hall|].
  split; [reflexivity|].
  destruct (getGlobalConfig_frame Fixture.ensureUTCTimezone Fixture.isoGetTime
              Fixture.keep
              (Fixture.parseOnly (js "{full}") FixtureMore.fullPayload)
              (Returns (Fixture.okResponse (Fixture.preloadPage (js "{full}"))))
              (Returns (Fixture.okResponse (Fixture.preloadPage (js "{full}"))))
              (fun _ => Fixture.june2025) FixtureMore.fullPayload
              Fixture.autoThemeConfig (js "auto") eq_refl eq_refl Hall eq_refl)
    as (g & d & Hg & Hkeys & _ & Hinc & Hd & Hlist).
  exists g. split; [exact Hg|].
  split; [rewrite Hkeys by discriminate; reflexivity|].
  split; [rewrite Hkeys by discriminate; reflexivity|].
  split.
  - cbn [incident FixtureMore.fullPayload] in Hinc.
    destruct (global_incident g) as [i|]; [|exact Hinc].
    destruct Hinc as (_ & -> & _). reflexivity.
  - rewrite Hlist. vm_compute in Hd. injection Hd as <-. reflexivity.
Defined.

Lemma getGlobalConfig_fetch_failure_witness :
  getPreloadData (Rest := unit) (IRest := unit) Fixture.keep
    (Fixture.parseOnly (js "{}") Fixture.emptyPayload)
    (Returns Fixture.serverError)
  = Throws (Err ConfigError (js "Failed to get HTML: 500 Internal Server Error"))
  /\ getGlobalConfig Fixture.ensureUTCTimezone Fixture.isoGetTime Fixture.keep
       (Fixture.parseOnly (js "{}") Fixture.emptyPayload)
       (Returns Fixture.serverError)
       (Returns (Fixture.okResponse (Fixture.preloadPage (js "{}"))))
       (fun _ => Fixture.june2025)
     = Returns {| global_config := placeholderConfig;
                  global_incident := None;
                  global_maintenanceList := [] |}.
Proof.
  split; [reflexivity|].
  apply (getGlobalConfig_fetch_failure Fixture.ensureUTCTimezone
           Fixture.isoGetTime Fixture.keep
           (Fixture.parseOnly (js "{}") Fixture.emptyPayload)
           (Returns Fixture.serverError) _ _
           (Err ConfigError (js "Failed to get HTML: 500 Internal Server Error"))).
  reflexivity.
Defined.

Lemma fixture_ensureUTCTimezone_idempotent (s : jstring) :
  Fixture.ensureUTCTimezone (Fixture.ensureUTCTimezone s)
  = Fixture.ensureUTCTimezone s.
Proof.
  assert (Hz : forall t, last t = Some 90 -> Fixture.ensureUTCTimezone t = t).
  { intros t Ht. unfold Fixture.ensureUTCTimezone. rewrite Ht. reflexivity. }
  destruct (decide (last s = Some 90)) as [E|E].
  - rewrite (Hz s E). apply Hz. exact E.
  - assert (Hs : Fixture.ensureUTCTimezone s = s ++ [90]).
    { unfold Fixture.ensureUTCTimezone.
      destruct (last s) as [c|]; [|reflexivity].
      destruct c as [|c]; [reflexivity|].
      do 7 (destruct c as [c|c|]; try reflexivity).
      all: congruence. }
    rewrite Hs. apply Hz. apply last_snoc.
Qed.

Lemma processMaintenanceData_idempotent_witness :
  (forall s, Fixture.ensureUTCTimezone (Fixture.ensureUTCTimezone s)
             = Fixture.ensureUTCTimezone s)
  /\ processMaintenanceData Fixture.ensureUTCTimezone Fixture.isoGetTime
       (fun _ => Fixture.june2025)
       (processMaintenanceData Fixture.ensureUTCTimezone Fixture.isoGetTime
          (fun _ => Fixture.june2025)
          [Fixture.item [Fixture.window2025]; Fixture.item []])
     = processMaintenanceData Fixture.ensureUTCTimezone Fixture.isoGetTime
         (fun _ => Fixture.june2025)
         [Fixture.item [Fixture.window2025]; Fixture.item []].
Proof.
  split; [exact fixture_ensureUTCTimezone_idempotent|].
  apply processMaintenanceData_idempotent.
  exact fixture_ensureUTCTimezone_idempotent.
Defined.

Lemma processMaintenance_status_progress_witness :
  timeslotList (Fixture.item [Fixture.window2025])
  = Some (Fixture.window2025 :: [])
  /\ Fixture.isoGetTime
       (Fixture.ensureUTCTimezone (startDate Fixture.window2025))
     = Some 1735689600000%Z
  /\ Fixture.isoGetTime
       (Fixture.ensureUTCTimezone (endDate Fixture.window2025))
     = Some 1767139200000%Z
  /\ (Fixture.june2025 <= 1767139200000)%Z
  /\ status (processMaintenance Fixture.ensureUTCTimezone Fixture.isoGetTime
               Fixture.june2025 (Fixture.item [Fixture.window2025]))
     = Some (js "under-maintenance")
  /\ (status (processMaintenance Fixture.ensureUTCTimezone Fixture.isoGetTime
                1767139200000 (Fixture.item [Fixture.window2025]))
      = Some (js "scheduled") ->
      status (processMaintenance Fixture.ensureUTCTimezone Fixture.isoGetTime
                Fixture.june2025 (Fixture.item [Fixture.window2025]))
      = Some (js "scheduled")).
Proof.
  assert (A : Fixture.isoGetTime
                (Fixture.ensureUTCTimezone (startDate Fixture.window2025))
              = Some 1735689600000%Z) by (vm_compute; reflexivity).
  assert (B : Fixture.isoGetTime
                (Fixture.ensureUTCTimezone (endDate Fixture.window2025))
              = Some 1767139200000%Z) by (vm_compute; reflexivity).
  assert (C : (Fixture.june2025 <= 1767139200000)%Z)
    by (unfold Fixture.june2025; lia).
  split; [reflexivity|]. split; [exact A|]. split; [exact B|].
  split; [exact C|]. split; [vm_compute; reflexivity|].
  apply (processMaintenance_status_progress Fixture.ensureUTCTimezone
           Fixture.isoGetTime Fixture.june2025 1767139200000
           (Fixture.item [Fixture.window2025]) Fixture.window2025 []
           1735689600000 1767139200000 eq_refl A B C).
Defined.

End ServerMoreExamples.

(** ** utils/url.ts *)

Section UrlFacts.
Import Url.

Lemma startsWith_app (p s t : jstring) :
  startsWith p s = true -> startsWith p (s ++ t) = true.
Proof.
  unfold startsWith. destruct (stripPrefix p s) as [r|] eqn:E; [|discriminate].
  apply stripPrefix_Some in E as ->. rewrite <- app_assoc, stripPrefix_app.
  reflexivity.
Qed.

Lemma startsWith_nonempty (p s : jstring) :
  p <> [] -> startsWith p s = true -> s <> [].
Proof.
  unfold startsWith. destruct p; [congruence|]. destruct s; [discriminate|].
  discriminate.
Qed.

Lemma resolveIconUrl_nonempty (p : jstring) (baseUrl : option jstring) :
  p <> [] ->
  resolveIconUrl (Some p) baseUrl
  = if startsWith (js "http") p then p
    else match baseUrl with
         | None | Some [] =>
             if startsWith (js "/") p then p else js "/" ++ p
         | Some b => b ++ js "/" ++ dropLeadingSlash p
         end.
Proof. destruct p; [congruence|reflexivity]. Qed.

(** X16: without a base URL the result is a site-relative or an absolute
    address, never empty text, and resolving it again leaves it as it is;
    an empty base URL counts as none. *)
Theorem resolveIconUrl_relative (iconPath : option jstring) :
  (startsWith (js "/") (resolveIconUrl iconPath None) = true
   \/ startsWith (js "http") (resolveIconUrl iconPath None) = true)
  /\ resolveIconUrl (Some (resolveIconUrl iconPath None)) None
     = resolveIconUrl iconPath None
  /\ resolveIconUrl iconPath (Some []) = resolveIconUrl iconPath None.
Proof.
  destruct iconPath as [[|c p]|]; try (repeat split; auto; fail).
  set (path := c :: p).
  assert (Hne : path <> []) by discriminate.
  rewrite !(resolveIconUrl_nonempty path) by exact Hne.
  destruct (startsWith (js "http") path) eqn:Hhttp.
  { rewrite (resolveIconUrl_nonempty path), Hhttp by exact Hne. auto. }
  destruct (startsWith (js "/") path) eqn:Hslash.
  { rewrite (resolveIconUrl_nonempty path), Hhttp, Hslash by exact Hne. auto. }
  split; [left; reflexivity|]. split; reflexivity.
Qed.

(** X17: with a base URL, a path that is not absolute is appended to the
    base after one slash, and one leading slash of the path makes no
    difference; only one is dropped. *)
Theorem resolveIconUrl_with_base (baseUrl p : jstring) :
  baseUrl <> [] ->
  p <> [] ->
  startsWith (js "http") p = false ->
  startsWith (js "/") p = false ->
  resolveIconUrl (Some p) (Some baseUrl) = baseUrl ++ js "/" ++ p
  /\ resolveIconUrl (Some (js "/" ++ p)) (Some baseUrl) = baseUrl ++ js "/" ++ p
  /\ resolveIconUrl (Some (js "//" ++ p)) (Some baseUrl)
     = baseUrl ++ js "//" ++ p.
Proof.
  intros Hb Hp Hhttp Hslash.
  destruct baseUrl as [|b bs]; [congruence|].
  rewrite (resolveIconUrl_nonempty p) by exact Hp. rewrite Hhttp.
  unfold dropLeadingSlash. unfold startsWith in Hslash.
  destruct (stripPrefix (js "/") p); [discriminate|].
  repeat split; reflexivity.
Qed.

Lemma resolveIconUrl_with_base_witness :
  js "https://kuma.example" <> []
  /\ js "upload/logo.png" <> []
  /\ startsWith (js "http") (js "upload/logo.png") = false
  /\ startsWith (js "/") (js "upload/logo.png") = false
  /\ resolveIconUrl (Some (js "upload/logo.png")) (Some (js "https://kuma.example"))
     = js "https://kuma.example/upload/logo.png"
  /\ resolveIconUrl (Some (js "/upload/logo.png")) (Some (js "https://kuma.example"))
     = js "https://kuma.example/upload/logo.png"
  /\ resolveIconUrl (Some (js "//upload/logo.png")) (Some (js "https://kuma.example"))
     = js "https://kuma.example//upload/logo.png".
Proof.
  split; [discriminate|]. split; [discriminate|].
  split; [reflexivity|]. split; [reflexivity|].
  apply (resolveIconUrl_with_base (js "https://kuma.example")
           (js "upload/logo.png")); (discriminate || reflexivity).
Defined.

(** X18: with a base URL that starts with [http], every non-empty path
    resolves to an absolute address that resolving again leaves alone;
    a missing path gives the default icon as a site-relative path, without
    the base, and resolving that once more does prefix the base. *)
Theorem resolveIconUrl_absolute (baseUrl p : jstring) :
  startsWith (js "http") baseUrl = true ->
  p <> [] ->
  startsWith (js "http") (resolveIconUrl (Some p) (Some baseUrl)) = true
  /\ resolveIconUrl (Some (resolveIconUrl (Some p) (Some baseUrl))) (Some baseUrl)
     = resolveIconUrl (Some p) (Some baseUrl)
  /\ resolveIconUrl None (Some baseUrl) = js "/icon.svg"
  /\ resolveIconUrl (Some (resolveIconUrl None (Some baseUrl))) (Some baseUrl)
     = baseUrl ++ js "/icon.svg".
Proof.
  intros Hb Hp.
  assert (Hbne : baseUrl <> [])
    by (apply (startsWith_nonempty (js "http")); [discriminate|exact Hb]).
  assert (Habs : startsWith (js "http") (resolveIconUrl (Some p) (Some baseUrl))
                 = true).
  { rewrite (resolveIconUrl_nonempty p) by exact Hp.
    destruct (startsWith (js "http") p) eqn:Hhttp; [exact Hhttp|].
    destruct baseUrl as [|b bs]; [congruence|].
    apply startsWith_app. exact Hb. }
  split; [exact Habs|]. split.
  - rewrite (resolveIconUrl_nonempty (resolveIconUrl (Some p) (Some baseUrl))).
    + rewrite Habs. reflexivity.
    + apply (startsWith_nonempty (js "http")); [discriminate|exact Habs].
  - split; [reflexivity|].
    destruct baseUrl as [|b bs]; [congruence|]. reflexivity.
Qed.

Lemma resolveIconUrl_absolute_witness :
  startsWith (js "http") (js "https://kuma.example") = true
  /\ js "/upload/logo.png" <> []
  /\ startsWith (js "http")
       (resolveIconUrl (Some (js "/upload/logo.png"))
          (Some (js "https://kuma.example"))) = true
  /\ resolveIconUrl
       (Some (resolveIconUrl (Some (js "/upload/logo.png"))
                (Some (js "https://kuma.example"))))
       (Some (js "https://kuma.example"))
     = js "https://kuma.example/upload/logo.png"
  /\ resolveIconUrl None (Some (js "https://kuma.example")) = js "/icon.svg"
  /\ resolveIconUrl
       (Some (resolveIconUrl None (Some (js "https://kuma.example"))))
       (Some (js "https://kuma.example"))
     = js "https://kuma.example/icon.svg".
Proof.
  split; [reflexivity|]. split; [discriminate|].
  apply (resolveIconUrl_absolute (js "https://kuma.example")
           (js "/upload/logo.png")); (discriminate || reflexivity).
Defined.

End UrlFacts.

(** ** config/site.ts *)

Section SiteFacts.
Import Api Site.

(** X19: when [getConfig] succeeds, [siteConfig] describes the same
    default page as [apiConfig]: its name and description are that page's
    title and description, or the built-in ones where those are empty, so
    neither is ever empty, and its icon is that page's icon resolved
    against the base URL. *)
Theorem siteConfig_matches_getConfig (env : GeneratedConfig) (cfg : Config) :
  getConfig env = Returns cfg ->
  name (siteConfig env) = orElse (title (siteMeta cfg)) (js "Kuma Mieru")
  /\ siteDescription (siteConfig env)
     = orElse (description (siteMeta cfg))
         (js "A beautiful and modern uptime monitoring dashboard")
  /\ siteIcon (siteConfig env)
     = Url.resolveIconUrl (Some (icon (siteMeta cfg))) (Some (baseUrl cfg))
  /\ name (siteConfig env) <> []
  /\ siteDescription (siteConfig env) <> [].
Proof.
  intros Hcfg.
  destruct (getConfig_Returns _ _ Hcfg)
    as (Hb & _ & _ & _ & _ & _ & page0 & others & Hp & Hm).
  assert (Hmeta : defaultSiteMeta env = siteMeta cfg).
  { unfold defaultSiteMeta, defaultPage. rewrite Hm, Hp.
    destruct (findPage (env_defaultPageId env) (page0 :: others));
      reflexivity. }
  unfold siteConfig. cbn [name siteDescription siteIcon].
  rewrite Hmeta, Hb. repeat split.
  - destruct (title (siteMeta cfg)); discriminate.
  - destruct (description (siteMeta cfg)); discriminate.
Qed.

Lemma siteConfig_matches_getConfig_witness :
  getConfig Fixture.twoPages = Returns Fixture.twoPagesConfig
  /\ name (siteConfig Fixture.twoPages) = js "Beta"
  /\ siteDescription (siteConfig Fixture.twoPages) = js "second page"
  /\ siteIcon (siteConfig Fixture.twoPages) = js "https://kuma.example/b.svg"
  /\ name (siteConfig Fixture.twoPages) <> []
  /\ siteDescription (siteConfig Fixture.twoPages) <> [].
Proof.
  split; [reflexivity|].
  apply (siteConfig_matches_getConfig Fixture.twoPages Fixture.twoPagesConfig).
  reflexivity.
Defined.

(** X20: [getVisibleNavItems] keeps the order of the items, keeps every
    item that is not labelled [page.edit], and keeps those that are
    exactly when [isEditThisPage] is set; so the navigation of
    [siteConfig] is the one link to [/manage-status-page] under the base
    URL when the flag is set, and empty when it is not. *)
Theorem getVisibleNavItems_edit_link (env : GeneratedConfig)
    (items : list NavItem) :
  (forall item,
     In item (getVisibleNavItems env items)
     <-> In item items
         /\ (label item = js "page.edit" -> env_isEditThisPage env = true))
  /\ sublist (getVisibleNavItems env items) items
  /\ navMenuItems (siteConfig env) = navItems (siteConfig env)
  /\ navItems (siteConfig env)
     = if env_isEditThisPage env
       then [ {| label := js "page.edit";
                 href := env_baseUrl env ++ js "/manage-status-page";
                 external := true |} ]
       else [].
Proof.
  split; [|split; [|split]].
  - intros item. unfold getVisibleNavItems. rewrite List.filter_In.
    destruct (eqb (label item) (js "page.edit")) eqn:E; cbn [negb].
    + apply eqb_eq in E. split; intros [Hin H]; auto.
    + apply eqb_neq in E. split; intros [Hin H]; split; auto; try easy.
  - unfold getVisibleNavItems.
    induction items as [|item items IH]; cbn [List.filter]; [constructor|].
    destruct (if negb _ then true else _); constructor; exact IH.
  - reflexivity.
  - unfold siteConfig, getVisibleNavItems, allNavItems.
    cbn [navItems List.filter label]. rewrite eqb_refl. cbn [negb].
    destruct (env_isEditThisPage env); reflexivity.
Qed.

End SiteFacts.

(** ** The page list of the configuration generator *)

Section GeneratorFacts.
Import Api Generator.

Lemma split_nonempty (sep : N) (s : jstring) : split sep s <> [].
Proof.
  induction s as [|c s IH]; cbn [split]; [discriminate|].
  destruct (N.eqb c sep); [discriminate|].
  destruct (split sep s); discriminate.
Qed.

Lemma split_length (sep : N) (s : jstring) :
  length (split sep s) = S (length (List.filter (N.eqb sep) s)).
Proof.
  induction s as [|c s IH]; cbn [split List.filter]; [reflexivity|].
  rewrite (N.eqb_sym sep c).
  destruct (N.eqb c sep); cbn [length]; [congruence|].
  destruct (split sep s); [discriminate|exact IH].
Qed.

Lemma split_In (sep : N) (s part : jstring) (x : N) :
  In part (split sep s) -> In x part -> In x s /\ x <> sep.
Proof.
  revert part. induction s as [|c s IH]; cbn [split]; intros part Hp Hx.
  - destruct Hp as [<-|[]]. destruct Hx.
  - destruct (N.eqb_spec c sep) as [->|Hne].
    + destruct Hp as [<-|Hp]; [destruct Hx|].
      destruct (IH _ Hp Hx); split; [right|]; assumption.
    + destruct (split sep s) as [|p0 ps] eqn:E.
      * destruct Hp as [<-|[]]. destruct Hx as [<-|[]]. split; [left|]; auto.
      * destruct Hp as [<-|Hp].
        -- destruct Hx as [<-|Hx]; [split; [left|]; auto|].
           destruct (IH p0 (or_introl eq_refl) Hx). split; [right|]; assumption.
        -- destruct (IH part (or_intror Hp) Hx). split; [right|]; assumption.
Qed.

Lemma split_no_sep (sep : N) (s : jstring) :
  ~ In sep s -> split sep s = [s].
Proof.
  induction s as [|c s IH]; cbn [split]; intros Hn; [reflexivity|].
  destruct (N.eqb_spec c sep) as [->|Hne]; [destruct Hn; left; reflexivity|].
  rewrite IH; [reflexivity|]. intros H. apply Hn. right. exact H.
Qed.

Lemma split_app (sep : N) (a b : jstring) :
  ~ In sep a -> split sep (a ++ sep :: b) = a :: split sep b.
Proof.
  induction a as [|c a IH]; cbn [split app]; intros Hn.
  - rewrite N.eqb_refl. reflexivity.
  - destruct (N.eqb_spec c sep) as [->|Hne]; [destruct Hn; left; reflexivity|].
    rewrite IH; [reflexivity|]. intros H. apply Hn. right. exact H.
Qed.

Lemma split_two (sep : N) (s : jstring) :
  In sep s -> exists a b parts, split sep s = a :: b :: parts.
Proof.
  induction s as [|c s IH]; cbn [split]; intros Hin; [destruct Hin|].
  destruct (N.eqb_spec c sep) as [->|Hne].
  - destruct (split sep s) as [|b parts] eqn:E; [destruct (split_nonempty _ _ E)|].
    eauto.
  - destruct Hin as [->|Hin]; [congruence|].
    destruct (IH Hin) as (a & b & parts & ->). eauto.
Qed.

Lemma split_head_prefix (sep : N) (s part : jstring) (parts : list jstring) :
  split sep s = part :: parts -> exists r, s = part ++ r.
Proof.
  revert part parts. induction s as [|c s IH]; cbn [split]; intros part parts H.
  - injection H as <- <-. exists []. reflexivity.
  - destruct (N.eqb c sep).
    + injection H as <- <-. exists (c :: s). reflexivity.
    + destruct (split sep s) as [|p0 ps] eqn:E.
      * injection H as <- <-. destruct (split_nonempty _ _ E).
      * injection H as <- <-. destruct (IH p0 ps eq_refl) as [r ->].
        exists r. reflexivity.
Qed.

Lemma includes_char (c : N) (s : jstring) :
  includes [c] s = true <-> In c s.
Proof.
  induction s as [|y s IH]; cbn [includes stripPrefix].
  - split; [discriminate|intros []].
  - destruct (N.eqb_spec c y) as [->|Hne].
    + split; [left; reflexivity|reflexivity].
    + rewrite IH. split; [right; assumption|]. intros [E|H]; congruence.
Qed.

Lemma trimStart_In (s : jstring) (x : N) : In x (trimStart s) -> In x s.
Proof.
  induction s as [|c s IH]; cbn [trimStart]; [auto|].
  destruct (isSpace c); [right; auto|auto].
Qed.

Lemma trimEnd_In (s : jstring) (x : N) : In x (trimEnd s) -> In x s.
Proof.
  induction s as [|c s IH]; cbn [trimEnd]; [auto|].
  destruct (trimEnd s) as [|t ts].
  - destruct (isSpace c); [intros []|]. intros [<-|[]]. left. reflexivity.
  - intros [<-|H]; [left; reflexivity|right; auto].
Qed.

Lemma trim_In (s : jstring) (x : N) : In x (trim s) -> In x s.
Proof. intros H. apply trimStart_In, trimEnd_In, H. Qed.

Lemma trimStart_idemp (s : jstring) : trimStart (trimStart s) = trimStart s.
Proof.
  induction s as [|c s IH]; cbn [trimStart]; [reflexivity|].
  destruct (isSpace c) eqn:E; [exact IH|]. cbn [trimStart]. rewrite E.
  reflexivity.
Qed.

Lemma trimEnd_idemp (s : jstring) : trimEnd (trimEnd s) = trimEnd s.
Proof.
  induction s as [|c s IH]; cbn [trimEnd]; [reflexivity|].
  destruct (trimEnd s) as [|t ts] eqn:E.
  - destruct (isSpace c) eqn:Ec; [reflexivity|]. cbn [trimEnd]. rewrite Ec.
    reflexivity.
  - change (trimEnd (c :: t :: ts))
      with (match trimEnd (t :: ts) with
            | [] => if isSpace c then [] else [c]
            | u => c :: u
            end).
    rewrite IH. reflexivity.
Qed.

Lemma trimStart_length (s : jstring) : (length (trimStart s) <= length s)%nat.
Proof.
  induction s as [|c s IH]; cbn [trimStart]; [lia|].
  destruct (isSpace c); cbn [length]; lia.
Qed.

Lemma trimStart_fixed (c : N) (s : jstring) :
  trimStart (c :: s) = c :: s <-> isSpace c = false.
Proof.
  cbn [trimStart]. destruct (isSpace c); split; auto; [|discriminate].
  intros H. pose proof (trimStart_length s) as L. rewrite H in L.
  cbn [length] in L. lia.
Qed.

Lemma trimStart_trimEnd (s : jstring) :
  trimStart s = s -> trimStart (trimEnd s) = trimEnd s.
Proof.
  destruct s as [|c s]; [reflexivity|]. intros H.
  apply trimStart_fixed in H. cbn [trimEnd].
  destruct (trimEnd s); rewrite ?H; apply trimStart_fixed, H.
Qed.

Lemma trimStart_prefix (a b : jstring) :
  trimStart (a ++ b) = a ++ b -> a <> [] -> trimStart a = a.
Proof.
  destruct a as [|c a]; [congruence|]. intros H _.
  apply trimStart_fixed. apply (trimStart_fixed c (a ++ b)). exact H.
Qed.

Lemma trim_idemp (s : jstring) : trim (trim s) = trim s.
Proof.
  unfold trim.
  rewrite (trimStart_trimEnd (trimStart s)) by apply trimStart_idemp.
  apply trimEnd_idemp.
Qed.

Lemma trim_trimStart (s : jstring) : trimStart (trim s) = trim s.
Proof. unfold trim. apply trimStart_trimEnd, trimStart_idemp. Qed.

Lemma pageIdEntries_cons (s : jstring) :
  exists part parts,
    split comma s = part :: parts
    /\ pageIdEntries s = trim part :: map trim parts.
Proof.
  unfold pageIdEntries. destruct (split comma s) as [|part parts] eqn:E.
  - destruct (split_nonempty _ _ E).
  - exists part, parts. split; reflexivity.
Qed.

(** The loop body never throws: an entry that includes a colon has at
    least two parts. *)
Lemma pageConfig_Returns (entry : jstring) :
  exists d parts,
    split colon entry = d :: parts
    /\ pageConfig entry
       = Returns {| entry_id := trim d;
                    entry_name := match parts with
                                  | n :: _ => Some (trim n)
                                  | [] => None
                                  end |}.
Proof.
  unfold pageConfig. destruct (includes [colon] entry) eqn:E.
  - apply includes_char, split_two in E as (a & b & parts & ->).
    exists a, (b :: parts). split; reflexivity.
  - assert (Hn : ~ In colon entry).
    { intros H. apply includes_char in H. congruence. }
    rewrite (split_no_sep _ _ Hn). exists entry, []. split; reflexivity.
Qed.

Lemma mapM_pageConfig (entries : list jstring) :
  exists pages,
    mapM pageConfig entries = Returns pages
    /\ Forall2 (fun entry page => pageConfig entry = Returns page) entries pages.
Proof.
  induction entries as [|entry entries (pages & E & F)].
  - exists []. split; [reflexivity|constructor].
  - destruct (pageConfig_Returns entry) as (d & parts & _ & Hp).
    eexists (_ :: pages). split.
    + cbn [mapM]. rewrite Hp. cbn. rewrite E. reflexivity.
    + constructor; [exact Hp|exact F].
Qed.

(** What the fragment computes whenever a page list is configured. *)
Lemma generateConfig_pages_Returns (PAGE_IDS PAGE_ID PAGE_DEFAULT_ID : option jstring)
    (pageIdsStr : jstring) :
  orVar PAGE_IDS PAGE_ID = Some pageIdsStr ->
  pageIdsStr <> [] ->
  exists d pages,
    generateConfig_pages PAGE_IDS PAGE_ID PAGE_DEFAULT_ID = Returns (Some d, pages)
    /\ Forall2 (fun entry page => pageConfig entry = Returns page)
         (pageIdEntries pageIdsStr) pages
    /\ match PAGE_DEFAULT_ID with
       | Some (c :: v) => d = c :: v
       | _ => exists entry0 entries parts,
                pageIdEntries pageIdsStr = entry0 :: entries
                /\ split colon entry0 = d :: parts
       end.
Proof.
  intros Hs Hne. unfold generateConfig_pages. rewrite Hs.
  destruct pageIdsStr as [|c0 s0]; [congruence|].
  set (s := c0 :: s0).
  destruct (mapM_pageConfig (pageIdEntries s)) as (pages & Hm & HF).
  destruct (pageIdEntries_cons s) as (part & parts & _ & He).
  destruct (split colon (trim part)) as [|d ds] eqn:Ed;
    [destruct (split_nonempty _ _ Ed)|].
  assert (Hd : forall v, match v with Some (_ :: _) => False | _ => True end ->
                defaultPageId v (pageIdEntries s) = Returns (Some d)).
  { intros v Hv. unfold defaultPageId. rewrite He, Ed.
    destruct v as [[|]|]; (reflexivity || destruct Hv). }
  destruct PAGE_DEFAULT_ID as [[|c v]|].
  - exists d, pages. rewrite (Hd (Some [])) by exact I. rewrite Hm.
    split; [reflexivity|]. split; [exact HF|]. eauto.
  - exists (c :: v), pages. cbn [defaultPageId]. rewrite Hm.
    split; [reflexivity|]. split; [exact HF|reflexivity].
  - exists d, pages. rewrite (Hd None) by exact I. rewrite Hm.
    split; [reflexivity|]. split; [exact HF|]. eauto.
Qed.

Lemma orVar_chosen (a b : option jstring) :
  match orVar a b with
  | Some (_ :: _) => True
  | _ => (a = None \/ a = Some []) /\ (b = None \/ b = Some [])
  end.
Proof. destruct a as [[|]|], b as [[|]|]; cbn; auto. Qed.

Lemma pageConfig_clean (part : jstring) (page : PageEntry) :
  ~ In comma part ->
  pageConfig (trim part) = Returns page ->
  clean (entry_id page)
  /\ (forall n, entry_name page = Some n -> clean n)
  /\ exists d parts, split colon (trim part) = d :: parts
                     /\ entry_id page = trim d.
Proof.
  intros Hc Hp.
  destruct (pageConfig_Returns (trim part)) as (d & parts & Hs & Hp').
  rewrite Hp' in Hp. injection Hp as <-. cbn [entry_id entry_name].
  assert (Hpart : forall t, In t (d :: parts) -> clean (trim t)).
  { intros t Ht. rewrite <- Hs in Ht. split; [apply trim_idemp|].
    split; intros Hx; apply trim_In in Hx;
      destruct (split_In _ _ _ _ Ht Hx) as [Hin Hne]; [|congruence].
    apply Hc. apply trim_In. exact Hin. }
  split; [apply Hpart; left; reflexivity|]. split; [|eauto].
  intros n Hn. destruct parts as [|n0 parts]; [discriminate|].
  injection Hn as <-. apply Hpart. right. left. reflexivity.
Qed.

Lemma split_comma_parts (s part : jstring) :
  In part (split comma s) -> ~ In comma part.
Proof. intros Hp Hx. destruct (split_In _ _ _ _ Hp Hx). congruence. Qed.

Lemma pageIdEntries_clean (s : jstring) (pages : list PageEntry) :
  Forall2 (fun entry page => pageConfig entry = Returns page)
    (pageIdEntries s) pages ->
  Forall (fun page => clean (entry_id page)
                      /\ forall n, entry_name page = Some n -> clean n) pages.
Proof.
  unfold pageIdEntries. intros HF.
  assert (Hparts : Forall (fun part => ~ In comma part) (split comma s)).
  { apply List.Forall_forall. intros part. apply split_comma_parts. }
  revert pages HF. induction Hparts as [|part parts Hpart _ IH];
    cbn [map]; intros pages HF; inversion HF as [|? page ? pages' Hp HF']; subst;
    constructor.
  - destruct (pageConfig_clean _ _ Hpart Hp) as (Hid & Hname & _). auto.
  - apply IH. exact HF'.
Qed.

(** With no [PAGE_DEFAULT_ID], the first page's id is the default id
    without the whitespace at its end. *)
Lemma default_id_first_page (PAGE_IDS PAGE_ID PAGE_DEFAULT_ID : option jstring)
    (d : jstring) (page0 : PageEntry) (pages : list PageEntry) :
  PAGE_DEFAULT_ID = None \/ PAGE_DEFAULT_ID = Some [] ->
  generateConfig_pages PAGE_IDS PAGE_ID PAGE_DEFAULT_ID
  = Returns (Some d, page0 :: pages) ->
  entry_id page0 = trimEnd d
  /\ trimStart d = d
  /\ Forall (fun page => clean (entry_id page)) (page0 :: pages).
Proof.
  intros Hunset Hgen.
  pose proof (orVar_chosen PAGE_IDS PAGE_ID) as Hch.
  destruct (orVar PAGE_IDS PAGE_ID) as [[|c0 s0]|] eqn:Hs;
    try (unfold generateConfig_pages in Hgen; rewrite Hs in Hgen; discriminate).
  destruct (generateConfig_pages_Returns PAGE_IDS PAGE_ID PAGE_DEFAULT_ID
              (c0 :: s0) Hs ltac:(discriminate))
    as (d' & pages' & Hgen' & HF & Hd).
  rewrite Hgen' in Hgen. injection Hgen as -> ->.
  assert (Hclean := pageIdEntries_clean _ _ HF).
  assert (Hd' : exists entry0 entries parts,
             pageIdEntries (c0 :: s0) = entry0 :: entries
             /\ split colon entry0 = d :: parts).
  { destruct Hunset as [-> | ->]; exact Hd. }
  destruct Hd' as (entry0 & entries & parts & He & Hsplit).
  destruct (pageIdEntries_cons (c0 :: s0)) as (part & parts' & Hparts & He').
  rewrite He' in He. injection He as <- <-.
  rewrite He' in HF. inversion HF as [|? ? ? ? Hp _]; subst.
  assert (Hpart : ~ In comma part).
  { apply (split_comma_parts (c0 :: s0)). rewrite Hparts. left. reflexivity. }
  destruct (pageConfig_clean _ _ Hpart Hp) as (_ & _ & d2 & parts2 & Hsplit2 & Hid).
  rewrite Hsplit in Hsplit2. injection Hsplit2 as <- <-.
  assert (Hstart : trimStart d = d).
  { destruct d as [|x d]; [reflexivity|].
    destruct (split_head_prefix _ _ _ _ Hsplit) as [r Hr].
    apply (trimStart_prefix (x :: d) r); [|discriminate].
    rewrite <- Hr. apply trim_trimStart. }
  split; [|split; [exact Hstart|]].
  - rewrite Hid. unfold trim. rewrite Hstart. reflexivity.
  - eapply List.Forall_impl; [|exact Hclean]. intros page [H _]. exact H.
Qed.

(** X21: the page list of the generator fails only when neither
    [PAGE_IDS] nor [PAGE_ID] holds a non-empty text, and then with its
    own message; otherwise the default id is defined and there is one
    page for each comma-separated entry, empty entries included. *)
Theorem generateConfig_pages_outcome
    (PAGE_IDS PAGE_ID PAGE_DEFAULT_ID : option jstring) :
  match orVar PAGE_IDS PAGE_ID with
  | Some ((_ :: _) as pageIdsStr) =>
      (PAGE_IDS = Some pageIdsStr
       \/ (PAGE_IDS = None \/ PAGE_IDS = Some []) /\ PAGE_ID = Some pageIdsStr)
      /\ exists d pages,
           generateConfig_pages PAGE_IDS PAGE_ID PAGE_DEFAULT_ID
           = Returns (Some d, pages)
           /\ length pages
              = S (length (List.filter (N.eqb comma) pageIdsStr))
  | _ =>
      (PAGE_IDS = None \/ PAGE_IDS = Some [])
      /\ (PAGE_ID = None \/ PAGE_ID = Some [])
      /\ generateConfig_pages PAGE_IDS PAGE_ID PAGE_DEFAULT_ID
         = Throws (Err PlainError
                     (js "Either PAGE_IDS or PAGE_ID environment variable is required"))
  end.
Proof.
  pose proof (orVar_chosen PAGE_IDS PAGE_ID) as Hch.
  destruct (orVar PAGE_IDS PAGE_ID) as [[|c0 s0]|] eqn:Hs.
  - destruct Hch as [Ha Hb]. repeat split; auto.
    unfold generateConfig_pages. rewrite Hs. reflexivity.
  - split.
    { destruct PAGE_IDS as [[|]|]; cbn in Hs; auto. }
    destruct (generateConfig_pages_Returns PAGE_IDS PAGE_ID PAGE_DEFAULT_ID
                (c0 :: s0) Hs ltac:(discriminate))
      as (d & pages & Hgen & HF & _).
    exists d, pages. split; [exact Hgen|].
    rewrite <- (Forall2_length _ _ _ HF). unfold pageIdEntries.
    rewrite length_map. apply split_length.
  - destruct Hch as [Ha Hb]. repeat split; auto.
    unfold generateConfig_pages. rewrite Hs. reflexivity.
Qed.

(** X22: every page id the generator produces, and every page name, is
    free of surrounding whitespace and contains neither a comma nor a
    colon. *)
Theorem generateConfig_pages_clean
    (PAGE_IDS PAGE_ID PAGE_DEFAULT_ID : option jstring)
    (d : option jstring) (pages : list PageEntry) :
  generateConfig_pages PAGE_IDS PAGE_ID PAGE_DEFAULT_ID = Returns (d, pages) ->
  Forall (fun page =>
            (trim (entry_id page) = entry_id page
             /\ ~ In comma (entry_id page) /\ ~ In colon (entry_id page))
            /\ forall n, entry_name page = Some n ->
                 trim n = n /\ ~ In comma n /\ ~ In colon n) pages.
Proof.
  intros Hgen.
  destruct (orVar PAGE_IDS PAGE_ID) as [[|c0 s0]|] eqn:Hs;
    try (unfold generateConfig_pages in Hgen; rewrite Hs in Hgen; discriminate).
  destruct (generateConfig_pages_Returns PAGE_IDS PAGE_ID PAGE_DEFAULT_ID
              (c0 :: s0) Hs ltac:(discriminate))
    as (d' & pages' & Hgen' & HF & _).
  rewrite Hgen' in Hgen. injection Hgen as <- <-.
  exact (pageIdEntries_clean _ _ HF).
Qed.

Lemma generateConfig_pages_clean_witness :
  generateConfig_pages (Some (js " status : Main page , b:c:d ,")) None None
  = Returns (Some (js "status "),
             [ {| entry_id := js "status"; entry_name := Some (js "Main page") |};
               {| entry_id := js "b"; entry_name := Some (js "c") |};
               {| entry_id := []; entry_name := None |} ])
  /\ Forall (fun page =>
               (trim (entry_id page) = entry_id page
                /\ ~ In comma (entry_id page) /\ ~ In colon (entry_id page))
               /\ forall n, entry_name page = Some n ->
                    trim n = n /\ ~ In comma n /\ ~ In colon n)
       [ {| entry_id := js "status"; entry_name := Some (js "Main page") |};
         {| entry_id := js "b"; entry_name := Some (js "c") |};
         {| entry_id := []; entry_name := None |} ].
Proof.
  split; [reflexivity|].
  apply (generateConfig_pages_clean
           (Some (js " status : Main page , b:c:d ,")) None None
           (Some (js "status "))).
  reflexivity.
Defined.

(** X23: when [PAGE_DEFAULT_ID] is not set, the default id is the text
    before the first colon of the first entry, trimmed at its start only:
    the id of the first page is the default id without the whitespace at
    its end, and the two do differ on some inputs. *)
Theorem generateConfig_pages_default_id
    (PAGE_IDS PAGE_ID PAGE_DEFAULT_ID : option jstring)
    (d : jstring) (page0 : PageEntry) (pages : list PageEntry) :
  PAGE_DEFAULT_ID = None \/ PAGE_DEFAULT_ID = Some [] ->
  generateConfig_pages PAGE_IDS PAGE_ID PAGE_DEFAULT_ID
  = Returns (Some d, page0 :: pages) ->
  entry_id page0 = trimEnd d
  /\ trimStart d = d
  /\ (entry_id page0 = d <-> trimEnd d = d)
  /\ exists ids d' page0' pages',
       generateConfig_pages (Some ids) None None
       = Returns (Some d', page0' :: pages')
       /\ entry_id page0' <> d'.
Proof.
  intros Hunset Hgen.
  destruct (default_id_first_page _ _ _ _ _ _ Hunset Hgen) as (Hid & Hstart & _).
  split; [exact Hid|]. split; [exact Hstart|]. split.
  - rewrite Hid. reflexivity.
  - exists (js "status : Main"), (js "status "),
      {| entry_id := js "status"; entry_name := Some (js "Main") |}, [].
    split; [reflexivity|discriminate].
Qed.

Lemma generateConfig_pages_default_id_witness :
  ((None : option jstring) = None \/ (None : option jstring) = Some [])
  /\ generateConfig_pages None (Some (js "status : Main,b")) None
     = Returns (Some (js "status "),
                [ {| entry_id := js "status"; entry_name := Some (js "Main") |};
                  {| entry_id := js "b"; entry_name := None |} ])
  /\ js "status" = trimEnd (js "status ")
  /\ trimStart (js "status ") = js "status ".
Proof.
  split; [left; reflexivity|]. split; [reflexivity|].
  destruct (generateConfig_pages_default_id
              None (Some (js "status : Main,b")) None (js "status ")
              {| entry_id := js "status"; entry_name := Some (js "Main") |}
              [ {| entry_id := js "b"; entry_name := None |} ]
              (or_introl eq_refl) eq_refl) as (H1 & H2 & _).
  split; [exact H1|exact H2].
Defined.

(** X24: a process configured with the generator's pages and default id
    (no [PAGE_DEFAULT_ID]) starts on the first page: [getConfig] takes the
    site metadata of the first page, whether or not the default id
    carries whitespace at its end, while [currentPageId] and both
    endpoints are built from the default id as it is. *)
Theorem getConfig_generated_default
    (PAGE_IDS PAGE_ID PAGE_DEFAULT_ID : option jstring)
    (d : jstring) (pageConfigs : list PageEntry)
    (env : GeneratedConfig) (cfg : Config) :
  PAGE_DEFAULT_ID = None \/ PAGE_DEFAULT_ID = Some [] ->
  generateConfig_pages PAGE_IDS PAGE_ID PAGE_DEFAULT_ID
  = Returns (Some d, pageConfigs) ->
  env_defaultPageId env = d ->
  map page_id (env_pages env) = map entry_id pageConfigs ->
  getConfig env = Returns cfg ->
  exists page0 others,
    env_pages env = page0 :: others
    /\ page_id page0 = trimEnd d
    /\ siteMeta cfg = page_siteMeta page0
    /\ currentPageId cfg = d
    /\ htmlEndpoint cfg = env_baseUrl env ++ js "/status/" ++ d
    /\ apiEndpoint cfg
       = env_baseUrl env ++ js "/api/status-page/heartbeat/" ++ d.
Proof.
  intros Hunset Hgen Hd Hids Hcfg.
  destruct (getConfig_Returns _ _ Hcfg)
    as (Hb & Hdef & _ & Hcur & Hhtml & Hapi & page0 & others & Hp & Hm).
  exists page0, others. rewrite Hp in Hids.
  destruct pageConfigs as [|entry0 entries]; [discriminate|].
  cbn [map] in Hids. injection Hids as Hid0 Hrest.
  destruct (default_id_first_page _ _ _ _ _ _ Hunset Hgen)
    as (Hid & Hstart & Hclean).
  assert (Hfirst : page_id page0 = trimEnd d) by congruence.
  split; [exact Hp|]. split; [exact Hfirst|].
  rewrite Hcur, Hhtml, Hapi, Hd. repeat split.
  rewrite Hm, Hd, Hp.
  destruct (findPage d (page0 :: others)) as [page|] eqn:Hfind; [|reflexivity].
  cbn [default from_option]. unfold id. f_equal.
  unfold findPage in Hfind. cbn [find] in Hfind.
  destruct (eqb (page_id page0) d) eqn:E0; [congruence|].
  exfalso. apply find_some in Hfind as [Hin Heq]. apply eqb_eq in Heq.
  apply eqb_neq in E0. apply E0. rewrite Hfirst.
  assert (Hc : clean (page_id page)).
  { apply (in_map page_id) in Hin. rewrite Hrest in Hin.
    apply in_map_iff in Hin as (entry & He & Hin). rewrite <- He.
    inversion Hclean as [|? ? _ Hrest']; subst.
    exact (proj1 (List.Forall_forall _ _) Hrest' entry Hin). }
  destruct Hc as [Htrim _]. rewrite Heq in Htrim. unfold trim in Htrim.
  rewrite Hstart in Htrim. exact Htrim.
Qed.

Lemma getConfig_generated_default_witness :
  ((None : option jstring) = None \/ (None : option jstring) = Some [])
  /\ generateConfig_pages (Some (js "status : Main,b")) None None
     = Returns (Some (js "status "), FixtureMore.generatedPages)
  /\ map page_id (env_pages FixtureMore.generated)
     = map entry_id FixtureMore.generatedPages
  /\ getConfig FixtureMore.generated = Returns FixtureMore.generatedConfig
  /\ exists page0 others,
       env_pages FixtureMore.generated = page0 :: others
       /\ page_id page0 = trimEnd (js "status ")
       /\ siteMeta FixtureMore.generatedConfig = page_siteMeta page0
       /\ currentPageId FixtureMore.generatedConfig = js "status "
       /\ htmlEndpoint FixtureMore.generatedConfig
          = env_baseUrl FixtureMore.generated ++ js "/status/" ++ js "status "
       /\ apiEndpoint FixtureMore.generatedConfig
          = env_baseUrl FixtureMore.generated
            ++ js "/api/status-page/heartbeat/" ++ js "status ".
Proof.
  split; [left; reflexivity|]. split; [reflexivity|].
  split; [reflexivity|]. split; [reflexivity|].
  apply (getConfig_generated_default
           (Some (js "status : Main,b")) None None (js "status ")
           FixtureMore.generatedPages FixtureMore.generated
           FixtureMore.generatedConfig);
    (reflexivity || (left; reflexivity)).
Defined.

End GeneratorFacts.

(** ** The data-fetching hooks *)

Section HooksFacts.
Import Server Hooks.

Lemma includes_unfold (p s : jstring) :
  includes p s
  = match stripPrefix p s with
    | Some _ => true
    | None => match s with [] => false | _ :: s' => includes p s' end
    end.
Proof. destruct s; reflexivity. Qed.

Lemma includes_prefix (p s : jstring) : includes p (p ++ s) = true.
Proof. rewrite includes_unfold, stripPrefix_app. reflexivity. Qed.

Lemma getPageUrl_MONITOR (pageId : option jstring) :
  includes (js "/api/monitor") (getPageUrl MONITOR pageId) = true.
Proof.
  unfold getPageUrl, MONITOR. destruct pageId as [[|c p]|].
  - reflexivity.
  - apply includes_prefix.
  - reflexivity.
Qed.

Lemma getPageUrl_CONFIG (pageId : option jstring) :
  includes (js "/api/monitor") (getPageUrl CONFIG pageId)
  = includes (js "/api/monitor") (default [] pageId).
Proof.
  unfold getPageUrl, CONFIG. destruct pageId as [[|c p]|]; reflexivity.
Qed.

Lemma fetcher_Returns (url : jstring) (received : Result JSON) (data : JSON) :
  fetcher url received = Returns data
  <-> received = Returns data
      /\ data <> JNull
      /\ (includes (js "/api/monitor") url = true ->
          falsy (getProperty (js "success") data) = false).
Proof.
  unfold fetcher. destruct received as [d|e]; cbn.
  2: { split; [discriminate|]. intros ([=] & _). }
  assert (Hnull : d = JNull \/ successOf d = Returns (getProperty (js "success") d)
                               /\ d <> JNull).
  { destruct d; (left; reflexivity) || (right; split; [reflexivity|discriminate]). }
  destruct Hnull as [->|[-> Hn]]; cbn.
  { split; [discriminate|]. intros ([= <-] & Hn & _). congruence. }
  destruct (falsy (getProperty (js "success") d)) eqn:Ef;
    destruct (includes (js "/api/monitor") url) eqn:Ei; cbn; split;
    try (intros [= <-]; repeat split; (assumption || discriminate || auto));
    try (intros ([= <-] & _ & Hs); try reflexivity;
         specialize (Hs eq_refl); congruence);
    try discriminate.
Qed.

(** X25: on the monitor address, with or without a page id, the fetcher
    resolves exactly when the body received has a truthy [success], and
    then to that body unchanged; otherwise it rejects. *)
Theorem fetcher_monitor (pageId : option jstring) (received : Result JSON)
    (data : JSON) :
  fetcher (getPageUrl MONITOR pageId) received = Returns data
  <-> received = Returns data
      /\ exists success, getProperty (js "success") data = Some success
                         /\ truthy success = true.
Proof.
  rewrite fetcher_Returns. rewrite getPageUrl_MONITOR. split.
  - intros (Hr & Hn & Hs). split; [exact Hr|]. specialize (Hs eq_refl).
    unfold falsy in Hs. destruct (getProperty (js "success") data) as [v|];
      [|discriminate].
    exists v. split; [reflexivity|]. destruct (truthy v); [reflexivity|discriminate].
  - intros (Hr & v & Hv & Ht). split; [exact Hr|]. split.
    + intros ->. discriminate.
    + intros _. unfold falsy. rewrite Hv, Ht. reflexivity.
Qed.

(** X26: on the config address the fetcher does not look at [success]:
    it resolves to every body other than [null], unless the page id
    itself contains [/api/monitor], in which case a falsy [success]
    makes it reject like a monitor request. *)
Theorem fetcher_config (pageId : option jstring) (received : Result JSON)
    (data : JSON) :
  fetcher (getPageUrl CONFIG pageId) received = Returns data
  <-> received = Returns data
      /\ data <> JNull
      /\ (includes (js "/api/monitor") (default [] pageId) = true ->
          exists success, getProperty (js "success") data = Some success
                          /\ truthy success = true).
Proof.
  rewrite fetcher_Returns. rewrite getPageUrl_CONFIG.
  assert (Hf : falsy (getProperty (js "success") data) = false
               <-> exists success, getProperty (js "success") data = Some success
                                   /\ truthy success = true).
  { unfold falsy. destruct (getProperty (js "success") data) as [v|].
    - destruct (truthy v) eqn:Et; cbn; split; try discriminate; eauto.
      intros (s & Hs & H). congruence.
    - split; [discriminate|]. intros (s & Hs & _). discriminate. }
  rewrite <- Hf. reflexivity.
Qed.

End HooksFacts.

(** ** The page-aware service and the config route *)

Section RouteFacts.
Import Api Server.

Context {Rest IRest : Type}.
Variable ensureUTCTimezone : jstring -> jstring.
Variable dateGetTime : jstring -> option Z.
Variable sanitizeJsonString : jstring -> Result jstring.
Variable extractPreloadData : jstring -> Result (PreloadData Rest IRest).

Local Abbreviation pagedPreloadData :=
  (Paged.getPreloadData sanitizeJsonString extractPreloadData).
Local Abbreviation pagedGlobalConfig :=
  (Paged.getGlobalConfig ensureUTCTimezone dateGetTime sanitizeJsonString
     extractPreloadData).
Local Abbreviation GET :=
  (ConfigRoute.GET ensureUTCTimezone dateGetTime sanitizeJsonString
     extractPreloadData).
Local Abbreviation getPreloadData :=
  (Server.getPreloadData sanitizeJsonString extractPreloadData).

(** The service asks the upstream for one address only: the
    [htmlEndpoint] of the configuration it works with. *)
Lemma pagedGlobalConfig_endpoint (api : Config) (config : option Config)
    (f1 f2 f1' f2' : jstring -> Result Response) (clock : nat -> Z) :
  let u := htmlEndpoint (Paged.currentConfigOf api config) in
  f1' u = f1 u -> f2' u = f2 u ->
  pagedGlobalConfig api f1' f2' clock config
  = pagedGlobalConfig api f1 f2 clock config.
Proof.
  intros u H1 H2.
  unfold Paged.getGlobalConfig, Paged.getMaintenanceData, Paged.getPreloadData.
  cbn [Paged.currentConfigOf]. fold u. rewrite H1, H2. reflexivity.
Qed.

Lemma blank_nonempty (s : jstring) : blank s = false -> s <> [].
Proof. intros H ->. discriminate. Qed.

Lemma GET_run (h : heap) (c : Config) (p : jstring)
    (f1 f2 : jstring -> Result Response) (clock : nat -> Z) :
  h !! apiConfig = Some c ->
  p <> [] ->
  GET (Some p) f1 f2 clock h
  = Some (pagedGlobalConfig c f1 f2 clock (Some (resultFor p c)),
          <[fresh (dom h) := resultFor p c]> h).
Proof.
  intros Hc Hp. destruct p as [|x p]; [congruence|].
  unfold ConfigRoute.GET.
  unfold mbind at 1. unfold St_bind. unfold mbind at 1. unfold St_bind.
  rewrite (getConfigForPage_run _ _ _ _ Hc).
  assert (Hfresh : fresh (dom h) <> apiConfig).
  { intros E. apply (is_fresh (dom h)). rewrite E.
    apply elem_of_dom. eauto. }
  unfold mret, St_ret, get, mbind, St_bind.
  rewrite lookup_insert_ne by exact Hfresh. rewrite Hc.
  rewrite lookup_insert_eq. reflexivity.
Qed.

(** X27: the config route answers a request without a page id, with an
    empty one, or with one that matches no configured page, in the same
    way: with the global configuration of the default page, fetched from
    [apiConfig.htmlEndpoint] and from no other address; [apiConfig] is
    left as it was. *)
Theorem GET_unknown_page (h : heap) (c : Config) (pageId : option jstring)
    (f1 f2 : jstring -> Result Response) (clock : nat -> Z) :
  h !! apiConfig = Some c ->
  (forall p, pageId = Some p -> p = [] \/ findPage p (pages c) = None) ->
  exists h',
    GET pageId f1 f2 clock h
    = Some (pagedGlobalConfig c f1 f2 clock None, h')
    /\ h' !! apiConfig = Some c
    /\ forall f1' f2',
         f1' (htmlEndpoint c) = f1 (htmlEndpoint c) ->
         f2' (htmlEndpoint c) = f2 (htmlEndpoint c) ->
         GET pageId f1' f2' clock h = GET pageId f1 f2 clock h.
Proof.
  intros Hc Hp.
  assert (Hnone : forall g1 g2,
             (pageId = None \/ pageId = Some []) ->
             GET pageId g1 g2 clock h
             = Some (pagedGlobalConfig c g1 g2 clock None, h)).
  { intros g1 g2 [-> | ->]; unfold ConfigRoute.GET;
      unfold mbind, St_bind, mret, St_ret, get; rewrite Hc; reflexivity. }
  assert (Hsame : forall g1 g2 g1' g2',
             g1' (htmlEndpoint c) = g1 (htmlEndpoint c) ->
             g2' (htmlEndpoint c) = g2 (htmlEndpoint c) ->
             pagedGlobalConfig c g1' g2' clock None
             = pagedGlobalConfig c g1 g2 clock None).
  { intros g1 g2 g1' g2' H1 H2.
    apply (pagedGlobalConfig_endpoint c None); assumption. }
  destruct pageId as [[|x p]|].
  - exists h. rewrite !Hnone by auto. split; [reflexivity|].
    split; [exact Hc|]. intros f1' f2' H1 H2. rewrite !Hnone by auto.
    rewrite (Hsame f1 f2 f1' f2') by assumption. reflexivity.
  - destruct (Hp (x :: p) eq_refl) as [E|Hfind]; [discriminate|].
    assert (Hres : resultFor (x :: p) c = c).
    { unfold resultFor. rewrite Hfind. reflexivity. }
    assert (Hrun : forall g1 g2,
               GET (Some (x :: p)) g1 g2 clock h
               = Some (pagedGlobalConfig c g1 g2 clock None,
                       <[fresh (dom h) := c]> h)).
    { intros g1 g2. rewrite (GET_run h c) by (assumption || discriminate).
      rewrite Hres. reflexivity. }
    exists (<[fresh (dom h) := c]> h). rewrite Hrun. split; [reflexivity|].
    split.
    + rewrite lookup_insert_ne; [exact Hc|].
      intros E. apply (is_fresh (dom h)). rewrite E. apply elem_of_dom. eauto.
    + intros f1' f2' H1 H2. rewrite !Hrun.
      rewrite (Hsame f1 f2 f1' f2') by assumption. reflexivity.
  - exists h. rewrite !Hnone by auto. split; [reflexivity|].
    split; [exact Hc|]. intros f1' f2' H1 H2. rewrite !Hnone by auto.
    rewrite (Hsame f1 f2 f1' f2') by assumption. reflexivity.
Qed.

(** X28: for the id of a configured page the config route fetches from
    that page's address, [baseUrl/status/pageId], and from no other: the
    answer is the same for any two upstreams that agree on this address.
    [apiConfig] is left as it was. *)
Theorem GET_known_page (h : heap) (c : Config) (p : jstring) (page : PageConfig)
    (f1 f2 : jstring -> Result Response) (clock : nat -> Z) :
  h !! apiConfig = Some c ->
  p <> [] ->
  findPage p (pages c) = Some page ->
  exists r h',
    GET (Some p) f1 f2 clock h = Some (r, h')
    /\ h' !! apiConfig = Some c
    /\ forall f1' f2',
         f1' (baseUrl c ++ js "/status/" ++ p)
         = f1 (baseUrl c ++ js "/status/" ++ p) ->
         f2' (baseUrl c ++ js "/status/" ++ p)
         = f2 (baseUrl c ++ js "/status/" ++ p) ->
         GET (Some p) f1' f2' clock h = Some (r, h').
Proof.
  intros Hc Hp Hfind.
  assert (Hu : htmlEndpoint (resultFor p c) = baseUrl c ++ js "/status/" ++ p).
  { unfold resultFor. rewrite Hfind. reflexivity. }
  eexists _, _. rewrite (GET_run h c) by assumption.
  split; [reflexivity|]. split.
  - rewrite lookup_insert_ne; [exact Hc|].
    intros E. apply (is_fresh (dom h)). rewrite E. apply elem_of_dom. eauto.
  - intros f1' f2' H1 H2. rewrite (GET_run h c) by assumption.
    rewrite (pagedGlobalConfig_endpoint c (Some (resultFor p c)) f1 f2 f1' f2');
      [reflexivity| |]; cbn [Paged.currentConfigOf]; rewrite Hu; assumption.
Qed.

(** X29: the page-aware [getPreloadData] of the service agrees with the
    one of [config.server.ts] on every outcome of the request except a
    successful response whose [#preload-data] text is blank: there it
    never looks for the legacy script, throws its own error on an empty
    text and hands a text of whitespace to the sanitizer. *)
Theorem pagedPreloadData_agrees (api : Config) (config : option Config)
    (fetched : Result Response) :
  pagedPreloadData api (fun _ => fetched) config
  = match fetched with
    | Returns r =>
        let preloadScript := text (selectPreloadData (body r)) in
        if ok r && blank preloadScript then
          match preloadScript with
          | [] => Throws (Err ConfigError (js "Preload script tag not found"))
          | _ :: _ =>
              parsePreloadScript sanitizeJsonString extractPreloadData
                preloadScript
          end
        else getPreloadData fetched
    | Throws _ => getPreloadData fetched
    end.
Proof.
  unfold Paged.getPreloadData, Server.getPreloadData.
  destruct fetched as [r|e]; [|reflexivity]. cbn.
  destruct (ok r) eqn:Hok; [|reflexivity]. cbn.
  unfold locatePreloadScript.
  destruct (blank (text (selectPreloadData (body r)))) eqn:Hb.
  - destruct (text (selectPreloadData (body r))) as [|x t]; [reflexivity|].
    unfold parsePreloadScript, tryCatch.
    destruct (_ ≫= _) as [d|[[]|]]; reflexivity.
  - rewrite Hb.
    destruct (text (selectPreloadData (body r))); [discriminate|reflexivity].
Qed.

End RouteFacts.

Section RouteExamples.
Import Api Server.

Lemma GET_unknown_page_witness :
  Fixture.twoPagesHeap !! apiConfig = Some Fixture.twoPagesConfig
  /\ (forall p, Some (js "zzz") = Some p ->
                p = [] \/ findPage p (pages Fixture.twoPagesConfig) = None)
  /\ exists h',
       ConfigRoute.GET Fixture.ensureUTCTimezone Fixture.isoGetTime Fixture.keep
         (Fixture.parseOnly (js "{}") Fixture.emptyPayload)
         (Some (js "zzz"))
         (fun _ => Returns Fixture.serverError)
         (fun _ => Returns Fixture.serverError) (fun _ => Fixture.june2025)
         Fixture.twoPagesHeap
       = Some (Paged.getGlobalConfig Fixture.ensureUTCTimezone Fixture.isoGetTime
                 Fixture.keep (Fixture.parseOnly (js "{}") Fixture.emptyPayload)
                 Fixture.twoPagesConfig
                 (fun _ => Returns Fixture.serverError)
                 (fun _ => Returns Fixture.serverError)
                 (fun _ => Fixture.june2025) None, h')
       /\ h' !! apiConfig = Some Fixture.twoPagesConfig.
Proof.
  assert (A : Fixture.twoPagesHeap !! apiConfig = Some Fixture.twoPagesConfig)
    by reflexivity.
  assert (B : forall p, Some (js "zzz") = Some p ->
                p = [] \/ findPage p (pages Fixture.twoPagesConfig) = None)
    by (intros p [= <-]; right; reflexivity).
  split; [exact A|]. split; [exact B|].
  destruct (GET_unknown_page (Rest := unit) (IRest := unit)
              Fixture.ensureUTCTimezone Fixture.isoGetTime Fixture.keep
              (Fixture.parseOnly (js "{}") Fixture.emptyPayload)
              Fixture.twoPagesHeap Fixture.twoPagesConfig (Some (js "zzz"))
              (fun _ => Returns Fixture.serverError)
              (fun _ => Returns Fixture.serverError)
              (fun _ => Fixture.june2025) A B) as (h' & Hget & Hapi & _).
  exists h'. split; [exact Hget|exact Hapi].
Defined.

Lemma GET_known_page_witness :
  Fixture.twoPagesHeap !! apiConfig = Some Fixture.twoPagesConfig
  /\ js "a" <> []
  /\ findPage (js "a") (pages Fixture.twoPagesConfig) = Some Fixture.pageA
  /\ exists r h',
       ConfigRoute.GET Fixture.ensureUTCTimezone Fixture.isoGetTime Fixture.keep
         (Fixture.parseOnly (js "{}") Fixture.emptyPayload)
         (Some (js "a"))
         (fun _ => Returns Fixture.serverError)
         (fun _ => Returns Fixture.serverError) (fun _ => Fixture.june2025)
         Fixture.twoPagesHeap
       = Some (r, h')
       /\ h' !! apiConfig = Some Fixture.twoPagesConfig
       /\ forall f1' f2',
            f1' (baseUrl Fixture.twoPagesConfig ++ js "/status/" ++ js "a")
            = Returns Fixture.serverError ->
            f2' (baseUrl Fixture.twoPagesConfig ++ js "/status/" ++ js "a")
            = Returns Fixture.serverError ->
            ConfigRoute.GET Fixture.ensureUTCTimezone Fixture.isoGetTime
              Fixture.keep (Fixture.parseOnly (js "{}") Fixture.emptyPayload)
              (Some (js "a")) f1' f2' (fun _ => Fixture.june2025)
              Fixture.twoPagesHeap
            = Some (r, h').
Proof.
  assert (A : Fixture.twoPagesHeap !! apiConfig = Some Fixture.twoPagesConfig)
    by reflexivity.
  assert (B : js "a" <> []) by discriminate.
  split; [exact A|]. split; [exact B|]. split; [reflexivity|].
  exact (GET_known_page (Rest := unit) (IRest := unit)
           Fixture.ensureUTCTimezone Fixture.isoGetTime Fixture.keep
           (Fixture.parseOnly (js "{}") Fixture.emptyPayload)
           Fixture.twoPagesHeap Fixture.twoPagesConfig (js "a") Fixture.pageA
           (fun _ => Returns Fixture.serverError)
           (fun _ => Returns Fixture.serverError)
           (fun _ => Fixture.june2025) A B eq_refl).
Defined.

End RouteExamples.
